(** * meteo_api_client: the Meteo.lt client, embedded and verified

    A shallow embedding of [src/meteo_api/meteo_client.py].  Parsed JSON is an
    inductive type, Python dictionaries are insertion-ordered association
    lists, exceptions are an error type, and the client's effects (HTTP GET,
    sleeping, logging) are events appended to a trace by a small state and
    error monad.  The pandas calls the client makes are modelled in
    [Module Pandas]. *)

From Stdlib Require Import List String Ascii ZArith Bool Lia Arith.
From Stdlib Require Import Sorting.Sorted Sorting.Permutation.
Import ListNotations.
Local Set Warnings "-register-all".
Open Scope string_scope.
Open Scope list_scope.

(* ================================================================== *)
(** ** Parsed JSON values *)

(** What [response.json()] hands back.  Numbers are never inspected by the
    client; integers carry their value and other number literals their
    decimal mantissa and exponent. *)
Inductive json : Type :=
| JNull
| JBool (b : bool)
| JInt (n : Z)
| JFloat (mantissa exponent : Z)
| JStr (s : string)
| JList (items : list json)
| JObj (members : list (string * json)).

(** [isinstance(val, dict)] and [isinstance(val, list)]. *)
Definition is_dict (val : json) : bool :=
  match val with JObj _ => true | _ => false end.

Definition is_list (val : json) : bool :=
  match val with JList _ => true | _ => false end.

(* ================================================================== *)
(** ** Python dictionaries *)

(** A [dict] with string keys: the association list of its items in
    insertion order.  A real dictionary holds each key once ([wf_dict]). *)
Module PyDict.
Section Ops.
Context {V : Type}.

Definition t := list (string * V).

Definition keys (d : t) : list string := map fst d.

Definition wf_dict (d : t) : Prop := NoDup (keys d).

(** [d[k]], [None] standing for [KeyError]. *)
Fixpoint get (d : t) (k : string) : option V :=
  match d with
  | [] => None
  | (k', v) :: rest => if String.eqb k' k then Some v else get rest k
  end.

(** [k in d]. *)
Definition contains (d : t) (k : string) : bool :=
  match get d k with Some _ => true | None => false end.

(** [d[k] = v]: an existing key keeps its position and takes the new
    value, a new key goes last. *)
Fixpoint set (d : t) (k : string) (v : V) : t :=
  match d with
  | [] => [(k, v)]
  | (k', v') :: rest =>
      if String.eqb k' k then (k', v) :: rest else (k', v') :: set rest k v
  end.

(** [d.pop(k)] for a key that may be absent: the dictionary without it. *)
Fixpoint remove (d : t) (k : string) : t :=
  match d with
  | [] => []
  | (k', v') :: rest =>
      if String.eqb k' k then rest else (k', v') :: remove rest k
  end.

(** [d.update(other)]. *)
Definition update (d other : t) : t :=
  fold_left (fun acc kv => set acc (fst kv) (snd kv)) other d.
End Ops.
Arguments t : clear implicits.
End PyDict.

Definition dict : Type := PyDict.t json.

(* ================================================================== *)
(** ** Record-path discovery and metadata flattening *)

(** [isinstance(val, list) and val and isinstance(val[0], dict)]. *)
Definition is_record_list (val : json) : bool :=
  match val with
  | JList (JObj _ :: _) => true
  | _ => false
  end.

(** Truth value of a [str]: only the empty string is falsy. *)
Definition str_truthy (s : string) : bool := negb (String.eqb s "").

(** The [for key, val in data.items()] scan of [_find_record_path]. *)
Fixpoint scan_record_key (items : dict) : option string :=
  match items with
  | [] => None
  | (key, val) :: rest =>
      if is_record_list val then Some key else scan_record_key rest
  end.

(** [MeteoClient._find_record_path]. *)
Definition _find_record_path (data : dict) (record_path : option string)
  : option string :=
  match record_path with
  | Some rp =>
      if str_truthy rp && PyDict.contains data rp then
        match PyDict.get data rp with
        | Some val =>
            if is_record_list val then Some rp else scan_record_key data
        | None => scan_record_key data
        end
      else scan_record_key data
  | None => scan_record_key data
  end.

(** The inner loop of [_flatten_meta]:
    [for subk, subv in val.items(): flat_meta[f"{key}_{subk}"] = subv]. *)
Definition flatten_sub (key : string) (flat_meta : dict) (sub : dict) : dict :=
  fold_left
    (fun acc kv => PyDict.set acc (key ++ "_" ++ fst kv) (snd kv))
    sub flat_meta.

(** One turn of the outer loop of [_flatten_meta]. *)
Definition flatten_item (record_path : string) (flat_meta : dict)
  (kv : string * json) : dict :=
  let (key, val) := kv in
  if String.eqb key record_path then flat_meta
  else match val with
       | JObj sub => flatten_sub key flat_meta sub
       | _ => PyDict.set flat_meta key val
       end.

(** [MeteoClient._flatten_meta]. *)
Definition _flatten_meta (data : dict) (record_path : string) : dict :=
  fold_left (flatten_item record_path) data [].

(* ================================================================== *)
(** ** Exceptions and outcomes *)

(** What [session.get] returns: the status code and the body as
    [response.json()] reads it, [None] when the body is not valid JSON. *)
Record Response : Type := mkResponse {
  status_code : Z;
  json_body : option json
}.

(** The exceptions that can leave the client.  [HTTPError] carries the
    response it was raised for ([e.response]). *)
Inductive exn : Type :=
| HTTPError (response : Response)
| JSONDecodeError
| RequestException (what : string)
| AttributeError
| TypeError
| ValueError
| KeyError
| OverflowError.

(** A Python computation without side effects either returns or raises. *)
Inductive outcome (A : Type) : Type :=
| Ok (a : A)
| Raise (e : exn).
Arguments Ok {A} a.
Arguments Raise {A} e.

Definition obind {A B : Type} (m : outcome A) (k : A -> outcome B)
  : outcome B :=
  match m with
  | Ok a => k a
  | Raise e => Raise e
  end.

Notation "'let!' x ':=' m 'in' k" := (obind m (fun x => k))
  (at level 10, x name, m at level 100, k at level 200).

(** [[f(x) for x in l]] where [f] may raise: the first exception wins. *)
Fixpoint omap {A B : Type} (f : A -> outcome B) (l : list A)
  : outcome (list B) :=
  match l with
  | [] => Ok []
  | x :: rest =>
      let! y := f x in
      let! ys := omap f rest in
      Ok (y :: ys)
  end.

(** [s.endswith(suffix)]. *)
Definition endswith (s suffix : string) : bool :=
  let n := String.length s in
  let m := String.length suffix in
  (m <=? n)%nat && String.eqb (substring (n - m) m s) suffix.

(* ================================================================== *)
(** ** The pandas calls of the client *)

(** A model of the few pandas operations the client calls, on tables whose
    cells hold parsed JSON values.  Dtype inference is left out: a cell is
    the Python object pandas was given, a missing value, or a datetime. *)
Module Pandas.

(** A timezone, known by its name in the tz database. *)
Definition tzinfo : Type := string.
Definition UTC : tzinfo := "UTC".

Inductive cell : Type :=
| Obj (val : json)
| NaN
| Timestamp (instant : option Z) (tz : option tzinfo).
(** [Timestamp None _] is [NaT]; the instant counts nanoseconds from the
    epoch; [tz = None] is a naive datetime. *)

(** Column labels: the keys of the records, or positions when pandas
    numbers the columns itself. *)
Inductive label : Type :=
| Name (s : string)
| Pos (n : nat).

Definition label_eqb (a b : label) : bool :=
  match a, b with
  | Name s, Name s' => String.eqb s s'
  | Pos n, Pos n' => Nat.eqb n n'
  | _, _ => false
  end.

Record row : Type := mkRow {
  ix : cell;
  vals : list (label * cell)
}.

Record DataFrame : Type := mkFrame {
  axis_name : option label;
  columns : list label;
  rows : list row
}.

Fixpoint assoc (c : label) (l : list (label * cell)) : option cell :=
  match l with
  | [] => None
  | (c', x) :: rest => if label_eqb c' c then Some x else assoc c rest
  end.

(** [df.loc[r, c]], a missing value when the row has nothing there. *)
Definition cell_at (r : row) (c : label) : cell :=
  match assoc c (vals r) with
  | Some x => x
  | None => NaN
  end.

Definition has_column (df : DataFrame) (c : label) : bool :=
  existsb (label_eqb c) (columns df).

(** [pd.DataFrame()]. *)
Definition empty_frame : DataFrame :=
  {| axis_name := None; columns := []; rows := [] |}.

(** [df.empty]: some axis has length zero. *)
Definition empty (df : DataFrame) : bool :=
  match columns df, rows df with
  | [], _ => true
  | _, [] => true
  | _, _ => false
  end.

(** The default [RangeIndex]. *)
Definition range_label (i : nat) : cell := Obj (JInt (Z.of_nat i)).

Definition enumerate {A : Type} (l : list A) : list (nat * A) :=
  combine (seq 0 (List.length l)) l.

(** Keys of a list of dicts in order of first appearance: the columns of
    [pd.DataFrame(list_of_dicts)]. *)
Definition add_unseen (seen : list string) (k : string) : list string :=
  if existsb (String.eqb k) seen then seen else seen ++ [k].

Definition union_keys (ds : list dict) : list string :=
  fold_left (fun seen d => fold_left add_unseen (PyDict.keys d) seen) ds [].

Definition frame_of_dicts (ds : list dict) : DataFrame :=
  let cols := union_keys ds in
  {| axis_name := None;
     columns := map Name cols;
     rows := map (fun '(i, d) =>
                    {| ix := range_label i;
                       vals := map (fun c => (Name c,
                                      match PyDict.get d c with
                                      | Some v => Obj v
                                      | None => NaN
                                      end)) cols |})
                 (enumerate ds) |}.

Fixpoint chars (s : string) : list json :=
  match s with
  | EmptyString => []
  | String a rest => JStr (String a EmptyString) :: chars rest
  end.

(** [list(x)] for an element of a list of rows; numbers, booleans and
    [None] have no length. *)
Definition as_sequence (x : json) : outcome (list json) :=
  match x with
  | JList l => Ok l
  | JObj d => Ok (map JStr (PyDict.keys d))
  | JStr s => Ok (chars s)
  | _ => Raise TypeError
  end.

Definition as_dict (x : json) : outcome dict :=
  match x with
  | JObj d => Ok d
  | _ => Raise AttributeError
  end.

Definition frame_of_sequences (rs : list (list json)) : DataFrame :=
  let width := fold_left (fun k r => Nat.max k (List.length r)) rs 0%nat in
  {| axis_name := None;
     columns := map Pos (seq 0 width);
     rows := map (fun '(i, r) =>
                    {| ix := range_label i;
                       vals := map (fun j => (Pos j,
                                      match nth_error r j with
                                      | Some v => Obj v
                                      | None => NaN
                                      end)) (seq 0 width) |})
                 (enumerate rs) |}.

Definition frame_of_scalars (xs : list json) : DataFrame :=
  {| axis_name := None;
     columns := [Pos 0];
     rows := map (fun '(i, x) =>
                    {| ix := range_label i; vals := [(Pos 0%nat, Obj x)] |})
                 (enumerate xs) |}.

(** [pd.DataFrame(data)] for a list: the kind of the first element decides
    how every element is read. *)
Definition DataFrame_of_list (data : list json) : outcome DataFrame :=
  match data with
  | [] => Ok empty_frame
  | JObj _ :: _ =>
      let! ds := omap as_dict data in Ok (frame_of_dicts ds)
  | JList _ :: _ =>
      let! rs := omap as_sequence data in Ok (frame_of_sequences rs)
  | _ => Ok (frame_of_scalars data)
  end.

(** [result[k] = values.repeat(lengths)] in [json_normalize], after its
    check that no column of that name exists. *)
Definition add_meta_column (result : DataFrame) (kv : string * json)
  : outcome DataFrame :=
  let (k, v) := kv in
  if has_column result (Name k) then Raise ValueError
  else Ok {| axis_name := axis_name result;
             columns := columns result ++ [Name k];
             rows := map (fun r => {| ix := ix r;
                                      vals := vals r ++ [(Name k, Obj v)] |})
                         (rows result) |}.

Fixpoint add_meta_columns (result : DataFrame) (meta : list (string * json))
  : outcome DataFrame :=
  match meta with
  | [] => Ok result
  | kv :: rest =>
      let! result' := add_meta_column result kv in
      add_meta_columns result' rest
  end.

(** Two library routines are taken as given.  [to_datetime column x] is
    the datetime [pd.to_datetime(column, errors="coerce")] holds for a cell
    [x] of [column]: how a cell is read may depend on the column it is in
    (pandas settles on one format for the whole column).
    [nested_to_record] is how [json_normalize] flattens the nested dicts
    of one record.  Nothing proved below depends on what they compute. *)
Class Library : Type := {
  to_datetime : list cell -> cell -> outcome cell;
  nested_to_record : dict -> outcome dict
}.

Section Normalize.
Context `{Library}.

Definition pull_records (data : dict) (record_path : string)
  : outcome (list json) :=
  match PyDict.get data record_path with
  | None => Raise KeyError
  | Some (JList l) => Ok l
  | Some JNull => Ok []
  | Some _ => Raise TypeError
  end.

Definition flatten_record (r : json) : outcome json :=
  match r with
  | JObj d => let! d' := nested_to_record d in Ok (JObj d')
  | _ => Ok r
  end.

Definition pull_field (data : dict) (k : string)
  : outcome (string * json) :=
  match PyDict.get data k with
  | Some v => Ok (k, v)
  | None => Raise KeyError
  end.

(** [pd.json_normalize(data=data, record_path=record_path, meta=meta)]
    for a single dict [data] and string paths. *)
Definition json_normalize (data : dict) (record_path : string)
  (meta : list string) : outcome DataFrame :=
  let! recs := pull_records data record_path in
  let! records := omap flatten_record recs in
  let! meta_vals := omap (pull_field data) meta in
  let! result := DataFrame_of_list records in
  add_meta_columns result meta_vals.
End Normalize.

Definition set_cell (c : label) (x : cell) (l : list (label * cell))
  : list (label * cell) :=
  map (fun '(c', y) => if label_eqb c' c then (c', x) else (c', y)) l.

(** [df[c]], the cells of a column from the first row to the last. *)
Definition column (df : DataFrame) (c : label) : list cell :=
  map (fun r => cell_at r c) (rows df).

(** [df[c] = f(df[c])] for a cell-wise [f] that may raise. *)
Definition update_column (f : cell -> outcome cell) (c : label)
  (df : DataFrame) : outcome DataFrame :=
  let! rows' := omap (fun r =>
                        let! x := f (cell_at r c) in
                        Ok {| ix := ix r; vals := set_cell c x (vals r) |})
                     (rows df) in
  Ok {| axis_name := axis_name df; columns := columns df; rows := rows' |}.

(** [.dt.tz_localize("UTC")]: only naive datetimes can be localized. *)
Definition tz_localize_utc (x : cell) : outcome cell :=
  match x with
  | Timestamp t None => Ok (Timestamp t (Some UTC))
  | Timestamp _ (Some _) => Raise TypeError
  | _ => Raise AttributeError
  end.

(** [.dt.tz_convert(tz)]: the instant stays, the zone changes. *)
Definition tz_convert (zone : tzinfo) (x : cell) : outcome cell :=
  match x with
  | Timestamp t (Some _) => Ok (Timestamp t (Some zone))
  | Timestamp _ None => Raise TypeError
  | _ => Raise AttributeError
  end.

(** [df.set_index(c)]. *)
Definition set_index (df : DataFrame) (c : label) : outcome DataFrame :=
  if has_column df c then
    Ok {| axis_name := Some c;
          columns := filter (fun c' => negb (label_eqb c' c)) (columns df);
          rows := map (fun r =>
                         {| ix := cell_at r c;
                            vals := filter (fun '(c', _) =>
                                              negb (label_eqb c' c))
                                           (vals r) |})
                      (rows df) |}
  else Raise KeyError.

(** [df.rename_axis(name)]. *)
Definition rename_axis (df : DataFrame) (name : string) : DataFrame :=
  {| axis_name := Some (Name name); columns := columns df; rows := rows df |}.

(** Order of a [DatetimeIndex] under [sort_index()]: by instant, [NaT]
    last.  Labels that are not datetimes are placed like [NaT]. *)
Definition sort_key (x : cell) : option Z :=
  match x with
  | Timestamp (Some t) _ => Some t
  | _ => None
  end.

Definition key_le (a b : option Z) : bool :=
  match a, b with
  | Some x, Some y => (x <=? y)%Z
  | Some _, None => true
  | None, Some _ => false
  | None, None => true
  end.

Definition row_le (r r' : row) : bool :=
  key_le (sort_key (ix r)) (sort_key (ix r')).

Fixpoint insert_row (r : row) (sorted : list row) : list row :=
  match sorted with
  | [] => [r]
  | r' :: rest =>
      if row_le r r' then r :: sorted else r' :: insert_row r rest
  end.

(** [df.sort_index()].  pandas does not promise an order among equal
    labels; this model keeps them in their original order. *)
Definition sort_index (df : DataFrame) : DataFrame :=
  {| axis_name := axis_name df;
     columns := columns df;
     rows := fold_right insert_row [] (rows df) |}.

Definition add_unseen_label (seen : list label) (c : label) : list label :=
  if existsb (label_eqb c) seen then seen else seen ++ [c].

Definition union_columns (dfs : list DataFrame) : list label :=
  fold_left (fun seen df => fold_left add_unseen_label (columns df) seen)
            dfs [].

Definition reindex_row (cols : list label) (r : row) : row :=
  {| ix := ix r; vals := map (fun c => (c, cell_at r c)) cols |}.

Definition name_eqb (a b : option label) : bool :=
  match a, b with
  | Some x, Some y => label_eqb x y
  | None, None => true
  | _, _ => false
  end.

Definition common_name (dfs : list DataFrame) : option label :=
  match dfs with
  | [] => None
  | df :: rest =>
      if forallb (fun df' => name_eqb (axis_name df') (axis_name df)) rest
      then axis_name df else None
  end.

(** [pd.concat(dfs)]: rows one frame after the other, over the union of
    the columns. *)
Definition concat (dfs : list DataFrame) : outcome DataFrame :=
  match dfs with
  | [] => Raise ValueError
  | _ :: _ =>
      let cols := union_columns dfs in
      Ok {| axis_name := common_name dfs;
            columns := cols;
            rows := flat_map (fun df => map (reindex_row cols) (rows df))
                             dfs |}
  end.

(** A well-formed table: every row has one cell for every column, and no
    two columns share a label. *)
Definition rows_fit (df : DataFrame) : Prop :=
  Forall (fun r => map fst (vals r) = columns df) (rows df).

Definition wf_frame (df : DataFrame) : Prop :=
  rows_fit df /\ NoDup (columns df).
End Pandas.

(* ================================================================== *)
(** ** Calendar dates *)

(** [datetime.date] as its proleptic Gregorian ordinal (day 1 is
    0001-01-01), with the range check Python makes on date arithmetic. *)
Module PyDate.

Definition MAXORDINAL : Z := 3652059.   (* date.max = 9999-12-31 *)

Record date : Type := mkDate { toordinal : Z }.

Record datetime : Type := mkDatetime {
  dt_date : date;                (* [self.date()] *)
  dt_microsecond_of_day : Z
}.

(** [a <= b] on dates. *)
Definition le (a b : date) : bool := (toordinal a <=? toordinal b)%Z.

(** [d + timedelta(days=n)]. *)
Definition add_days (d : date) (n : Z) : outcome date :=
  let o := (toordinal d + n)%Z in
  if (0 <? o)%Z && (o <=? MAXORDINAL)%Z then Ok (mkDate o)
  else Raise OverflowError.

Definition days_before_month (month : Z) : Z :=
  nth (Z.to_nat month) [0; 0; 31; 59; 90; 120; 151; 181; 212; 243; 273; 304; 334]%Z 0%Z.

Definition days_in_month (month : Z) : Z :=
  nth (Z.to_nat month) [0; 31; 28; 31; 30; 31; 30; 31; 31; 30; 31; 30; 31]%Z 0%Z.

(** CPython's [_ord2ymd]. *)
Definition ord2ymd (ordinal : Z) : Z * Z * Z :=
  let n := (ordinal - 1)%Z in
  let n400 := (n / 146097)%Z in
  let n := (n mod 146097)%Z in
  let n100 := (n / 36524)%Z in
  let n := (n mod 36524)%Z in
  let n4 := (n / 1461)%Z in
  let n := (n mod 1461)%Z in
  let n1 := (n / 365)%Z in
  let n := (n mod 365)%Z in
  let year := (n400 * 400 + 1 + n100 * 100 + n4 * 4 + n1)%Z in
  if (n1 =? 4)%Z || (n100 =? 4)%Z then ((year - 1)%Z, 12%Z, 31%Z)
  else
    let leapyear := (n1 =? 3)%Z && (negb (n4 =? 24)%Z || (n100 =? 3)%Z) in
    let month := Z.shiftr (n + 50) 5 in
    let preceding :=
      (days_before_month month
       + (if (2 <? month)%Z && leapyear then 1 else 0))%Z in
    if (n <? preceding)%Z then
      let month := (month - 1)%Z in
      let preceding :=
        (preceding - (days_in_month month
                      + (if (month =? 2)%Z && leapyear then 1 else 0)))%Z in
      (year, month, (n - preceding + 1)%Z)
    else (year, month, (n - preceding + 1)%Z).

Definition digit (n : Z) : ascii := ascii_of_nat (48 + Z.to_nat n).

(** ["%0{width}d" % n] for a number of at most [width] digits. *)
Fixpoint zero_pad (width : nat) (n : Z) : string :=
  match width with
  | O => ""
  | S w => zero_pad w (n / 10) ++ String (digit (n mod 10)) ""
  end.

(** [d.isoformat()], which is also [str(d)]. *)
Definition isoformat (d : date) : string :=
  let '(y, m, dd) := ord2ymd (toordinal d) in
  zero_pad 4 y ++ "-" ++ zero_pad 2 m ++ "-" ++ zero_pad 2 dd.
End PyDate.

(* ================================================================== *)
(** ** The client's world: sessions, events and the monad *)

(** A [requests.Session] is known by its identity. *)
Definition Session : Type := nat.

(** The instance attributes of a [MeteoClient]. *)
Record MeteoClient : Type := mkClient { session : Session }.

Inductive level : Type := INFO | WARNING.

(** What a method does to the outside world, in the order it does it. *)
Inductive event : Type :=
| Get (s : Session) (url : string)
| Sleep (milliseconds : Z)
| Log (lvl : level) (msg : string).

Inductive Reply : Type :=
| Answer (r : Response)
| NoAnswer (what : string).   (* [session.get] itself raises *)

(** The network: what a GET receives, given everything that happened so
    far (earlier requests, sleeps), the session and the URL. *)
Class Network : Type := {
  server : list event -> Session -> string -> Reply
}.

Record state : Type := mkState {
  self : MeteoClient;
  trace : list event
}.

Definition M (A : Type) : Type := state -> outcome A * state.

Definition ret {A : Type} (a : A) : M A := fun st => (Ok a, st).

Definition raise {A : Type} (e : exn) : M A := fun st => (Raise e, st).

Definition bind {A B : Type} (m : M A) (k : A -> M B) : M B :=
  fun st =>
    match m st with
    | (Ok a, st') => k a st'
    | (Raise e, st') => (Raise e, st')
    end.

Notation "x <- m ;; k" := (bind m (fun x => k))
  (at level 61, m at next level, right associativity).
Notation "m ;;; k" := (bind m (fun _ => k))
  (at level 61, right associativity).

Definition lift {A : Type} (o : outcome A) : M A := fun st => (o, st).

Definition emit (e : event) : M unit :=
  fun st => (Ok tt, {| self := self st; trace := trace st ++ [e] |}).

Definition get_self : M MeteoClient := fun st => (Ok (self st), st).

(** [try: m  except Exception as e: ...]: the outcome of [m] as a value. *)
Definition attempt {A : Type} (m : M A) : M (outcome A) :=
  fun st => let (o, st') := m st in (Ok o, st').

Definition LOGGER_info (msg : string) : M unit := emit (Log INFO msg).
Definition LOGGER_warning (msg : string) : M unit := emit (Log WARNING msg).

(** [time.sleep(seconds)], in milliseconds. *)
Definition time_sleep (milliseconds : Z) : M unit := emit (Sleep milliseconds).

(** [session.get(url)]. *)
Definition session_get `{Network} (s : Session) (url : string) : M Response :=
  fun st =>
    let st' := {| self := self st; trace := trace st ++ [Get s url] |} in
    match server (trace st) s url with
    | Answer r => (Ok r, st')
    | NoAnswer what => (Raise (RequestException what), st')
    end.

(** [response.raise_for_status()]. *)
Definition raise_for_status (response : Response) : M unit :=
  if (400 <=? status_code response)%Z && (status_code response <? 600)%Z
  then raise (HTTPError response)
  else ret tt.

(** [response.json()]. *)
Definition response_json (response : Response) : M json :=
  match json_body response with
  | Some j => ret j
  | None => raise JSONDecodeError
  end.

(** A keyword argument with a default value: [None] when the caller
    leaves it out. *)
Definition with_default {A : Type} (default : A) (arg : option A) : A :=
  match arg with
  | Some a => a
  | None => default
  end.

(* ================================================================== *)
(** ** [class MeteoClient] *)

Section Client.
Import Pandas.
Context `{Library} `{Network}.

Definition BASE_URL : string := "https://api.meteo.lt/v1".
Definition TIME_ZONE : tzinfo := "Europe/Vilnius".

(** [__init__]: [fresh] is the session [requests.Session()] would make. *)
Definition __init__ (session : option Session) (fresh : Session)
  : MeteoClient :=
  {| session := match session with Some s => s | None => fresh end |}.

(** [[col for col in df.columns if col.endswith("TimeUtc")]]; a label
    that is not a string has no [endswith]. *)
Fixpoint time_columns_of (cols : list label) : outcome (list string) :=
  match cols with
  | [] => Ok []
  | Name col :: rest =>
      let! others := time_columns_of rest in
      Ok (if endswith col "TimeUtc" then col :: others else others)
  | Pos _ :: _ => Raise AttributeError
  end.

(** The body of [for col in time_columns]. *)
Definition convert_column (time_zone : option tzinfo) (df : DataFrame)
  (col : string) : outcome DataFrame :=
  let! df := update_column (to_datetime (column df (Name col)))
                           (Name col) df in
  let! df := update_column tz_localize_utc (Name col) df in
  match time_zone with
  | Some zone => update_column (tz_convert zone) (Name col) df
  | None => Ok df
  end.

Fixpoint convert_columns (time_zone : option tzinfo) (df : DataFrame)
  (cols : list string) : outcome DataFrame :=
  match cols with
  | [] => Ok df
  | col :: rest =>
      let! df := convert_column time_zone df col in
      convert_columns time_zone df rest
  end.

(** [MeteoClient._set_timestamp_index]. *)
Definition _set_timestamp_index (df : DataFrame)
  (time_zone : option tzinfo) : M DataFrame :=
  time_columns <- lift (time_columns_of (columns df)) ;;
  match time_columns with
  | [] =>
      LOGGER_warning "No column ending with 'TimeUtc' found in DataFrame." ;;;
      ret df
  | first :: _ =>
      df <- lift (convert_columns time_zone df time_columns) ;;
      indexed <- lift (set_index df (Name first)) ;;
      ret (sort_index (rename_axis indexed "timestamp"))
  end.

(** Truth value of a [str | None]. *)
Definition path_truthy (rp : option string) : bool :=
  match rp with
  | Some s => str_truthy s
  | None => false
  end.

(** [MeteoClient._json_to_dataframe]. *)
Definition _json_to_dataframe (json_data : json)
  (record_path : option string) (time_zone : option tzinfo)
  : M DataFrame :=
  match json_data with
  | JList l => lift (DataFrame_of_list l)
  | JObj d =>
      match _find_record_path d record_path with
      | Some rp =>
          if path_truthy (Some rp) then
            match PyDict.get d rp with
            | Some records =>
                let meta := _flatten_meta d rp in
                df_records_and_meta <-
                  lift (json_normalize (PyDict.set meta rp records) rp
                                       (PyDict.keys meta)) ;;
                _set_timestamp_index df_records_and_meta time_zone
            | None => raise KeyError
            end
          else lift (DataFrame_of_list [json_data])
      | None => lift (DataFrame_of_list [json_data])
      end
  | _ => ret empty_frame
  end.

Definition get_place_forecast_by_type (place_code : string)
  (forecast_type : option string) (time_zone : option (option tzinfo))
  : M DataFrame :=
  let forecast_type := with_default "long-term" forecast_type in
  let time_zone := with_default (Some TIME_ZONE) time_zone in
  self <- get_self ;;
  response <- session_get (session self)
    (BASE_URL ++ "/places/" ++ place_code ++ "/forecasts/" ++ forecast_type) ;;
  raise_for_status response ;;;
  j <- response_json response ;;
  _json_to_dataframe j (Some "forecastTimestamps") time_zone.

Definition get_station_historical_observations (station_code : string)
  (date : option string) (time_zone : option (option tzinfo))
  : M DataFrame :=
  let date := with_default "latest" date in
  let time_zone := with_default (Some TIME_ZONE) time_zone in
  self <- get_self ;;
  response <- session_get (session self)
    (BASE_URL ++ "/stations/" ++ station_code ++ "/observations/" ++ date) ;;
  raise_for_status response ;;;
  j <- response_json response ;;
  _json_to_dataframe j (Some "observations") time_zone.

(** The exploratory methods pass neither [record_path] nor [time_zone]. *)
Definition get_places : M DataFrame :=
  self <- get_self ;;
  response <- session_get (session self) (BASE_URL ++ "/places") ;;
  raise_for_status response ;;;
  j <- response_json response ;;
  _json_to_dataframe j None (Some TIME_ZONE).

Definition get_place_info (place_code : string) : M DataFrame :=
  self <- get_self ;;
  response <- session_get (session self)
    (BASE_URL ++ "/places/" ++ place_code) ;;
  raise_for_status response ;;;
  j <- response_json response ;;
  _json_to_dataframe j None (Some TIME_ZONE).

Definition get_place_forecasts (place_code : string) : M DataFrame :=
  self <- get_self ;;
  response <- session_get (session self)
    (BASE_URL ++ "/places/" ++ place_code ++ "/forecasts") ;;
  raise_for_status response ;;;
  j <- response_json response ;;
  _json_to_dataframe j None (Some TIME_ZONE).

Definition get_stations : M DataFrame :=
  self <- get_self ;;
  response <- session_get (session self) (BASE_URL ++ "/stations") ;;
  raise_for_status response ;;;
  j <- response_json response ;;
  _json_to_dataframe j None (Some TIME_ZONE).

Definition get_station_info (station_code : string) : M DataFrame :=
  self <- get_self ;;
  response <- session_get (session self)
    (BASE_URL ++ "/stations/" ++ station_code) ;;
  raise_for_status response ;;;
  j <- response_json response ;;
  _json_to_dataframe j None (Some TIME_ZONE).

Definition get_more_station_info (station_code : string) : M DataFrame :=
  self <- get_self ;;
  response <- session_get (session self)
    (BASE_URL ++ "/stations/" ++ station_code ++ "/observations") ;;
  raise_for_status response ;;;
  j <- response_json response ;;
  _json_to_dataframe j None (Some TIME_ZONE).

(** The variables of the [while] loop of
    [get_station_historical_observations_range]. *)
Record loop_state : Type := mkLoop {
  current_date : PyDate.date;
  all_dfs : list DataFrame
}.

(** One turn of the loop body, ending at [continue], at the end of the
    body, or with an exception. *)
Definition range_body (station_code : string) (time_zone : option tzinfo)
  (ls : loop_state) : M loop_state :=
  LOGGER_info ("Fetching data for " ++ PyDate.isoformat (current_date ls)
               ++ "...") ;;;
  fetched <- attempt (get_station_historical_observations station_code
                        (Some (PyDate.isoformat (current_date ls)))
                        (Some time_zone)) ;;
  match fetched with
  | Ok df_observations =>
      let all_dfs' :=
        if negb (empty df_observations)
        then all_dfs ls ++ [df_observations] else all_dfs ls in
      time_sleep 150 ;;;
      next <- lift (PyDate.add_days (current_date ls) 1) ;;
      ret {| current_date := next; all_dfs := all_dfs' |}
  | Raise (HTTPError response) =>
      if (status_code response =? 429)%Z then
        LOGGER_warning "Hit rate limit (429). Sleeping for 5 seconds..." ;;;
        time_sleep 5000 ;;;
        ret ls
      else raise (HTTPError response)
  | Raise e => raise e
  end.

(** How a run of a loop ends: with an outcome and a final state, or,
    when the bound on the number of turns is used up, still running. *)
Inductive run (A : Type) : Type :=
| Done (o : outcome A) (st : state)
| OutOfFuel.
Arguments Done {A} o st.
Arguments OutOfFuel {A}.

(** [while current_date <= end_date.date(): ...], at most [fuel] turns. *)
Fixpoint range_loop (fuel : nat) (station_code : string)
  (time_zone : option tzinfo) (end_date : PyDate.datetime)
  (ls : loop_state) (st : state) : run (list DataFrame) :=
  if PyDate.le (current_date ls) (PyDate.dt_date end_date) then
    match fuel with
    | O => OutOfFuel
    | S fuel' =>
        match range_body station_code time_zone ls st with
        | (Ok ls', st') =>
            range_loop fuel' station_code time_zone end_date ls' st'
        | (Raise e, st') => Done (Raise e) st'
        end
    end
  else Done (Ok (all_dfs ls)) st.

Definition get_station_historical_observations_range (fuel : nat)
  (station_code : string) (start_date end_date : PyDate.datetime)
  (time_zone : option (option tzinfo)) (st : state) : run DataFrame :=
  let time_zone := with_default (Some TIME_ZONE) time_zone in
  match range_loop fuel station_code time_zone end_date
          {| current_date := PyDate.dt_date start_date; all_dfs := [] |} st
  with
  | Done (Ok all_dfs) st' =>
      Done (match all_dfs with
            | [] => Ok empty_frame
            | _ :: _ => concat all_dfs
            end) st'
  | Done (Raise e) st' => Done (Raise e) st'
  | OutOfFuel => OutOfFuel
  end.
End Client.
Arguments Done {A} o st.
Arguments OutOfFuel {A}.

(* ================================================================== *)
(** ** Vocabulary of the specification *)

(** Key [k] of [data] holds a non-empty list whose first element is an
    object. *)
Definition holds_records (data : dict) (k : string) : Prop :=
  exists val, PyDict.get data k = Some val /\ is_record_list val = true.

(** [k] is the first key, in the object's key order, holding such a list. *)
Definition first_record_key (data : dict) (k : string) : Prop :=
  exists before val after,
    data = before ++ (k, val) :: after
    /\ is_record_list val = true
    /\ forall k' val', In (k', val') before -> is_record_list val' = false.

Definition no_record_key (data : dict) : Prop :=
  forall k val, In (k, val) data -> is_record_list val = false.

(** [name -> v] is one of the entries the specification lists for the
    flattened metadata of [data]: ['key_subkey'] for a subkey of an object
    valued key, the key itself otherwise, the record path left out. *)
Definition meta_entry (data : dict) (record_path : string)
  (name : string) (v : json) : Prop :=
  exists key val,
    In (key, val) data /\ key <> record_path
    /\ ((exists sub subk, val = JObj sub /\ In (subk, v) sub
                          /\ name = (key ++ "_" ++ subk)%string)
        \/ (is_dict val = false /\ name = key /\ v = val)).

(** The same entries as a list, in the order [_flatten_meta] writes them. *)
Definition meta_entries (data : dict) (record_path : string) : dict :=
  flat_map (fun '(key, val) =>
              if String.eqb key record_path then []
              else match val with
                   | JObj sub => map (fun '(subk, subv) =>
                                        ((key ++ "_" ++ subk)%string, subv)) sub
                   | _ => [(key, val)]
                   end) data.

(** A column label ending in ['TimeUtc']. *)
Definition is_time_label (c : Pandas.label) : bool :=
  match c with
  | Pandas.Name s => endswith s "TimeUtc"
  | Pandas.Pos _ => false
  end.

(** The zone the timestamp columns end up in: the given one, or UTC. *)
Definition zone_of (time_zone : option Pandas.tzinfo) : Pandas.tzinfo :=
  with_default Pandas.UTC time_zone.

(** Row [r'] is row [r] of table [t] with the columns [cols] converted:
    each of their cells is read, within its column, as a naive datetime,
    localized as UTC and moved to [zone]; every other cell and the labels
    are as they were. *)
Definition converted `{Pandas.Library} (t : Pandas.DataFrame)
  (zone : Pandas.tzinfo) (cols : list string) (r r' : Pandas.row) : Prop :=
  Pandas.ix r' = Pandas.ix r
  /\ map fst (Pandas.vals r') = map fst (Pandas.vals r)
  /\ (forall c, ~ In c (map Pandas.Name cols) ->
        Pandas.cell_at r' c = Pandas.cell_at r c)
  /\ (forall col, In col cols ->
        exists ts,
          Pandas.to_datetime (Pandas.column t (Pandas.Name col))
            (Pandas.cell_at r (Pandas.Name col))
          = Ok (Pandas.Timestamp ts None)
          /\ Pandas.cell_at r' (Pandas.Name col)
             = Pandas.Timestamp ts (Some zone)).

(** Row [r'] is row [r] of the normalized table [t] as the indexed table
    shows it: the converted cell of column [first] is its index label, the
    other timestamp columns are converted, the rest is untouched. *)
Definition indexed_row `{Pandas.Library} (t : Pandas.DataFrame)
  (zone : Pandas.tzinfo) (first : string) (others : list string)
  (r r' : Pandas.row) : Prop :=
  (exists ts,
     Pandas.to_datetime (Pandas.column t (Pandas.Name first))
       (Pandas.cell_at r (Pandas.Name first))
     = Ok (Pandas.Timestamp ts None)
     /\ Pandas.ix r' = Pandas.Timestamp ts (Some zone))
  /\ (forall col, In col others ->
        exists ts,
          Pandas.to_datetime (Pandas.column t (Pandas.Name col))
            (Pandas.cell_at r (Pandas.Name col))
          = Ok (Pandas.Timestamp ts None)
          /\ Pandas.cell_at r' (Pandas.Name col)
             = Pandas.Timestamp ts (Some zone))
  /\ (forall c, is_time_label c = false ->
        Pandas.cell_at r' c = Pandas.cell_at r c).

(** Rows in ascending order of their index labels. *)
Definition ascending (rs : list Pandas.row) : Prop :=
  StronglySorted (fun r r' => Pandas.row_le r r' = true) rs.

(** [first] is the first column of table [t], in column order, whose name
    ends with ['TimeUtc']. *)
Definition first_time_column (t : Pandas.DataFrame) (first : string) : Prop :=
  exists before after,
    Pandas.columns t = before ++ Pandas.Name first :: after
    /\ endswith first "TimeUtc" = true
    /\ forall c, In c before -> is_time_label c = false.

(** Every cell of every column of [t] whose name ends with ['TimeUtc']
    reads, within its column, as a naive datetime. *)
Definition reads_naive `{Pandas.Library} (t : Pandas.DataFrame) : Prop :=
  forall r col,
    In r (Pandas.rows t) -> In (Pandas.Name col) (Pandas.columns t) ->
    endswith col "TimeUtc" = true ->
    exists ts,
      Pandas.to_datetime (Pandas.column t (Pandas.Name col))
        (Pandas.cell_at r (Pandas.Name col))
      = Ok (Pandas.Timestamp ts None).

(** Row [r'] is row [r] of the normalized table [t] under a timestamp
    index: its index label is the cell of column [first], read as a
    datetime and placed in [zone]; so is its cell in every other column of
    [t] whose name ends with ['TimeUtc']; every other cell is as it was. *)
Definition timestamp_row `{Pandas.Library} (t : Pandas.DataFrame)
  (zone : Pandas.tzinfo) (first : string) (r r' : Pandas.row) : Prop :=
  (exists ts,
     Pandas.to_datetime (Pandas.column t (Pandas.Name first))
       (Pandas.cell_at r (Pandas.Name first))
     = Ok (Pandas.Timestamp ts None)
     /\ Pandas.ix r' = Pandas.Timestamp ts (Some zone))
  /\ (forall col,
        In (Pandas.Name col) (Pandas.columns t) ->
        endswith col "TimeUtc" = true -> col <> first ->
        exists ts,
          Pandas.to_datetime (Pandas.column t (Pandas.Name col))
            (Pandas.cell_at r (Pandas.Name col))
          = Ok (Pandas.Timestamp ts None)
          /\ Pandas.cell_at r' (Pandas.Name col)
             = Pandas.Timestamp ts (Some zone))
  /\ (forall c, is_time_label c = false ->
        Pandas.cell_at r' c = Pandas.cell_at r c).

(** The default index: no axis name, the rows labelled 0, 1, 2, ... *)
Definition default_index (df : Pandas.DataFrame) : Prop :=
  Pandas.axis_name df = None
  /\ map Pandas.ix (Pandas.rows df)
     = map Pandas.range_label (seq 0 (List.length (Pandas.rows df))).

(* ================================================================== *)
(** ** Sample data *)

Module Sample.
Import Pandas.

(** A body in the shape of [/stations/{code}/observations/{date}]. *)
Definition observations_body : dict :=
  [("station", JObj [("code", JStr "vilniaus-ams");
                     ("name", JStr "Vilniaus AMS")]);
   ("observations",
    JList [JObj [("observationTimeUtc", JStr "2024-02-29 01:00:00");
                 ("airTemperature", JInt 2)];
           JObj [("observationTimeUtc", JStr "2024-02-29 00:00:00");
                 ("airTemperature", JInt 1)]])].

(** Two keys, the requested one empty. *)
Definition empty_key_body : dict :=
  [("a", JList [JObj []]); ("", JList [JObj []])].

(** A key and a subkey that flatten to the same name. *)
Definition clash_body : dict :=
  [("a_b", JInt 1); ("a", JObj [("b", JInt 2)]);
   ("records", JList [JObj []])].

(** An array whose records carry a timestamp key. *)
Definition observations_array : json :=
  JList [JObj [("observationTimeUtc", JStr "2024-02-29 01:00:00")];
         JObj [("observationTimeUtc", JStr "2024-02-29 00:00:00")]].

(** An array whose first element is an object and whose second is not. *)
Definition mixed_array : json :=
  JList [JObj [("a", JInt 1)]; JInt 5].

(** An object whose metadata key is also a key of its records. *)
Definition conflict_body : json :=
  JObj [("a", JInt 1); ("records", JList [JObj [("a", JInt 2)]])].

(** The instants of the datetime strings used here, in nanoseconds. *)
Definition clock : PyDict.t Z :=
  [("2024-02-28 00:00:00", 1709078400000000000%Z);
   ("2024-02-29 00:00:00", 1709164800000000000%Z);
   ("2024-02-29 01:00:00", 1709168400000000000%Z);
   ("2024-03-01 00:00:00", 1709251200000000000%Z)].

(** A library for the examples: strings found in [clock] are read as naive
    datetimes, integers as nanoseconds since the epoch, anything else is
    coerced to [NaT]; records are flat already. *)
Definition library : Library :=
  {| to_datetime := fun _ x =>
       match x with
       | Obj (JStr s) => Ok (Timestamp (PyDict.get clock s) None)
       | Obj (JInt n) => Ok (Timestamp (Some n) None)
       | Timestamp t tz => Ok (Timestamp t tz)
       | _ => Ok (Timestamp None None)
       end;
     nested_to_record := fun d => Ok d |}.

Definition client : MeteoClient := __init__ None 7%nat.

Definition start : state := {| self := client; trace := [] |}.
End Sample.

(* ================================================================== *)
(** ** Vocabulary of the client-level properties *)

(** The eight endpoint methods and their arguments, [None] standing for an
    argument the caller leaves to its default. *)
Inductive endpoint : Type :=
| GetPlaces
| GetPlaceInfo (place_code : string)
| GetPlaceForecasts (place_code : string)
| GetPlaceForecastByType (place_code : string) (forecast_type : option string)
    (time_zone : option (option Pandas.tzinfo))
| GetStations
| GetStationInfo (station_code : string)
| GetMoreStationInfo (station_code : string)
| GetStationHistoricalObservations (station_code : string)
    (date : option string) (time_zone : option (option Pandas.tzinfo)).

(** Calling a method of the client. *)
Definition call `{Pandas.Library} `{Network} (e : endpoint)
  : M Pandas.DataFrame :=
  match e with
  | GetPlaces => get_places
  | GetPlaceInfo place_code => get_place_info place_code
  | GetPlaceForecasts place_code => get_place_forecasts place_code
  | GetPlaceForecastByType place_code forecast_type time_zone =>
      get_place_forecast_by_type place_code forecast_type time_zone
  | GetStations => get_stations
  | GetStationInfo station_code => get_station_info station_code
  | GetMoreStationInfo station_code => get_more_station_info station_code
  | GetStationHistoricalObservations station_code date time_zone =>
      get_station_historical_observations station_code date time_zone
  end.

(** The fixed endpoint templates, with the arguments substituted. *)
Definition template_url (e : endpoint) : string :=
  match e with
  | GetPlaces => "https://api.meteo.lt/v1/places"
  | GetPlaceInfo place_code => "https://api.meteo.lt/v1/places/" ++ place_code
  | GetPlaceForecasts place_code =>
      "https://api.meteo.lt/v1/places/" ++ place_code ++ "/forecasts"
  | GetPlaceForecastByType place_code forecast_type _ =>
      "https://api.meteo.lt/v1/places/" ++ place_code ++ "/forecasts/"
      ++ match forecast_type with Some ft => ft | None => "long-term" end
  | GetStations => "https://api.meteo.lt/v1/stations"
  | GetStationInfo station_code =>
      "https://api.meteo.lt/v1/stations/" ++ station_code
  | GetMoreStationInfo station_code =>
      "https://api.meteo.lt/v1/stations/" ++ station_code ++ "/observations"
  | GetStationHistoricalObservations station_code date _ =>
      "https://api.meteo.lt/v1/stations/" ++ station_code ++ "/observations/"
      ++ match date with Some d => d | None => "latest" end
  end.

(** The record path and the timezone a method normalizes with. *)
Definition endpoint_record_path (e : endpoint) : option string :=
  match e with
  | GetPlaceForecastByType _ _ _ => Some "forecastTimestamps"
  | GetStationHistoricalObservations _ _ _ => Some "observations"
  | _ => None
  end.

Definition endpoint_time_zone (e : endpoint) : option Pandas.tzinfo :=
  match e with
  | GetPlaceForecastByType _ _ (Some time_zone) => time_zone
  | GetStationHistoricalObservations _ _ (Some time_zone) => time_zone
  | _ => Some "Europe/Vilnius"
  end.

(** The status codes [raise_for_status] raises for: 4xx and 5xx. *)
Definition is_error_status (code : Z) : bool :=
  (400 <=? code)%Z && (code <? 600)%Z.

(** The success statuses: 2xx. *)
Definition is_success_status (code : Z) : bool :=
  (200 <=? code)%Z && (code <? 300)%Z.

(** The GET requests of a trace, oldest first. *)
Fixpoint requests (tr : list event) : list (Session * string) :=
  match tr with
  | [] => []
  | Get s url :: rest => (s, url) :: requests rest
  | _ :: rest => requests rest
  end.

Definition is_log (e : event) : bool :=
  match e with Log _ _ => true | _ => false end.

(** The state after one more event. *)
Definition after (st : state) (e : event) : state :=
  {| self := self st; trace := trace st ++ [e] |}.

(** The URL of the single-date observation endpoint for a date. *)
Definition observations_url (station_code : string) (d : PyDate.date)
  : string :=
  "https://api.meteo.lt/v1/stations/" ++ station_code ++ "/observations/"
  ++ PyDate.isoformat d.

(** The calendar dates from [a] to [b] inclusive, in increasing order. *)
Definition dates_between (a b : PyDate.date) : list PyDate.date :=
  map (fun i => PyDate.mkDate (PyDate.toordinal a + Z.of_nat i))
      (seq 0 (Z.to_nat (PyDate.toordinal b - PyDate.toordinal a + 1))).

(** The warning logged before backing off. *)
Definition backoff_warning : event :=
  Log WARNING "Hit rate limit (429). Sleeping for 5 seconds...".

Section RangeVocabulary.
Context `{Pandas.Library} `{Network}.
Variable station_code : string.
Variable time_zone : option Pandas.tzinfo.

(** The single-date call the range helper makes for date [d], after its
    log line. *)
Definition fetch_date (d : PyDate.date) (st : state)
  : outcome Pandas.DataFrame * state :=
  get_station_historical_observations station_code
    (Some (PyDate.isoformat d)) (Some time_zone)
    (after st (Log INFO ("Fetching data for " ++ PyDate.isoformat d
                         ++ "..."))).

(** Date [d] gets served: after [retries] calls answered with status 429
    the call returns the table [df]. *)
Inductive date_served (d : PyDate.date)
  : state -> nat -> Pandas.DataFrame -> state -> Prop :=
| served_now (st st' : state) (df : Pandas.DataFrame) :
    fetch_date d st = (Ok df, st') ->
    date_served d st 0 df (after st' (Sleep 150))
| served_later (st st1 st' : state) (r : Response) (retries : nat)
    (df : Pandas.DataFrame) :
    fetch_date d st = (Raise (HTTPError r), st1) ->
    status_code r = 429%Z ->
    date_served d (after (after st1 backoff_warning) (Sleep 5000))
      retries df st' ->
    date_served d st (S retries) df st'.

(** Every date from [current] to [last] gets served, one after the
    other; [served] lists, per date, the number of retries and the
    table. *)
Inductive range_served (last : PyDate.date)
  : PyDate.date -> state -> list (nat * Pandas.DataFrame) -> state -> Prop :=
| range_over (current : PyDate.date) (st : state) :
    PyDate.le current last = false ->
    range_served last current st [] st
| range_step (current : PyDate.date) (st st1 st' : state) (retries : nat)
    (df : Pandas.DataFrame) (served : list (nat * Pandas.DataFrame)) :
    PyDate.le current last = true ->
    date_served current st retries df st1 ->
    range_served last (PyDate.mkDate (PyDate.toordinal current + 1)) st1
      served st' ->
    range_served last current st ((retries, df) :: served) st'.
End RangeVocabulary.

(** The table the range helper returns for the per-date tables [dfs]. *)
Definition combined (dfs : list Pandas.DataFrame) : outcome Pandas.DataFrame :=
  match filter (fun df => negb (Pandas.empty df)) dfs with
  | [] => Ok Pandas.empty_frame
  | kept => Pandas.concat kept
  end.

(** The outcome of a run, when it ended. *)
Definition outcome_of {A : Type} (r : run A) : option (outcome A) :=
  match r with
  | Done o _ => Some o
  | OutOfFuel => None
  end.

(* ================================================================== *)
(** ** Sample servers and runs *)

Module SampleNet.
Import Pandas.

Definition station : string := "vilniaus-ams".

Definition ok_response : Response :=
  {| status_code := 200; json_body := Some (JObj Sample.observations_body) |}.

Definition busy_response : Response :=
  {| status_code := 429; json_body := None |}.

Definition down_response : Response :=
  {| status_code := 503; json_body := None |}.

Definition feb28 : PyDate.datetime := PyDate.mkDatetime (PyDate.mkDate 738944) 0.
Definition leap_day : PyDate.date := PyDate.mkDate 738945.
Definition mar01 : PyDate.datetime := PyDate.mkDatetime (PyDate.mkDate 738946) 0.
Definition last_day : PyDate.datetime :=
  PyDate.mkDatetime (PyDate.mkDate PyDate.MAXORDINAL) 0.

Definition requested (tr : list event) (url : string) : bool :=
  existsb (fun '(_, u) => String.eqb u url) (requests tr).

(** A server that always answers with the sample observations. *)
Definition steady : Network :=
  {| server := fun _ _ _ => Answer ok_response |}.

(** A server that rate-limits the first request for 2024-02-29. *)
Definition limiting : Network :=
  {| server := fun tr _ url =>
       if String.eqb url (observations_url station leap_day)
          && negb (requested tr url)
       then Answer busy_response else Answer ok_response |}.

(** A server that is down. *)
Definition down : Network :=
  {| server := fun _ _ _ => Answer down_response |}.

(** The sample observations, normalized and indexed. *)
Definition normalized_table : DataFrame :=
  Eval vm_compute in
    match @json_normalize Sample.library
            (PyDict.set (_flatten_meta Sample.observations_body "observations")
               "observations"
               (JList [JObj [("observationTimeUtc", JStr "2024-02-29 01:00:00");
                             ("airTemperature", JInt 2)];
                       JObj [("observationTimeUtc", JStr "2024-02-29 00:00:00");
                             ("airTemperature", JInt 1)]]))
            "observations"
            (PyDict.keys (_flatten_meta Sample.observations_body "observations"))
    with
    | Ok t => t
    | Raise _ => empty_frame
    end.

Definition observations_table : DataFrame :=
  Eval vm_compute in
    match fst (@_json_to_dataframe Sample.library
                 (JObj Sample.observations_body) (Some "observations")
                 (Some TIME_ZONE) Sample.start)
    with
    | Ok df => df
    | Raise _ => empty_frame
    end.
End SampleNet.

(* ================================================================== *)
(** ** [meteo_api/__init__.py]: logging *)

(** The root logger as [logging.basicConfig] sees it: its handlers (each a
    [StreamHandler] with the format string it was given, if any) and its
    level; and the package's [setup_logging] and [initialize]. *)
Module PyLogging.

Definition INFO : Z := 20.
Definition WARNING : Z := 30.

Record Handler : Type := mkHandler { formatter : option string }.

Record Root : Type := mkRoot {
  handlers : list Handler;
  root_level : Z
}.

(** [logging.StreamHandler()]. *)
Definition StreamHandler : Handler := {| formatter := None |}.

(** [logging.basicConfig(format=..., level=..., handlers=...)]: nothing
    happens when the root logger already has handlers. *)
Definition basicConfig (format : string) (level : Z) (hs : list Handler)
  (root : Root) : Root :=
  match handlers root with
  | [] =>
      {| handlers :=
           map (fun h => match formatter h with
                         | None => {| formatter := Some format |}
                         | Some _ => h
                         end) hs;
         root_level := level |}
  | _ :: _ => root
  end.

Definition setup_logging (root : Root) : Root :=
  basicConfig "%(asctime)s [%(levelname)s] - <%(name)s> - %(message)s"
    INFO [StreamHandler] root.

Definition initialize (root : Root) : Root := setup_logging root.

(** [LOGGER.isEnabledFor(level)]: [LOGGER = logging.getLogger(__name__)]
    has no level of its own and takes the root logger's. *)
Definition LOGGER_isEnabledFor (root : Root) (level : Z) : bool :=
  (root_level root <=? level)%Z.
End PyLogging.

(* ================================================================== *)
(** ** Further vocabulary and sample data *)

(** The time a trace spends in [time.sleep], in milliseconds. *)
Fixpoint slept (tr : list event) : Z :=
  match tr with
  | [] => 0
  | Sleep ms :: rest => (ms + slept rest)%Z
  | _ :: rest => slept rest
  end.

(** The retries of a served range, added up. *)
Definition total_retries (served : list (nat * Pandas.DataFrame)) : nat :=
  fold_right (fun nd acc => (fst nd + acc)%nat) 0%nat served.

Module SampleMore.
Import Pandas.

(** A server that always answers 429. *)
Definition always_busy : Network :=
  {| server := fun _ _ _ => Answer SampleNet.busy_response |}.

(** A server that cannot be reached. *)
Definition unreachable : Network :=
  {| server := fun _ _ _ => NoAnswer "connection refused" |}.

(** Records of which the second is not an object. *)
Definition ragged_body : dict :=
  [("station", JStr "vilniaus-ams");
   ("observations", JList [JObj [("airTemperature", JInt 1)]; JInt 5])].

(** A metadata key that is also a key of the records. *)
Definition conflict_dict : dict :=
  [("a", JInt 1); ("records", JList [JObj [("a", JInt 2)]])].


(** A table without a timestamp column. *)
Definition plain_table : DataFrame :=
  {| axis_name := None;
     columns := [Name "code"; Name "name"];
     rows := [{| ix := range_label 0;
                 vals := [(Name "code", Obj (JStr "vilnius"));
                          (Name "name", Obj (JStr "Vilnius"))] |}] |}.

(** A body in the shape of [/places/{code}/forecasts/{type}]: the records
    carry one timestamp, the metadata another. *)
Definition forecast_records : json :=
  JList [JObj [("forecastTimeUtc", JStr "2024-02-29 01:00:00");
               ("airTemperature", JInt 2)];
         JObj [("forecastTimeUtc", JStr "2024-02-29 00:00:00");
               ("airTemperature", JInt 1)]].

Definition forecast_body : dict :=
  [("place", JObj [("code", JStr "vilnius")]);
   ("forecastType", JStr "long-term");
   ("forecastCreationTimeUtc", JStr "2024-02-28 00:00:00");
   ("forecastTimestamps", forecast_records)].

(** The sample forecast, normalized. *)
Definition forecast_normalized : DataFrame :=
  Eval vm_compute in
    match @json_normalize Sample.library
            (PyDict.set (_flatten_meta forecast_body "forecastTimestamps")
               "forecastTimestamps" forecast_records)
            "forecastTimestamps"
            (PyDict.keys (_flatten_meta forecast_body "forecastTimestamps"))
    with
    | Ok t => t
    | Raise _ => empty_frame
    end.

(** Replies that are neither a success nor an error for
    [raise_for_status], with a JSON body. *)
Definition not_modified_response : Response :=
  {| status_code := 304; json_body := Some (JObj Sample.observations_body) |}.

Definition odd_response : Response :=
  {| status_code := 600; json_body := Some (JObj Sample.observations_body) |}.

Definition not_modified : Network :=
  {| server := fun _ _ _ => Answer not_modified_response |}.

Definition odd : Network :=
  {| server := fun _ _ _ => Answer odd_response |}.
End SampleMore.

(* ================================================================== *)
(** * Properties *)

Example find_requested :
  _find_record_path
    [("place", JObj [("code", JStr "vilnius")]);
     ("other", JList [JObj []]);
     ("forecastTimestamps", JList [JObj [("airTemperature", JInt 3)]])]
    (Some "forecastTimestamps") = Some "forecastTimestamps".
Proof. reflexivity. Qed.

Example flatten_place :
  _flatten_meta
    [("place", JObj [("code", JStr "vilnius"); ("name", JStr "Vilnius")]);
     ("forecastType", JStr "long-term");
     ("forecastTimestamps", JList [JObj []])]
    "forecastTimestamps"
  = [("place_code", JStr "vilnius"); ("place_name", JStr "Vilnius");
     ("forecastType", JStr "long-term")].
Proof. reflexivity. Qed.

Example isoformat_leap_day :
  PyDate.isoformat (PyDate.mkDate 738945) = "2024-02-29".
Proof. reflexivity. Qed.

Example isoformat_max :
  PyDate.isoformat (PyDate.mkDate PyDate.MAXORDINAL) = "9999-12-31".
Proof. reflexivity. Qed.

Example isoformat_epoch :
  PyDate.isoformat (PyDate.mkDate 719163) = "1970-01-01".
Proof. reflexivity. Qed.

(** ** Dictionaries *)

Module PyDictFacts.
Import PyDict.
Section Facts.
Context {V : Type}.
Implicit Types (d : PyDict.t V) (k : string) (v : V).

Lemma get_In d k v : get d k = Some v -> In (k, v) d.
Proof.
  induction d as [|[k' v'] d IH]; simpl; [discriminate|].
  destruct (String.eqb_spec k' k) as [->|Hne].
  - intros [= ->]. now left.
  - intros Hg. right. auto.
Qed.

Lemma In_get d k v : wf_dict d -> In (k, v) d -> get d k = Some v.
Proof.
  unfold wf_dict, keys.
  induction d as [|[k' v'] d IH]; simpl; [contradiction|].
  intros Hnd [Heq|Hin].
  - injection Heq as -> ->. now rewrite String.eqb_refl.
  - inversion Hnd as [|? ? Hnotin Hnd']; subst.
    destruct (String.eqb_spec k' k) as [->|Hne].
    + exfalso. apply Hnotin. change k with (fst (k, v)). now apply in_map.
    + auto.
Qed.

Lemma get_set d k v k' :
  get (set d k v) k' = if String.eqb k k' then Some v else get d k'.
Proof.
  induction d as [|[k0 v0] d IH]; simpl.
  - reflexivity.
  - destruct (String.eqb_spec k0 k) as [->|Hne]; simpl.
    + destruct (String.eqb_spec k k'); reflexivity.
    + rewrite IH. destruct (String.eqb_spec k0 k') as [->|Hne'].
      * destruct (String.eqb_spec k k'); [congruence|reflexivity].
      * reflexivity.
Qed.

Lemma keys_set d k v :
  keys (set d k v) = if contains d k then keys d else keys d ++ [k].
Proof.
  unfold contains.
  induction d as [|[k0 v0] d IH]; simpl.
  - reflexivity.
  - destruct (String.eqb_spec k0 k) as [->|Hne]; simpl.
    + reflexivity.
    + rewrite IH. destruct (get d k); reflexivity.
Qed.

Lemma get_None_keys d k : get d k = None -> ~ In k (keys d).
Proof.
  induction d as [|[k0 v0] d IH]; simpl; [tauto|].
  destruct (String.eqb_spec k0 k) as [->|Hne]; [discriminate|].
  intros Hg [Heq|Hin]; [congruence|]. now apply IH.
Qed.

Lemma wf_set d k v : wf_dict d -> wf_dict (set d k v).
Proof.
  unfold wf_dict. intros Hnd. rewrite keys_set. unfold contains.
  destruct (get d k) eqn:Hg; [assumption|].
  apply NoDup_app; [assumption| |].
  - constructor; [intros []|constructor].
  - intros x Hx [<-|[]]. revert Hx. now apply get_None_keys.
Qed.

Lemma wf_nil : wf_dict (@nil (string * V)).
Proof. constructor. Qed.

(** Writing a list of items one after the other: the last write to a key
    is the one that stays. *)
Lemma get_fold_set (items : list (string * V)) d k :
  get (fold_left (fun acc kv => set acc (fst kv) (snd kv)) items d) k
  = match get (rev items) k with
    | Some v => Some v
    | None => get d k
    end.
Proof.
  revert d. induction items as [|[k0 v0] items IH]; intros d; simpl.
  - reflexivity.
  - rewrite IH, get_set.
    assert (Hrev : forall l, get (l ++ [(k0, v0)]) k
              = match get l k with
                | Some v => Some v
                | None => if String.eqb k0 k then Some v0 else None
                end).
    { induction l as [|[k1 v1] l IHl]; simpl.
      - reflexivity.
      - destruct (String.eqb k1 k); [reflexivity|apply IHl]. }
    rewrite Hrev. destruct (get (rev items) k); [reflexivity|].
    destruct (String.eqb k0 k); reflexivity.
Qed.

Lemma wf_fold_set (items : list (string * V)) d :
  wf_dict d ->
  wf_dict (fold_left (fun acc kv => set acc (fst kv) (snd kv)) items d).
Proof.
  revert d. induction items as [|[k0 v0] items IH]; intros d Hd; simpl.
  - assumption.
  - apply IH. now apply wf_set.
Qed.
End Facts.
End PyDictFacts.

(** ** Record-path discovery *)

Lemma scan_first (data : dict) (k : string) :
  scan_record_key data = Some k <-> first_record_key data k.
Proof.
  unfold first_record_key. split.
  - induction data as [|[k0 v0] data IH]; simpl; [discriminate|].
    destruct (is_record_list v0) eqn:Hv0.
    + intros [= ->]. exists [], v0, data. repeat split; auto.
      intros ? ? [].
    + intros Hs. destruct (IH Hs) as (before & val & after & -> & Hval & Hb).
      exists ((k0, v0) :: before), val, after. repeat split; auto.
      intros k' val' [[= <- <-]|Hin]; eauto.
  - intros (before & val & after & -> & Hval & Hb).
    induction before as [|[k0 v0] before IH]; simpl.
    + now rewrite Hval.
    + rewrite (Hb k0 v0) by now left.
      apply IH. intros k' val' Hin. apply (Hb k' val'). now right.
Qed.

Lemma scan_none (data : dict) :
  scan_record_key data = None <-> no_record_key data.
Proof.
  unfold no_record_key. split.
  - induction data as [|[k0 v0] data IH]; simpl; [intros _ ? ? []|].
    destruct (is_record_list v0) eqn:Hv0; [discriminate|].
    intros Hs k val [[= <- <-]|Hin]; eauto.
  - induction data as [|[k0 v0] data IH]; simpl; [reflexivity|].
    intros Hno. rewrite (Hno k0 v0) by now left.
    apply IH. intros k val Hin. apply (Hno k val). now right.
Qed.

Lemma first_record_key_holds (data : dict) (k : string) :
  PyDict.wf_dict data -> first_record_key data k -> holds_records data k.
Proof.
  intros Hwf (before & val & after & -> & Hval & _).
  exists val. split; [|assumption].
  apply PyDictFacts.In_get; [assumption|].
  apply in_or_app. right. now left.
Qed.

Lemma holds_records_not_none (data : dict) (k : string) :
  holds_records data k -> ~ no_record_key data.
Proof.
  intros (val & Hget & Hval) Hno.
  apply PyDictFacts.get_In in Hget. rewrite (Hno _ _ Hget) in Hval.
  discriminate.
Qed.

(** What [_find_record_path] does with a request that passes its guard. *)
Lemma find_requested_path (data : dict) (rp : string) :
  rp <> "" -> holds_records data rp ->
  _find_record_path data (Some rp) = Some rp.
Proof.
  intros Hne (val & Hget & Hval). unfold _find_record_path, str_truthy.
  destruct (String.eqb_spec rp "") as [|_]; [contradiction|].
  unfold PyDict.contains. rewrite Hget. simpl. now rewrite Hval.
Qed.

(** In every other case the scan decides. *)
Lemma find_falls_back (data : dict) (record_path : option string) :
  (forall rp, record_path = Some rp -> rp <> "" -> ~ holds_records data rp) ->
  _find_record_path data record_path = scan_record_key data.
Proof.
  intros Hnot. destruct record_path as [rp|]; [|reflexivity].
  unfold _find_record_path, str_truthy.
  destruct (String.eqb_spec rp "") as [|Hne]; [reflexivity|]. simpl.
  unfold PyDict.contains.
  destruct (PyDict.get data rp) as [val|] eqn:Hget; [|reflexivity].
  destruct (is_record_list val) eqn:Hval; [|reflexivity].
  exfalso. apply (Hnot rp eq_refl Hne). now exists val.
Qed.

Lemma find_result_cases (data : dict) (record_path : option string) :
  _find_record_path data record_path = record_path
  \/ _find_record_path data record_path = scan_record_key data.
Proof.
  destruct record_path as [rp|]; [|now right].
  unfold _find_record_path.
  destruct (str_truthy rp && PyDict.contains data rp); [|now right].
  destruct (PyDict.get data rp) as [val|]; [|now right].
  destruct (is_record_list val); [now left|now right].
Qed.

Lemma find_record_path_none (data : dict) (record_path : option string) :
  no_record_key data -> _find_record_path data record_path = None.
Proof.
  intros Hno. rewrite find_falls_back; [now apply scan_none|].
  intros rp _ _ Hholds. now apply (holds_records_not_none data rp).
Qed.

Lemma is_record_list_shape (val : json) :
  is_record_list val = true ->
  exists first rest, val = JList (JObj first :: rest).
Proof.
  destruct val as [| | | | |[|[| | | | | |first] rest]|]; try discriminate.
  intros _. now exists first, rest.
Qed.

Lemma find_record_path_holds (data : dict) (record_path : option string)
  (k : string) :
  PyDict.wf_dict data ->
  _find_record_path data record_path = Some k -> holds_records data k.
Proof.
  intros Hwf Hfind.
  assert (Hscan : scan_record_key data = Some k -> holds_records data k).
  { intros Hs. apply first_record_key_holds; [assumption|].
    now apply scan_first. }
  destruct record_path as [rp|]; [|now apply Hscan].
  unfold _find_record_path in Hfind.
  destruct (str_truthy rp && PyDict.contains data rp); [|now apply Hscan].
  destruct (PyDict.get data rp) as [val|] eqn:Hget; [|now apply Hscan].
  destruct (is_record_list val) eqn:Hval; [|now apply Hscan].
  injection Hfind as <-. now exists val.
Qed.

(** C1, as amended: for every JSON object (a dictionary, each key held
    once) and optional requested record_path, [_find_record_path] returns a
    non-empty requested record_path exactly when it is a key of the object
    whose value is a non-empty list whose first element is an object;
    otherwise (no request, an empty request, or a request that is not such a
    key) it returns the first key, in the object's key order, whose value is
    such a list; and it returns None exactly when no key of the object has
    such a value. *)
Theorem find_record_path_spec (data : dict) (record_path : option string)
  (Hwf : PyDict.wf_dict data) :
  (forall rp, record_path = Some rp -> rp <> "" ->
     (_find_record_path data record_path = Some rp <-> holds_records data rp))
  /\ ((forall rp, record_path = Some rp -> rp <> "" ->
         ~ holds_records data rp) ->
      forall k, _find_record_path data record_path = Some k
                <-> first_record_key data k)
  /\ (_find_record_path data record_path = None <-> no_record_key data).
Proof.
  split; [|split].
  - intros rp -> Hne. split.
    + intros Hfind.
      destruct (find_result_cases data (Some rp)) as [_|Hscan].
      * unfold _find_record_path, str_truthy in Hfind.
        destruct (String.eqb_spec rp "") as [|_]; [contradiction|].
        simpl in Hfind. unfold PyDict.contains in Hfind.
        destruct (PyDict.get data rp) as [val|] eqn:Hget.
        -- destruct (is_record_list val) eqn:Hval; [now exists val|].
           apply first_record_key_holds; [assumption|]. now apply scan_first.
        -- apply first_record_key_holds; [assumption|]. now apply scan_first.
      * rewrite Hscan in Hfind.
        apply first_record_key_holds; [assumption|]. now apply scan_first.
    + now apply find_requested_path.
  - intros Hnot k. rewrite (find_falls_back _ _ Hnot). apply scan_first.
  - split.
    + intros Hfind.
      destruct (find_result_cases data record_path) as [Hreq|Hscan].
      * rewrite Hfind in Hreq. subst record_path. simpl in Hfind.
        now apply scan_none.
      * rewrite Hscan in Hfind. now apply scan_none.
    + intros Hno.
      rewrite find_falls_back; [now apply scan_none|].
      intros rp _ _ Hholds. now apply (holds_records_not_none data rp).
Qed.

(** ** Metadata flattening *)

Lemma flatten_sub_writes (key : string) (sub flat_meta : dict) :
  flatten_sub key flat_meta sub
  = fold_left (fun acc kv => PyDict.set acc (fst kv) (snd kv))
      (map (fun '(subk, subv) => ((key ++ "_" ++ subk)%string, subv)) sub)
      flat_meta.
Proof.
  unfold flatten_sub. revert flat_meta.
  induction sub as [|[subk subv] sub IH]; intros flat_meta; simpl.
  - reflexivity.
  - apply IH.
Qed.

Lemma flatten_loop_writes (data : dict) (record_path : string) (acc : dict) :
  fold_left (flatten_item record_path) data acc
  = fold_left (fun acc kv => PyDict.set acc (fst kv) (snd kv))
      (meta_entries data record_path) acc.
Proof.
  unfold meta_entries. revert acc.
  induction data as [|[key val] data IH]; intros acc; simpl.
  - reflexivity.
  - rewrite fold_left_app, IH. f_equal.
    destruct (String.eqb key record_path); [reflexivity|].
    destruct val; try reflexivity. apply flatten_sub_writes.
Qed.

(** [_flatten_meta] writes the listed entries, in order, into an empty
    dictionary. *)
Lemma flatten_meta_writes (data : dict) (record_path : string) :
  _flatten_meta data record_path
  = fold_left (fun acc kv => PyDict.set acc (fst kv) (snd kv))
      (meta_entries data record_path) [].
Proof. apply flatten_loop_writes. Qed.

Lemma meta_entries_In (data : dict) (record_path name : string) (v : json) :
  In (name, v) (meta_entries data record_path)
  <-> meta_entry data record_path name v.
Proof.
  unfold meta_entries, meta_entry. rewrite in_flat_map. split.
  - intros ([key val] & Hin & Hentry). exists key, val.
    destruct (String.eqb_spec key record_path) as [|Hne]; [destruct Hentry|].
    repeat split; auto.
    destruct val;
      try (right; destruct Hentry as [[= <- <-]|[]]; repeat split; reflexivity).
    left. apply in_map_iff in Hentry.
    destruct Hentry as ([subk subv] & [= <- <-] & Hsub).
    exists members, subk. repeat split; auto.
  - intros (key & val & Hin & Hne & Hcase). exists (key, val).
    split; [assumption|].
    destruct (String.eqb_spec key record_path) as [|_]; [contradiction|].
    destruct Hcase as [(sub & subk & -> & Hsub & ->)|(Hnd & -> & ->)].
    + apply in_map_iff. now exists (subk, v).
    + destruct val; try (now left). discriminate.
Qed.

Lemma In_get_some {V : Type} (d : PyDict.t V) (k : string) (v : V) :
  In (k, v) d -> exists v', PyDict.get d k = Some v'.
Proof.
  induction d as [|[k0 v0] d IH]; simpl; [contradiction|].
  intros Hin. destruct (String.eqb k0 k) eqn:Heq; [eauto|].
  destruct Hin as [[= -> ->]|Hin]; [|auto].
  rewrite String.eqb_refl in Heq. discriminate.
Qed.

Lemma flatten_meta_get (data : dict) (record_path name : string) :
  PyDict.get (_flatten_meta data record_path) name
  = PyDict.get (rev (meta_entries data record_path)) name.
Proof.
  rewrite flatten_meta_writes, PyDictFacts.get_fold_set. simpl.
  now destruct (PyDict.get _ name).
Qed.

Lemma flatten_meta_wf (data : dict) (record_path : string) :
  PyDict.wf_dict (_flatten_meta data record_path).
Proof.
  rewrite flatten_meta_writes. apply PyDictFacts.wf_fold_set.
  apply PyDictFacts.wf_nil.
Qed.

(** Every entry of the flattened mapping is one the specification lists. *)
Lemma flatten_meta_sound (data : dict) (record_path name : string) (v : json) :
  PyDict.get (_flatten_meta data record_path) name = Some v ->
  meta_entry data record_path name v.
Proof.
  rewrite flatten_meta_get. intros Hget.
  apply meta_entries_In, in_rev. now apply PyDictFacts.get_In.
Qed.

(** Every listed name is a key of the flattened mapping. *)
Lemma flatten_meta_covers (data : dict) (record_path name : string) (v : json) :
  meta_entry data record_path name v ->
  exists v', PyDict.get (_flatten_meta data record_path) name = Some v'.
Proof.
  intros Hentry. rewrite flatten_meta_get.
  apply In_get_some with (v := v). rewrite <- in_rev.
  now apply meta_entries_In.
Qed.

(** ** Tables *)

Lemma omap_Forall2 {A B : Type} (f : A -> outcome B) (l : list A)
  (l' : list B) :
  omap f l = Ok l' <-> Forall2 (fun a b => f a = Ok b) l l'.
Proof.
  revert l'. induction l as [|a l IH]; intros l'; simpl.
  - split.
    + intros [= <-]. constructor.
    + intros Hall. now inversion Hall.
  - split.
    + destruct (f a) as [b|] eqn:Hfa; simpl; [|discriminate].
      destruct (omap f l) as [bs|] eqn:Hrest; simpl; [|discriminate].
      intros [= <-]. constructor; [assumption|]. now apply IH.
    + intros Hall. inversion Hall as [|? b ? bs Hfa Hrest]; subst.
      rewrite Hfa. simpl. apply IH in Hrest. now rewrite Hrest.
Qed.

Lemma enumerate_length {A : Type} (l : list A) :
  List.length (Pandas.enumerate l) = List.length l.
Proof.
  unfold Pandas.enumerate. rewrite length_combine, length_seq.
  apply Nat.min_id.
Qed.

Module PandasFacts.
Import Pandas.

Lemma label_eqb_spec (a b : label) : reflect (a = b) (label_eqb a b).
Proof.
  destruct a as [s|n], b as [s'|n']; simpl; try (constructor; congruence).
  - destruct (String.eqb_spec s s'); constructor; congruence.
  - destruct (Nat.eqb_spec n n'); constructor; congruence.
Qed.

Lemma label_eqb_refl (a : label) : label_eqb a a = true.
Proof. now destruct (label_eqb_spec a a). Qed.

Lemma label_eqb_neq (a b : label) : a <> b -> label_eqb a b = false.
Proof. now destruct (label_eqb_spec a b). Qed.

Lemma existsb_label (c : label) (cols : list label) :
  existsb (label_eqb c) cols = true <-> In c cols.
Proof.
  rewrite existsb_exists. split.
  - intros (c' & Hin & Heq). now destruct (label_eqb_spec c c'); subst.
  - intros Hin. exists c. split; [assumption|apply label_eqb_refl].
Qed.

Lemma assoc_app (c : label) (l l' : list (label * cell)) :
  assoc c (l ++ l')
  = match assoc c l with Some y => Some y | None => assoc c l' end.
Proof.
  induction l as [|[c0 y0] l IH]; simpl; [reflexivity|].
  now destruct (label_eqb c0 c).
Qed.

Lemma assoc_absent (c : label) (l : list (label * cell)) :
  ~ In c (map fst l) -> assoc c l = None.
Proof.
  induction l as [|[c0 y0] l IH]; simpl; [reflexivity|].
  intros Hnot. destruct (label_eqb_spec c0 c) as [->|_]; [tauto|].
  apply IH. tauto.
Qed.

Lemma assoc_present (c : label) (l : list (label * cell)) :
  In c (map fst l) -> exists y, assoc c l = Some y.
Proof.
  induction l as [|[c0 y0] l IH]; simpl; [contradiction|].
  intros Hin. destruct (label_eqb_spec c0 c) as [->|Hne]; [eauto|].
  destruct Hin; [contradiction|auto].
Qed.

Lemma labels_set_cell (c : label) (x : cell) (l : list (label * cell)) :
  map fst (set_cell c x l) = map fst l.
Proof.
  unfold set_cell. rewrite map_map. apply map_ext.
  intros [c0 y0]. now destruct (label_eqb c0 c).
Qed.

Lemma assoc_set_cell_same (c : label) (x : cell) (l : list (label * cell)) :
  assoc c (set_cell c x l)
  = match assoc c l with Some _ => Some x | None => None end.
Proof.
  induction l as [|[c0 y0] l IH]; simpl; [reflexivity|].
  destruct (label_eqb c0 c) eqn:Heq; simpl; rewrite Heq; [reflexivity|].
  apply IH.
Qed.

Lemma assoc_set_cell_other (c c' : label) (x : cell)
  (l : list (label * cell)) :
  c' <> c -> assoc c' (set_cell c x l) = assoc c' l.
Proof.
  intros Hne. induction l as [|[c0 y0] l IH]; simpl; [reflexivity|].
  destruct (label_eqb_spec c0 c) as [->|Hne0]; simpl.
  - rewrite label_eqb_neq by congruence. apply IH.
  - now destruct (label_eqb c0 c').
Qed.

Lemma assoc_drop_other (c c' : label) (l : list (label * cell)) :
  c' <> c ->
  assoc c' (filter (fun '(c0, _) => negb (label_eqb c0 c)) l) = assoc c' l.
Proof.
  intros Hne. induction l as [|[c0 y0] l IH]; simpl; [reflexivity|].
  destruct (label_eqb_spec c0 c) as [->|Hne0]; simpl.
  - rewrite label_eqb_neq by congruence. apply IH.
  - now rewrite IH.
Qed.

Lemma labels_drop (c : label) (l : list (label * cell)) :
  map fst (filter (fun '(c0, _) => negb (label_eqb c0 c)) l)
  = filter (fun c0 => negb (label_eqb c0 c)) (map fst l).
Proof.
  induction l as [|[c0 y0] l IH]; simpl; [reflexivity|].
  destruct (label_eqb c0 c); simpl; now rewrite IH.
Qed.
End PandasFacts.

Module FrameFacts.
Import Pandas PandasFacts.

Lemma add_unseen_NoDup (seen : list string) (k : string) :
  NoDup seen -> NoDup (add_unseen seen k).
Proof.
  intros Hnd. unfold add_unseen.
  destruct (existsb (String.eqb k) seen) eqn:Hex; [assumption|].
  apply NoDup_app; [assumption|repeat constructor; intros []|].
  intros x Hx [Heq|[]]. subst x.
  assert (Hsome : existsb (String.eqb k) seen = true).
  { apply existsb_exists. exists k. split; [assumption|apply String.eqb_refl]. }
  congruence.
Qed.

Lemma union_keys_NoDup (ds : list dict) : NoDup (union_keys ds).
Proof.
  unfold union_keys.
  assert (Hgen : forall seen, NoDup seen ->
            NoDup (fold_left (fun seen d =>
                     fold_left add_unseen (PyDict.keys d) seen) ds seen)).
  { induction ds as [|d ds IH]; intros seen Hseen; simpl; [assumption|].
    apply IH. generalize (PyDict.keys d) as ks. intros ks. revert seen Hseen.
    induction ks as [|k ks IHk]; intros seen Hseen; simpl; [assumption|].
    apply IHk. now apply add_unseen_NoDup. }
  apply Hgen. constructor.
Qed.

Lemma Name_NoDup (cols : list string) : NoDup cols -> NoDup (map Name cols).
Proof.
  induction 1 as [|c cols Hnotin Hnd IH]; simpl; constructor; [|assumption].
  rewrite in_map_iff. intros (c' & [= ->] & Hin). contradiction.
Qed.

Lemma Pos_NoDup (ns : list nat) : NoDup ns -> NoDup (map Pos ns).
Proof.
  induction 1 as [|c cols Hnotin Hnd IH]; simpl; constructor; [|assumption].
  rewrite in_map_iff. intros (c' & [= ->] & Hin). contradiction.
Qed.

Lemma omap_length {A B : Type} (f : A -> outcome B) (l : list A)
  (l' : list B) :
  omap f l = Ok l' -> List.length l' = List.length l.
Proof.
  intros Hok. apply omap_Forall2 in Hok.
  induction Hok; simpl; congruence.
Qed.

(** [pd.DataFrame(list)], when it builds a table, builds a well-formed one
    with one row for each element of the list, under the default index. *)
Lemma DataFrame_of_list_ok (data : list json) (df : DataFrame) :
  DataFrame_of_list data = Ok df ->
  wf_frame df /\ List.length (rows df) = List.length data
  /\ axis_name df = None.
Proof.
  unfold DataFrame_of_list, wf_frame, rows_fit.
  destruct data as [|x data].
  - intros [= <-]. simpl. repeat split; constructor.
  - destruct x as [| b | n | m e | s | items | members];
      try (intros [= <-]; unfold frame_of_scalars;
           cbn [rows columns axis_name];
           rewrite length_map, enumerate_length; repeat split;
           [apply Forall_forall; intros r Hr; apply in_map_iff in Hr;
            destruct Hr as ([i x'] & <- & _); reflexivity
           |constructor; [intros []|constructor]]).
    + destruct (omap as_sequence (JList items :: data)) as [rs|] eqn:Hrs;
        simpl; [|discriminate].
      intros [= <-]. unfold frame_of_sequences. cbn [rows columns axis_name].
      rewrite length_map, enumerate_length. repeat split.
      * apply Forall_forall. intros r Hr. apply in_map_iff in Hr.
        destruct Hr as ([i x'] & <- & _). simpl. now rewrite map_map.
      * apply Pos_NoDup, seq_NoDup.
      * now apply omap_length in Hrs.
    + destruct (omap as_dict (JObj members :: data)) as [ds|] eqn:Hds;
        simpl; [|discriminate].
      intros [= <-]. unfold frame_of_dicts. cbn [rows columns axis_name].
      rewrite length_map, enumerate_length. repeat split.
      * apply Forall_forall. intros r Hr. apply in_map_iff in Hr.
        destruct Hr as ([i x'] & <- & _). simpl. now rewrite map_map.
      * apply Name_NoDup, union_keys_NoDup.
      * now apply omap_length in Hds.
Qed.
End FrameFacts.

Module NormalizeFacts.
Import Pandas PandasFacts FrameFacts.

Lemma cell_at_appended_new (r : row) (c : label) (x : cell) :
  ~ In c (map fst (vals r)) ->
  cell_at {| ix := ix r; vals := vals r ++ [(c, x)] |} c = x.
Proof.
  intros Hnew. unfold cell_at. simpl.
  rewrite assoc_app, (assoc_absent _ _ Hnew). simpl.
  now rewrite label_eqb_refl.
Qed.

Lemma cell_at_appended_old (r : row) (c c' : label) (x : cell) :
  In c' (map fst (vals r)) ->
  cell_at {| ix := ix r; vals := vals r ++ [(c, x)] |} c' = cell_at r c'.
Proof.
  intros Hold. unfold cell_at. simpl. rewrite assoc_app.
  destruct (assoc_present _ _ Hold) as (y & ->). reflexivity.
Qed.

Lemma add_meta_column_ok (result df : DataFrame) (k : string) (v : json) :
  wf_frame result -> add_meta_column result (k, v) = Ok df ->
  wf_frame df
  /\ axis_name df = axis_name result
  /\ columns df = columns result ++ [Name k]
  /\ List.length (rows df) = List.length (rows result)
  /\ (forall r, In r (rows df) -> cell_at r (Name k) = Obj v)
  /\ (forall c x, In c (columns result) ->
        (forall r, In r (rows result) -> cell_at r c = x) ->
        forall r, In r (rows df) -> cell_at r c = x).
Proof.
  intros [Hfit Hnd]. unfold add_meta_column, has_column.
  destruct (existsb (label_eqb (Name k)) (columns result)) eqn:Hex;
    [discriminate|].
  assert (Hnew : ~ In (Name k) (columns result)).
  { intros Hin. apply existsb_label in Hin. congruence. }
  intros [= <-]. cbn [rows columns axis_name].
  unfold rows_fit in Hfit. rewrite Forall_forall in Hfit.
  repeat split.
  - apply Forall_forall. intros r Hr. apply in_map_iff in Hr.
    destruct Hr as (r0 & <- & Hr0). cbn [vals columns].
    rewrite map_app, (Hfit r0 Hr0). reflexivity.
  - apply NoDup_app; [assumption|repeat constructor; intros []|].
    intros c Hc [<-|[]]. contradiction.
  - apply length_map.
  - intros r Hr. apply in_map_iff in Hr. destruct Hr as (r0 & <- & Hr0).
    apply cell_at_appended_new. now rewrite (Hfit r0 Hr0).
  - intros c x Hc Hconst r Hr. apply in_map_iff in Hr.
    destruct Hr as (r0 & <- & Hr0).
    rewrite cell_at_appended_old; [auto|]. now rewrite (Hfit r0 Hr0).
Qed.

Lemma add_meta_columns_ok (meta : list (string * json))
  (result df : DataFrame) :
  wf_frame result -> add_meta_columns result meta = Ok df ->
  wf_frame df
  /\ axis_name df = axis_name result
  /\ columns df = columns result ++ map (fun kv => Name (fst kv)) meta
  /\ List.length (rows df) = List.length (rows result)
  /\ (forall k v, In (k, v) meta ->
        forall r, In r (rows df) -> cell_at r (Name k) = Obj v)
  /\ (forall c x, In c (columns result) ->
        (forall r, In r (rows result) -> cell_at r c = x) ->
        forall r, In r (rows df) -> cell_at r c = x).
Proof.
  revert result.
  induction meta as [|[k v] meta IH]; intros result Hwf;
    cbn [add_meta_columns map].
  - intros [= <-]. rewrite app_nil_r. destruct Hwf.
    repeat split; auto; contradiction.
  - destruct (add_meta_column result (k, v)) as [mid|] eqn:Hstep;
      cbn [obind]; [|discriminate].
    intros Hrest.
    destruct (add_meta_column_ok _ _ _ _ Hwf Hstep)
      as (Hwf1 & Hax1 & Hcols1 & Hlen1 & Hnew1 & Hold1).
    destruct (IH _ Hwf1 Hrest) as (Hwf2 & Hax2 & Hcols2 & Hlen2 & Hnew2 & Hold2).
    repeat split.
    + apply Hwf2.
    + apply Hwf2.
    + congruence.
    + rewrite Hcols2, Hcols1, <- app_assoc. reflexivity.
    + congruence.
    + intros k' v' [[= <- <-]|Hin] r Hr.
      * apply (Hold2 (Name k) (Obj v)); [|assumption|assumption].
        rewrite Hcols1. apply in_or_app. right. now left.
      * now apply (Hnew2 k' v').
    + intros c x Hc Hconst r Hr.
      apply (Hold2 c x); [| |assumption].
      * rewrite Hcols1. apply in_or_app. now left.
      * now apply (Hold1 c x).
Qed.

Section WithLibrary.
Context `{Library}.

Lemma pull_fields_In (data : dict) (meta : list string)
  (meta_vals : list (string * json)) (k : string) (v : json) :
  omap (pull_field data) meta = Ok meta_vals ->
  In k meta -> PyDict.get data k = Some v -> In (k, v) meta_vals.
Proof.
  intros Hok. apply omap_Forall2 in Hok.
  induction Hok as [|k0 kv ks kvs Hpull Hrest IH]; [intros []|].
  intros [->|Hin] Hget.
  - unfold pull_field in Hpull. rewrite Hget in Hpull.
    injection Hpull as <-. now left.
  - right. auto.
Qed.

Lemma pull_fields_names (data : dict) (meta : list string)
  (meta_vals : list (string * json)) :
  omap (pull_field data) meta = Ok meta_vals ->
  map (fun kv => Name (fst kv)) meta_vals = map Name meta.
Proof.
  intros Hok. apply omap_Forall2 in Hok.
  induction Hok as [|k0 kv ks kvs Hpull Hrest IH]; [reflexivity|].
  simpl. rewrite IH. unfold pull_field in Hpull.
  destruct (PyDict.get data k0); [|discriminate].
  injection Hpull as <-. reflexivity.
Qed.

(** What [json_normalize] returns when it returns: a well-formed table
    under the default index, with one row for each record, the columns of
    the records followed by the [meta] columns, each [meta] column
    holding, in every row, the value [data] has under that name. *)
Lemma json_normalize_ok (data : dict) (record_path : string)
  (meta : list string) (df : DataFrame) :
  json_normalize data record_path meta = Ok df ->
  wf_frame df
  /\ axis_name df = None
  /\ (forall recs, PyDict.get data record_path = Some (JList recs) ->
        List.length (rows df) = List.length recs)
  /\ (forall k, In k meta -> In (Name k) (columns df))
  /\ (forall k v, In k meta -> PyDict.get data k = Some v ->
        forall r, In r (rows df) -> cell_at r (Name k) = Obj v).
Proof.
  unfold json_normalize.
  destruct (pull_records data record_path) as [recs|] eqn:Hrecs;
    simpl; [|discriminate].
  destruct (omap flatten_record recs) as [records|] eqn:Hflat;
    simpl; [|discriminate].
  destruct (omap (pull_field data) meta) as [meta_vals|] eqn:Hmeta;
    simpl; [|discriminate].
  destruct (DataFrame_of_list records) as [result|] eqn:Hresult;
    simpl; [|discriminate].
  intros Hadd.
  destruct (DataFrame_of_list_ok _ _ Hresult) as (Hwf & Hlen & Hax).
  destruct (add_meta_columns_ok _ _ _ Hwf Hadd)
    as (Hwf' & Hax' & Hcols & Hlen' & Hnew & _).
  repeat split.
  - apply Hwf'.
  - apply Hwf'.
  - congruence.
  - intros recs' Hget. unfold pull_records in Hrecs.
    rewrite Hget in Hrecs. injection Hrecs as <-.
    rewrite Hlen', Hlen. now apply omap_length in Hflat.
  - intros k Hk. rewrite Hcols, (pull_fields_names _ _ _ Hmeta).
    apply in_or_app. right. now apply in_map.
  - intros k v Hk Hget r Hr. apply (Hnew k v); [|assumption].
    now apply (pull_fields_In data meta).
Qed.
End WithLibrary.
End NormalizeFacts.

(** ** Timestamp columns *)

Lemma Forall2_compose {A B C : Type} (R : A -> B -> Prop) (S : B -> C -> Prop)
  (T : A -> C -> Prop) (l1 : list A) (l2 : list B) (l3 : list C) :
  (forall a b c, R a b -> S b c -> T a c) ->
  Forall2 R l1 l2 -> Forall2 S l2 l3 -> Forall2 T l1 l3.
Proof.
  intros Hcomp H12. revert l3.
  induction H12 as [|a b l1 l2 Hab H12 IH]; intros l3 H23;
    inversion H23; subst; constructor; eauto.
Qed.

Lemma Forall2_refl_on {A : Type} (R : A -> A -> Prop) (l : list A) :
  (forall a, In a l -> R a a) -> Forall2 R l l.
Proof.
  induction l as [|a l IH]; intros Hrefl; constructor.
  - apply Hrefl. now left.
  - apply IH. intros a' Ha'. apply Hrefl. now right.
Qed.

Lemma Forall2_In_r {A B : Type} (R : A -> B -> Prop) (l : list A)
  (l' : list B) (b : B) :
  Forall2 R l l' -> In b l' -> exists a, In a l /\ R a b.
Proof.
  induction 1 as [|a0 b0 l l' Hab Hrest IH]; [intros []|].
  intros [<-|Hin].
  - exists a0. split; [now left|assumption].
  - destruct (IH Hin) as (a & Ha & Hr). exists a. split; [now right|assumption].
Qed.

Lemma omap_total {A B : Type} (f : A -> outcome B) (l : list A) :
  (forall a, In a l -> exists b, f a = Ok b) -> exists l', omap f l = Ok l'.
Proof.
  induction l as [|a l IH]; intros Hall; simpl.
  - now exists [].
  - destruct (Hall a (or_introl eq_refl)) as (b & ->).
    destruct IH as (l' & ->); [intros a' Ha'; apply Hall; now right|].
    simpl. eauto.
Qed.

Module TimestampFacts.
Import Pandas PandasFacts.

Lemma time_columns_of_ok (cols : list label) (tcols : list string) :
  time_columns_of cols = Ok tcols ->
  map Name tcols = filter is_time_label cols.
Proof.
  revert tcols. induction cols as [|[col|n] cols IH]; intros tcols; simpl.
  - now intros [= <-].
  - destruct (time_columns_of cols) as [others|]; simpl; [|discriminate].
    intros [= <-]. specialize (IH others eq_refl).
    destruct (endswith col "TimeUtc"); simpl; now rewrite IH.
  - discriminate.
Qed.

Lemma time_columns_NoDup (cols : list label) (tcols : list string) :
  NoDup cols -> time_columns_of cols = Ok tcols -> NoDup tcols.
Proof.
  intros Hnd Hok. apply time_columns_of_ok in Hok.
  apply (NoDup_map_inv Name). rewrite Hok. now apply NoDup_filter.
Qed.

Lemma time_columns_In (cols : list label) (tcols : list string)
  (col : string) :
  time_columns_of cols = Ok tcols ->
  In col tcols -> In (Name col) cols /\ is_time_label (Name col) = true.
Proof.
  intros Hok Hin. apply time_columns_of_ok in Hok.
  apply (in_map Name) in Hin. rewrite Hok in Hin.
  now apply filter_In in Hin.
Qed.

Lemma update_column_ok (f : cell -> outcome cell) (c : label)
  (df df' : DataFrame) :
  update_column f c df = Ok df' ->
  axis_name df' = axis_name df
  /\ columns df' = columns df
  /\ Forall2 (fun r r' =>
                exists x, f (cell_at r c) = Ok x
                          /\ r' = {| ix := ix r;
                                     vals := set_cell c x (vals r) |})
             (rows df) (rows df').
Proof.
  unfold update_column.
  destruct (omap _ (rows df)) as [rows'|] eqn:Hrows; simpl; [|discriminate].
  intros [= <-]. simpl. repeat split.
  apply omap_Forall2 in Hrows.
  eapply Forall2_impl; [|exact Hrows]. simpl.
  intros r r' Hr. destruct (f (cell_at r c)) as [x|]; simpl in Hr;
    [|discriminate].
  injection Hr as <-. now exists x.
Qed.

Lemma cell_at_updated_same (i : cell) (l : list (label * cell)) (c : label)
  (x : cell) :
  In c (map fst l) -> cell_at (mkRow i (set_cell c x l)) c = x.
Proof.
  intros Hin. unfold cell_at. simpl. rewrite assoc_set_cell_same.
  now destruct (assoc_present _ _ Hin) as (y & ->).
Qed.

Lemma cell_at_updated_other (i : cell) (l : list (label * cell))
  (c c' : label) (x : cell) :
  c' <> c -> cell_at (mkRow i (set_cell c x l)) c' = cell_at (mkRow i l) c'.
Proof.
  intros Hne. unfold cell_at. simpl. now rewrite assoc_set_cell_other.
Qed.

Section WithLibrary.
Context `{Library}.

Lemma converted_nil (t : DataFrame) (zone : tzinfo) (r : row) :
  converted t zone [] r r.
Proof. repeat split; auto. intros col []. Qed.

(** Rows related cell by cell on column [c] make the same column. *)
Lemma column_unchanged (c : label) (rs rs' : list row)
  (R : row -> row -> Prop) :
  (forall r r', R r r' -> cell_at r' c = cell_at r c) ->
  Forall2 R rs rs' ->
  map (fun r => cell_at r c) rs' = map (fun r => cell_at r c) rs.
Proof.
  intros Hcell. induction 1 as [|r r' rs rs' Hr _ IH]; simpl.
  - reflexivity.
  - now rewrite IH, (Hcell r r' Hr).
Qed.

(** One turn of [for col in time_columns] converts that column. *)
Lemma convert_column_ok (time_zone : option tzinfo) (df df' : DataFrame)
  (col : string) :
  rows_fit df -> In (Name col) (columns df) ->
  convert_column time_zone df col = Ok df' ->
  axis_name df' = axis_name df
  /\ columns df' = columns df
  /\ Forall2 (converted df (zone_of time_zone) [col]) (rows df) (rows df').
Proof.
  intros Hfit Hcol. unfold convert_column.
  destruct (update_column (to_datetime (column df (Name col))) (Name col) df)
    as [df1|] eqn:H1; simpl; [|discriminate].
  destruct (update_column tz_localize_utc (Name col) df1) as [df2|] eqn:H2;
    simpl; [|discriminate].
  apply update_column_ok in H1. destruct H1 as (Hax1 & Hcols1 & Hrows1).
  apply update_column_ok in H2. destruct H2 as (Hax2 & Hcols2 & Hrows2).
  assert (Hlocalized :
    Forall2 (converted df UTC [col]) (rows df) (rows df2)).
  { unfold rows_fit in Hfit. rewrite Forall_forall in Hfit.
    assert (Hrows1' : Forall2 (fun r r1 => In r (rows df) /\
               exists x, to_datetime (column df (Name col))
                           (cell_at r (Name col)) = Ok x
                 /\ r1 = {| ix := ix r;
                            vals := set_cell (Name col) x (vals r) |})
             (rows df) (rows df1)).
    { clear - Hrows1. induction Hrows1; constructor.
      - split; [now left|assumption].
      - eapply Forall2_impl; [|exact IHHrows1].
        intros a b [Ha Hb]. split; [now right|assumption]. }
    eapply Forall2_compose; [|exact Hrows1'|exact Hrows2].
    intros r r1 r2 (Hr & x1 & Hx1 & ->) (x2 & Hx2 & ->).
    assert (Hpresent : In (Name col) (map fst (vals r)))
      by now rewrite (Hfit r Hr).
    rewrite cell_at_updated_same in Hx2 by assumption.
    unfold converted. cbn [ix vals]. repeat split.
    - now rewrite !labels_set_cell.
    - intros c Hc.
      assert (Hne : c <> Name col) by (intros ->; apply Hc; now left).
      now rewrite !cell_at_updated_other by assumption.
    - intros col' [<-|[]].
      destruct x1 as [| |t [zone|]]; try discriminate.
      injection Hx2 as <-. exists t. split; [assumption|].
      apply cell_at_updated_same. now rewrite labels_set_cell. }
  destruct time_zone as [zone|]; cbn [zone_of with_default].
  - intros H3. apply update_column_ok in H3.
    destruct H3 as (Hax3 & Hcols3 & Hrows3).
    repeat split; [congruence|congruence|].
    assert (Hlocalized' : Forall2 (fun r r2 =>
               In (Name col) (map fst (vals r))
               /\ converted df UTC [col] r r2)
             (rows df) (rows df2)).
    { unfold rows_fit in Hfit. rewrite Forall_forall in Hfit.
      clear - Hlocalized Hfit Hcol.
      assert (Hgen : forall rs rs2,
                (forall r, In r rs -> map fst (vals r) = columns df) ->
                Forall2 (converted df UTC [col]) rs rs2 ->
                Forall2 (fun r r2 =>
                   In (Name col) (map fst (vals r))
                   /\ converted df UTC [col] r r2) rs rs2).
      { induction 2 as [|r r2 rs rs2 Hr _ IH]; constructor.
        - split; [|assumption]. rewrite H0; [assumption|now left].
        - apply IH. intros r' Hr'. apply H0. now right. }
      now apply Hgen. }
    eapply Forall2_compose; [|exact Hlocalized'|exact Hrows3].
    intros r r2 r3 (Hpresent & Hix & Hlabels & Hothers & Hcolumn)
           (x3 & Hx3 & ->).
    unfold converted. cbn [ix vals]. repeat split.
    + assumption.
    + now rewrite labels_set_cell.
    + intros c Hc. rewrite cell_at_updated_other.
      * now apply Hothers.
      * intros ->. apply Hc. now left.
    + intros col' [<-|[]].
      destruct (Hcolumn col (or_introl eq_refl)) as (t & Ht & Hcell).
      rewrite Hcell in Hx3. injection Hx3 as <-.
      exists t. split; [assumption|].
      apply cell_at_updated_same. now rewrite Hlabels.
  - intros [= <-]. repeat split; [congruence|congruence|assumption].
Qed.

Lemma converted_cons (df df1 : DataFrame) (zone : tzinfo) (col : string)
  (rest : list string) (r r1 r' : row) :
  ~ In col rest ->
  (forall col', In col' rest ->
     column df1 (Name col') = column df (Name col')) ->
  converted df zone [col] r r1 -> converted df1 zone rest r1 r' ->
  converted df zone (col :: rest) r r'.
Proof.
  intros Hfresh Hsame (Hix1 & Hlab1 & Hoth1 & Hcol1)
         (Hix2 & Hlab2 & Hoth2 & Hcol2).
  unfold converted. repeat split.
  - congruence.
  - congruence.
  - intros c Hc. simpl in Hc. rewrite Hoth2, Hoth1; [reflexivity| |].
    + intros [<-|[]]. apply Hc. now left.
    + intros Hin. apply Hc. now right.
  - intros col' [<-|Hin].
    + destruct (Hcol1 col (or_introl eq_refl)) as (t & Ht & Hcell).
      exists t. split; [assumption|]. rewrite Hoth2; [assumption|].
      rewrite in_map_iff. intros (col' & [= ->] & Hin). contradiction.
    + destruct (Hcol2 col' Hin) as (t & Ht & Hcell).
      exists t. split; [|assumption].
      rewrite <- (Hsame col' Hin), <- Hoth1; [assumption|].
      intros [[= ->]|[]]. contradiction.
Qed.

Lemma converted_rows_fit (t : DataFrame) (zone : tzinfo)
  (cols : list string) (df df' : DataFrame) :
  rows_fit df -> columns df' = columns df ->
  Forall2 (converted t zone cols) (rows df) (rows df') -> rows_fit df'.
Proof.
  unfold rows_fit. intros Hfit Hcols Hrows. rewrite Hcols.
  induction Hrows as [|r r' rs rs' (_ & Hlab & _) Hrest IH]; constructor.
  - rewrite Hlab. now inversion Hfit.
  - apply IH. now inversion Hfit.
Qed.

(** Converting one column leaves the other columns as they were. *)
Lemma converted_other_columns (df df1 : DataFrame) (zone : tzinfo)
  (col : string) (c : label) :
  c <> Name col ->
  Forall2 (converted df zone [col]) (rows df) (rows df1) ->
  column df1 c = column df c.
Proof.
  intros Hne Hrows. unfold column.
  apply (column_unchanged c _ _ (converted df zone [col])); [|assumption].
  intros r r' (_ & _ & Hothers & _). apply Hothers.
  intros [<-|[]]. now apply Hne.
Qed.

(** The whole [for col in time_columns] loop converts every one of the
    columns and nothing else. *)
Lemma convert_columns_ok (time_zone : option tzinfo) (cols : list string)
  (df df' : DataFrame) :
  rows_fit df -> NoDup cols ->
  (forall col, In col cols -> In (Name col) (columns df)) ->
  convert_columns time_zone df cols = Ok df' ->
  axis_name df' = axis_name df
  /\ columns df' = columns df
  /\ Forall2 (converted df (zone_of time_zone) cols) (rows df) (rows df').
Proof.
  revert df. induction cols as [|col rest IH]; intros df Hfit Hnd Hin;
    cbn [convert_columns].
  - intros [= <-]. repeat split.
    apply Forall2_refl_on. intros r _. apply converted_nil.
  - destruct (convert_column time_zone df col) as [df1|] eqn:Hstep;
      cbn [obind]; [|discriminate].
    intros Hrest.
    apply convert_column_ok in Hstep; [|assumption|apply Hin; now left].
    destruct Hstep as (Hax1 & Hcols1 & Hrows1).
    inversion Hnd as [|? ? Hfresh Hnd']; subst.
    apply IH in Hrest; [|now apply (converted_rows_fit df
                                       (zone_of time_zone) [col] df)
                        |assumption
                        |intros c Hc; rewrite Hcols1; apply Hin; now right].
    destruct Hrest as (Hax2 & Hcols2 & Hrows2).
    repeat split; [congruence|congruence|].
    eapply Forall2_compose; [|exact Hrows1|exact Hrows2].
    intros r r1 r'. apply converted_cons; [assumption|].
    intros col' Hcol'.
    apply (converted_other_columns df df1 (zone_of time_zone) col);
      [|assumption].
    intros [= ->]. contradiction.
Qed.

Lemma update_column_total (f : cell -> outcome cell) (c : label)
  (df : DataFrame) :
  (forall r, In r (rows df) -> exists x, f (cell_at r c) = Ok x) ->
  exists df', update_column f c df = Ok df'.
Proof.
  intros Hall. unfold update_column.
  destruct (omap_total
              (fun r => let! x := f (cell_at r c) in
                        Ok {| ix := ix r; vals := set_cell c x (vals r) |})
              (rows df)) as (rows' & ->).
  - intros r Hr. destruct (Hall r Hr) as (x & ->). simpl. eauto.
  - simpl. eauto.
Qed.

(** A column whose cells all read as naive datetimes converts. *)
Lemma convert_column_total (time_zone : option tzinfo) (df : DataFrame)
  (col : string) :
  rows_fit df -> In (Name col) (columns df) ->
  (forall r, In r (rows df) ->
     exists t, to_datetime (column df (Name col)) (cell_at r (Name col))
               = Ok (Timestamp t None)) ->
  exists df', convert_column time_zone df col = Ok df'.
Proof.
  intros Hfit Hcol Hreads. unfold convert_column.
  unfold rows_fit in Hfit. rewrite Forall_forall in Hfit.
  destruct (update_column_total (to_datetime (column df (Name col)))
              (Name col) df) as (df1 & H1).
  { intros r Hr. destruct (Hreads r Hr) as (t & Ht). eauto. }
  rewrite H1. cbn [obind].
  destruct (update_column_ok _ _ _ _ H1) as (_ & _ & Hrows1).
  destruct (update_column_total tz_localize_utc (Name col) df1)
    as (df2 & H2).
  { intros r1 Hr1.
    destruct (Forall2_In_r _ _ _ _ Hrows1 Hr1) as (r & Hr & x & Hx & ->).
    destruct (Hreads r Hr) as (t & Ht).
    rewrite cell_at_updated_same by (rewrite (Hfit r Hr); assumption).
    assert (x = Timestamp t None) by congruence. subst x.
    simpl. eauto. }
  rewrite H2. cbn [obind].
  destruct time_zone as [zone|]; [|eauto].
  destruct (update_column_ok _ _ _ _ H2) as (_ & _ & Hrows2).
  apply update_column_total. intros r2 Hr2.
  destruct (Forall2_In_r _ _ _ _ Hrows2 Hr2) as (r1 & Hr1 & x2 & Hx2 & ->).
  destruct (Forall2_In_r _ _ _ _ Hrows1 Hr1) as (r & Hr & x1 & Hx1 & ->).
  destruct (Hreads r Hr) as (t & Ht).
  assert (x1 = Timestamp t None) by congruence. subst x1.
  rewrite cell_at_updated_same in Hx2
    by (rewrite (Hfit r Hr); assumption).
  injection Hx2 as <-.
  rewrite cell_at_updated_same; [simpl; eauto|].
  cbn [vals]. rewrite labels_set_cell, (Hfit r Hr). assumption.
Qed.

Lemma convert_columns_total (time_zone : option tzinfo) (cols : list string)
  (df : DataFrame) :
  rows_fit df -> NoDup cols ->
  (forall col, In col cols -> In (Name col) (columns df)) ->
  (forall r col, In r (rows df) -> In col cols ->
     exists t, to_datetime (column df (Name col)) (cell_at r (Name col))
               = Ok (Timestamp t None)) ->
  exists df', convert_columns time_zone df cols = Ok df'.
Proof.
  revert df. induction cols as [|col rest IH]; intros df Hfit Hnd Hin Hreads;
    cbn [convert_columns].
  - eauto.
  - destruct (convert_column_total time_zone df col) as (df1 & Hstep);
      [assumption|apply Hin; now left
      |intros r Hr; apply Hreads; [assumption|now left]|].
    rewrite Hstep. cbn [obind].
    destruct (convert_column_ok _ _ _ _ Hfit (Hin col (or_introl eq_refl))
                Hstep) as (_ & Hcols1 & Hrows1).
    inversion Hnd as [|? ? Hfresh Hnd']; subst.
    apply IH.
    + now apply (converted_rows_fit df (zone_of time_zone) [col] df).
    + assumption.
    + intros c Hc. rewrite Hcols1. apply Hin. now right.
    + intros r1 c Hr1 Hc.
      assert (Hne : Name c <> Name col) by (intros [= ->]; contradiction).
      rewrite (converted_other_columns df df1 (zone_of time_zone) col
                 (Name c) Hne Hrows1).
      destruct (Forall2_In_r _ _ _ _ Hrows1 Hr1)
        as (r & Hr & _ & _ & Hothers & _).
      rewrite Hothers.
      * apply Hreads; [assumption|now right].
      * intros [Heq|[]]. now apply Hne.
Qed.
End WithLibrary.

(** *** [sort_index] *)

Lemma key_le_total (a b : option Z) : key_le a b = false -> key_le b a = true.
Proof.
  destruct a as [x|], b as [y|]; simpl; try congruence.
  rewrite Z.leb_gt, Z.leb_le. lia.
Qed.

Lemma key_le_trans (a b c : option Z) :
  key_le a b = true -> key_le b c = true -> key_le a c = true.
Proof.
  destruct a as [x|], b as [y|], c as [z|]; simpl; try congruence.
  rewrite !Z.leb_le. lia.
Qed.

Lemma insert_row_In (r r' : row) (sorted : list row) :
  In r' (insert_row r sorted) <-> r' = r \/ In r' sorted.
Proof.
  induction sorted as [|r0 sorted IH]; simpl.
  - intuition congruence.
  - destruct (row_le r r0); simpl; rewrite ?IH; intuition congruence.
Qed.

Lemma insert_row_perm (r : row) (sorted : list row) :
  Permutation (r :: sorted) (insert_row r sorted).
Proof.
  induction sorted as [|r0 sorted IH]; simpl.
  - apply Permutation_refl.
  - destruct (row_le r r0); [apply Permutation_refl|].
    eapply perm_trans; [apply perm_swap|]. now apply perm_skip.
Qed.

Lemma insert_row_ascending (r : row) (sorted : list row) :
  ascending sorted -> ascending (insert_row r sorted).
Proof.
  unfold ascending.
  induction sorted as [|r0 sorted IH]; intros Hs; simpl.
  - repeat constructor.
  - inversion Hs as [|? ? Hs' Hall]; subst.
    destruct (row_le r r0) eqn:Hle.
    + constructor; [assumption|]. constructor; [assumption|].
      eapply Forall_impl; [|exact Hall]. intros r1 H01.
      unfold row_le in *. eapply key_le_trans; eassumption.
    + constructor; [now apply IH|].
      apply Forall_forall. intros r1 Hr1. apply insert_row_In in Hr1.
      destruct Hr1 as [->|Hr1].
      * unfold row_le in *. now apply key_le_total.
      * rewrite Forall_forall in Hall. now apply Hall.
Qed.

Lemma sort_index_ascending (df : DataFrame) : ascending (rows (sort_index df)).
Proof.
  unfold sort_index. cbn [rows].
  induction (rows df) as [|r rs IH]; simpl.
  - constructor.
  - now apply insert_row_ascending.
Qed.

Lemma sort_index_perm (df : DataFrame) :
  Permutation (rows df) (rows (sort_index df)).
Proof.
  unfold sort_index. cbn [rows].
  induction (rows df) as [|r rs IH]; simpl.
  - constructor.
  - eapply perm_trans; [|apply insert_row_perm]. now apply perm_skip.
Qed.
End TimestampFacts.

Section IndexFacts.
Import Pandas PandasFacts TimestampFacts.
Context `{Library}.

(** Without a timestamp column the table comes back as it is, after a
    warning. *)
Lemma set_timestamp_index_plain (df : DataFrame)
  (time_zone : option tzinfo) (st : state) :
  time_columns_of (columns df) = Ok [] ->
  exists msg,
    _set_timestamp_index df time_zone st
    = (Ok df, {| self := self st; trace := trace st ++ [Log WARNING msg] |}).
Proof.
  intros Hnone. unfold _set_timestamp_index, bind, lift.
  rewrite Hnone. eexists. reflexivity.
Qed.

(** With timestamp columns, the table that comes back is indexed by the
    first of them, under the name ['timestamp'], in ascending order, and
    its rows are the rows of [df] with every timestamp column converted. *)
Lemma set_timestamp_index_ok (df out : DataFrame)
  (time_zone : option tzinfo) (first : string) (others : list string)
  (st st' : state) :
  wf_frame df ->
  time_columns_of (columns df) = Ok (first :: others) ->
  _set_timestamp_index df time_zone st = (Ok out, st') ->
  st' = st
  /\ axis_name out = Some (Name "timestamp")
  /\ columns out
     = filter (fun c => negb (label_eqb c (Name first))) (columns df)
  /\ ascending (rows out)
  /\ exists rows1,
       Forall2 (indexed_row df (zone_of time_zone) first others)
               (rows df) rows1
       /\ Permutation rows1 (rows out).
Proof.
  intros [Hfit Hnd] Htime. unfold _set_timestamp_index, bind, lift, ret.
  rewrite Htime.
  destruct (convert_columns time_zone df (first :: others)) as [df1|]
    eqn:Hconv; [|discriminate].
  destruct (set_index df1 (Name first)) as [indexed|] eqn:Hidx;
    [|discriminate].
  intros [= <- <-].
  pose proof (time_columns_NoDup _ _ Hnd Htime) as Hnd_time.
  apply convert_columns_ok in Hconv;
    [|assumption|assumption
     |intros col Hcol; now apply (time_columns_In _ _ _ Htime)].
  destruct Hconv as (_ & Hcols1 & Hrows1).
  unfold set_index in Hidx.
  destruct (has_column df1 (Name first)); [|discriminate].
  injection Hidx as <-. cbn [sort_index rename_axis axis_name columns rows].
  split; [reflexivity|]. split; [reflexivity|].
  split; [now rewrite Hcols1|].
  set (reindexed := map _ (rows df1)).
  split.
  { apply (sort_index_ascending
             {| axis_name := None; columns := []; rows := reindexed |}). }
  exists reindexed. split.
  - subst reindexed.
    assert (Hmap : forall (rs rs1 : list row),
              Forall2 (converted df (zone_of time_zone) (first :: others))
                      rs rs1 ->
              Forall2 (indexed_row df (zone_of time_zone) first others) rs
                (map (fun r =>
                   {| ix := cell_at r (Name first);
                      vals := filter (fun '(c', _) =>
                                negb (label_eqb c' (Name first)))
                                (vals r) |}) rs1)).
    { induction 1 as [|r r1 rs rs1 Hr Hrs IH]; simpl; constructor;
        [|assumption].
      destruct Hr as (Hix & Hlab & Hoth & Hcol).
      inversion Hnd_time as [|? ? Hfresh _]; subst.
      unfold indexed_row. cbn [ix]. repeat split.
      - destruct (Hcol first (or_introl eq_refl)) as (t & Ht & Hcell).
        exists t. now split.
      - intros col Hin.
        destruct (Hcol col (or_intror Hin)) as (t & Ht & Hcell).
        exists t. split; [assumption|].
        unfold cell_at in *. cbn [vals].
        rewrite assoc_drop_other; [assumption|].
        intros [= ->]. contradiction.
      - intros c Hc.
        assert (Hnot : ~ In c (map Name (first :: others))).
        { rewrite in_map_iff. intros (col & <- & Hin).
          apply (time_columns_In _ _ _ Htime) in Hin.
          destruct Hin as [_ Hlabel]. congruence. }
        rewrite <- (Hoth c Hnot).
        unfold cell_at. cbn [vals].
        rewrite assoc_drop_other; [reflexivity|].
        intros ->. apply Hnot. now left. }
    now apply Hmap.
  - apply (sort_index_perm
             {| axis_name := None; columns := []; rows := reindexed |}).
Qed.
(** When every cell of the timestamp columns reads as a naive datetime,
    the indexed table is returned, and nothing is logged. *)
Lemma set_timestamp_index_total (df : DataFrame) (time_zone : option tzinfo)
  (first : string) (others : list string) (st : state) :
  wf_frame df ->
  time_columns_of (columns df) = Ok (first :: others) ->
  (forall r col, In r (rows df) -> In col (first :: others) ->
     exists t, to_datetime (column df (Name col)) (cell_at r (Name col))
               = Ok (Timestamp t None)) ->
  exists out, _set_timestamp_index df time_zone st = (Ok out, st).
Proof.
  intros [Hfit Hnd] Htime Hreads.
  unfold _set_timestamp_index, bind, lift, ret. rewrite Htime.
  pose proof (time_columns_NoDup _ _ Hnd Htime) as Hnd_time.
  assert (Hin : forall col, In col (first :: others) ->
                  In (Name col) (columns df)).
  { intros col Hcol. now apply (time_columns_In _ _ _ Htime). }
  destruct (convert_columns_total time_zone (first :: others) df
              Hfit Hnd_time Hin Hreads) as (df1 & Hconv).
  rewrite Hconv.
  destruct (convert_columns_ok _ _ _ _ Hfit Hnd_time Hin Hconv)
    as (_ & Hcols1 & _).
  unfold set_index, has_column. rewrite Hcols1.
  replace (existsb (label_eqb (Name first)) (columns df)) with true.
  - eauto.
  - symmetry. apply existsb_label. apply Hin. now left.
Qed.
End IndexFacts.

(** ** The default index and the timestamp columns of a normalized table *)

Section DefaultIndexFacts.
Import Pandas PandasFacts FrameFacts NormalizeFacts TimestampFacts.
Context `{Library}.

Lemma range_rows_index {A : Type} (f : A -> list (label * cell))
  (l : list A) (start : nat) :
  map ix (map (fun '(i, x) => {| ix := range_label i; vals := f x |})
            (combine (seq start (List.length l)) l))
  = map range_label (seq start (List.length l)).
Proof.
  revert start. induction l as [|x l IH]; intros start; simpl;
    [reflexivity|].
  f_equal. apply IH.
Qed.

Lemma DataFrame_of_list_default (data : list json) (df : DataFrame) :
  DataFrame_of_list data = Ok df -> default_index df.
Proof.
  unfold DataFrame_of_list, default_index.
  destruct data as [|x rest]; [intros [= <-]; split; reflexivity|].
  destruct x as [|b|n|q|s|l|d];
    try (intros [= <-]; unfold frame_of_scalars; cbn [axis_name rows];
         split; [reflexivity|];
         rewrite length_map, enumerate_length;
         apply (range_rows_index (fun x => [(Pos 0%nat, Obj x)]))).
  - destruct (omap as_sequence _) as [rs|]; [|discriminate].
    intros [= <-]. unfold frame_of_sequences. cbn [axis_name rows].
    split; [reflexivity|].
    rewrite length_map, enumerate_length. apply range_rows_index.
  - destruct (omap as_dict _) as [ds|]; [|discriminate].
    intros [= <-]. unfold frame_of_dicts. cbn [axis_name rows].
    split; [reflexivity|].
    rewrite length_map, enumerate_length. apply range_rows_index.
Qed.

Lemma DataFrame_of_records_names (first : dict) (rest : list json)
  (df : DataFrame) :
  DataFrame_of_list (JObj first :: rest) = Ok df ->
  forall c, In c (columns df) -> exists s, c = Name s.
Proof.
  unfold DataFrame_of_list.
  destruct (omap as_dict _) as [ds|]; [|discriminate].
  intros [= <-] c. unfold frame_of_dicts. cbn [columns].
  rewrite in_map_iff. intros (s & <- & _). now exists s.
Qed.

Lemma add_meta_columns_index (meta : list (string * json))
  (result df : DataFrame) :
  add_meta_columns result meta = Ok df ->
  map ix (rows df) = map ix (rows result).
Proof.
  revert result. induction meta as [|[k v] meta IH]; intros result;
    cbn [add_meta_columns].
  - now intros [= <-].
  - unfold add_meta_column.
    destruct (has_column result (Name k)); [discriminate|].
    cbn [obind]. intros Hrest. rewrite (IH _ Hrest). cbn [rows].
    rewrite map_map. reflexivity.
Qed.

(** The table [json_normalize] makes of a list of records has the default
    index, and all its column labels are strings. *)
Lemma json_normalize_records (data : dict) (record_path : string)
  (meta : list string) (first : dict) (rest : list json) (t : DataFrame) :
  PyDict.get data record_path = Some (JList (JObj first :: rest)) ->
  json_normalize data record_path meta = Ok t ->
  default_index t /\ forall c, In c (columns t) -> exists s, c = Name s.
Proof.
  unfold json_normalize, pull_records. intros ->. cbn [obind].
  destruct (omap flatten_record (JObj first :: rest)) as [records|]
    eqn:Hflat; [|discriminate].
  cbn [obind].
  destruct (omap (pull_field data) meta) as [meta_vals|]; [|discriminate].
  cbn [obind].
  destruct (DataFrame_of_list records) as [result|] eqn:Hresult;
    [|discriminate].
  cbn [obind]. intros Hadd.
  apply omap_Forall2 in Hflat.
  inversion Hflat as [|? y ? flat' Hfirst Hrest]; subst.
  cbn [flatten_record] in Hfirst.
  destruct (nested_to_record first) as [first'|]; [|discriminate].
  injection Hfirst as <-.
  destruct (DataFrame_of_list_ok _ _ Hresult) as (Hwf & _ & _).
  destruct (DataFrame_of_list_default _ _ Hresult) as [Haxis Hix].
  destruct (add_meta_columns_ok _ _ _ Hwf Hadd)
    as (_ & Haxis' & Hcols & Hlen & _).
  split.
  - split; [congruence|].
    rewrite (add_meta_columns_index _ _ _ Hadd), Hlen. exact Hix.
  - intros c. rewrite Hcols, in_app_iff, in_map_iff.
    intros [Hc|(kv & <- & _)].
    + now apply (DataFrame_of_records_names _ _ _ Hresult).
    + now exists (fst kv).
Qed.

Lemma time_columns_none (cols : list label) :
  (forall c, In c cols ->
     exists s, c = Name s /\ endswith s "TimeUtc" = false) ->
  time_columns_of cols = Ok [].
Proof.
  induction cols as [|c cols IH]; intros Hplain; simpl; [reflexivity|].
  destruct (Hplain c (or_introl eq_refl)) as (s & -> & Hs).
  rewrite IH by (intros c Hc; apply Hplain; now right).
  simpl. now rewrite Hs.
Qed.

Lemma time_columns_total (cols : list label) :
  (forall c, In c cols -> exists s, c = Name s) ->
  exists tcols, time_columns_of cols = Ok tcols.
Proof.
  induction cols as [|c cols IH]; intros Hnames; [now exists []|].
  destruct (Hnames c (or_introl eq_refl)) as (s & ->).
  destruct IH as (tcols & Htcols).
  { intros c Hc. apply Hnames. now right. }
  cbn [time_columns_of]. rewrite Htcols. cbn [obind]. eauto.
Qed.

(** The first column ending with 'TimeUtc' is the head of the list the
    function goes through, which holds every such column. *)
Lemma time_columns_first (t : DataFrame) (first : string) :
  (forall c, In c (columns t) -> exists s, c = Name s) ->
  first_time_column t first ->
  exists others,
    time_columns_of (columns t) = Ok (first :: others)
    /\ forall col, In (Name col) (columns t) ->
         endswith col "TimeUtc" = true -> In col (first :: others).
Proof.
  intros Hnames (before & rest & Hcols & Hends & Hbefore).
  destruct (time_columns_total _ Hnames) as (tcols & Htime).
  pose proof (time_columns_of_ok _ _ Htime) as Hfilter.
  assert (Hall : forall col, In (Name col) (columns t) ->
                   endswith col "TimeUtc" = true -> In col tcols).
  { intros col Hcol Hend.
    assert (Hin : In (Name col) (map Name tcols)).
    { rewrite Hfilter. apply filter_In. now split. }
    apply in_map_iff in Hin. destruct Hin as (col' & [= ->] & Hin).
    exact Hin. }
  rewrite Hcols, filter_app in Hfilter. cbn [filter is_time_label] in Hfilter.
  rewrite Hends in Hfilter.
  replace (filter is_time_label before) with (@nil label) in Hfilter.
  - destruct tcols as [|col others]; [discriminate|].
    cbn [map app] in Hfilter. injection Hfilter as -> _.
    exists others. now split.
  - symmetry. clear - Hbefore.
    induction before as [|c before IH]; [reflexivity|].
    cbn [filter]. rewrite (Hbefore c (or_introl eq_refl)).
    apply IH. intros c' Hc'. apply Hbefore. now right.
Qed.
End DefaultIndexFacts.

(** ** JSON to table *)

Section NormalizationProps.
Import Pandas PandasFacts FrameFacts NormalizeFacts TimestampFacts.
Context `{Library}.

(** On an object with a usable record path, [_json_to_dataframe] is
    [json_normalize] followed by [_set_timestamp_index]. *)
Lemma json_to_dataframe_records (d : dict) (record_path : option string)
  (time_zone : option tzinfo) (rp : string) (st st' : state)
  (df : DataFrame) :
  _find_record_path d record_path = Some rp -> rp <> "" ->
  _json_to_dataframe (JObj d) record_path time_zone st = (Ok df, st') ->
  exists records t,
    PyDict.get d rp = Some records
    /\ json_normalize (PyDict.set (_flatten_meta d rp) rp records) rp
         (PyDict.keys (_flatten_meta d rp)) = Ok t
    /\ _set_timestamp_index t time_zone st = (Ok df, st').
Proof.
  intros Hfind Hrp. unfold _json_to_dataframe. rewrite Hfind.
  unfold path_truthy, str_truthy.
  destruct (String.eqb_spec rp "") as [|_]; [contradiction|].
  cbn [negb].
  destruct (PyDict.get d rp) as [records|]; [|discriminate].
  unfold bind, lift.
  destruct (json_normalize _ rp _) as [t|] eqn:Hnorm; [|discriminate].
  intros Hrun. now exists records, t.
Qed.

(** The same, read forwards. *)
Lemma json_to_dataframe_normalized (d : dict) (record_path : option string)
  (time_zone : option tzinfo) (rp : string) (records : json) (t : DataFrame)
  (st : state) :
  _find_record_path d record_path = Some rp -> rp <> "" ->
  PyDict.get d rp = Some records ->
  json_normalize (PyDict.set (_flatten_meta d rp) rp records) rp
    (PyDict.keys (_flatten_meta d rp)) = Ok t ->
  _json_to_dataframe (JObj d) record_path time_zone st
  = _set_timestamp_index t time_zone st.
Proof.
  intros Hfind Hrp Hrecords Hnorm. unfold _json_to_dataframe.
  rewrite Hfind. unfold path_truthy, str_truthy.
  destruct (String.eqb_spec rp "") as [|_]; [contradiction|].
  cbn [negb]. rewrite Hrecords. unfold bind, lift. now rewrite Hnorm.
Qed.

(** C3, as amended: for every parsed response that is an object with a
    usable (non-empty) record path, whose normalized table has at least
    one column whose name ends with 'TimeUtc', all cells of such columns
    reading as naive datetimes, the normalization returns a table in which
    every such column is converted to timezone-aware datetimes (localized
    as UTC and, when a timezone is given, converted to it); the first such
    column, in column order, has become the index, the index is named
    'timestamp', and the rows are sorted ascending by it.  A normalized
    table without such a column is returned as it is, after a warning, an
    object without a usable record path becomes a one-row table and an
    array the table of its elements: these three come back under the
    default index, not a timestamp index. *)
Theorem timestamp_index_spec (d : dict) (record_path : option string)
  (time_zone : option tzinfo) (st : state) :
  (forall rp records t first,
      PyDict.wf_dict d ->
      _find_record_path d record_path = Some rp -> rp <> "" ->
      PyDict.get d rp = Some records ->
      json_normalize (PyDict.set (_flatten_meta d rp) rp records) rp
        (PyDict.keys (_flatten_meta d rp)) = Ok t ->
      first_time_column t first ->
      reads_naive t ->
      exists df,
        _json_to_dataframe (JObj d) record_path time_zone st = (Ok df, st)
        /\ axis_name df = Some (Name "timestamp")
        /\ columns df
           = filter (fun c => negb (label_eqb c (Name first))) (columns t)
        /\ ascending (rows df)
        /\ exists rows1,
             Forall2 (timestamp_row t (zone_of time_zone) first)
                     (rows t) rows1
             /\ Permutation rows1 (rows df))
  /\ (forall rp records t,
        PyDict.wf_dict d ->
        _find_record_path d record_path = Some rp -> rp <> "" ->
        PyDict.get d rp = Some records ->
        json_normalize (PyDict.set (_flatten_meta d rp) rp records) rp
          (PyDict.keys (_flatten_meta d rp)) = Ok t ->
        (forall col, In (Name col) (columns t) ->
           endswith col "TimeUtc" = false) ->
        _json_to_dataframe (JObj d) record_path time_zone st
        = (Ok t,
           after st
             (Log WARNING
                "No column ending with 'TimeUtc' found in DataFrame."))
        /\ default_index t)
  /\ ((_find_record_path d record_path = None
       \/ _find_record_path d record_path = Some "") ->
      exists df,
        _json_to_dataframe (JObj d) record_path time_zone st = (Ok df, st)
        /\ DataFrame_of_list [JObj d] = Ok df
        /\ default_index df)
  /\ (forall l,
        _json_to_dataframe (JList l) record_path time_zone st
        = (DataFrame_of_list l, st)
        /\ forall df, DataFrame_of_list l = Ok df -> default_index df).
Proof.
  assert (Hshape : forall rp records t,
            PyDict.wf_dict d ->
            _find_record_path d record_path = Some rp ->
            PyDict.get d rp = Some records ->
            json_normalize (PyDict.set (_flatten_meta d rp) rp records) rp
              (PyDict.keys (_flatten_meta d rp)) = Ok t ->
            default_index t
            /\ forall c, In c (columns t) -> exists s, c = Name s).
  { intros rp records t Hwf Hfind Hrecords Hnorm.
    destruct (find_record_path_holds _ _ _ Hwf Hfind)
      as (val & Hval & Hlist).
    assert (val = records) by congruence. subst val.
    destruct (is_record_list_shape _ Hlist) as (first & rest & ->).
    apply (json_normalize_records _ _ _ first rest _) in Hnorm;
      [assumption|].
    now rewrite PyDictFacts.get_set, String.eqb_refl. }
  split; [|split; [|split]].
  - intros rp records t first Hwf Hfind Hrp Hrecords Hnorm Hfirst Hreads.
    destruct (Hshape _ _ _ Hwf Hfind Hrecords Hnorm) as [_ Hnames].
    destruct (time_columns_first t first Hnames Hfirst)
      as (others & Htime & Hall).
    destruct (json_normalize_ok _ _ _ _ Hnorm) as (Hwft & _).
    assert (Hreads' : forall r col, In r (rows t) ->
              In col (first :: others) ->
              exists ts, to_datetime (column t (Name col))
                           (cell_at r (Name col))
                         = Ok (Timestamp ts None)).
    { intros r col Hr Hcol.
      destruct (time_columns_In _ _ _ Htime Hcol) as [Hin Hlabel].
      now apply Hreads. }
    destruct (set_timestamp_index_total t time_zone first others st
                Hwft Htime Hreads') as (df & Hset).
    exists df.
    rewrite (json_to_dataframe_normalized _ _ _ _ _ _ _ Hfind Hrp Hrecords
               Hnorm).
    split; [assumption|].
    destruct (set_timestamp_index_ok _ _ _ _ _ _ _ Hwft Htime Hset)
      as (_ & Hax & Hcols & Hsorted & rows1 & Hrows1 & Hperm).
    repeat (split; [assumption|]).
    exists rows1. split; [|assumption].
    revert Hrows1. apply Forall2_impl.
    intros r r' (Hindex & Hothers & Hrest).
    split; [assumption|]. split; [|assumption].
    intros col Hcol Hend Hne. apply Hothers.
    destruct (Hall col Hcol Hend) as [Heq|Hin]; [congruence|assumption].
  - intros rp records t Hwf Hfind Hrp Hrecords Hnorm Hnone.
    destruct (Hshape _ _ _ Hwf Hfind Hrecords Hnorm) as [Hdefault Hnames].
    split; [|assumption].
    rewrite (json_to_dataframe_normalized _ _ _ _ _ _ _ Hfind Hrp Hrecords
               Hnorm).
    unfold _set_timestamp_index, bind, lift.
    rewrite time_columns_none; [reflexivity|].
    intros c Hc. destruct (Hnames c Hc) as (s & ->).
    exists s. split; [reflexivity|]. now apply Hnone.
  - intros Hnone. exists (frame_of_dicts [d]).
    split; [|split; [reflexivity
                    |now apply (DataFrame_of_list_default [JObj d])]].
    unfold _json_to_dataframe. destruct Hnone as [-> | ->]; reflexivity.
  - intros l. split; [reflexivity|apply DataFrame_of_list_default].
Qed.

(** C2, as amended: for every JSON object with chosen record path rp,
    [_flatten_meta] returns a mapping all of whose entries come from a
    top-level key other than rp: 'key_subkey' carrying a subkey's value
    when the key's value is an object, the key itself carrying its value
    otherwise; every such name is a key of the mapping, and the mapping
    holds exactly these entries whenever no two of them share a name
    with different values.  The flattened entries whose name is not rp
    and does not end with 'TimeUtc' are attached as columns to every
    record row of the table the normalization returns, which has one row
    for each record. *)
Theorem flatten_meta_spec (data : dict) (rp : string) :
  (forall name v,
      PyDict.get (_flatten_meta data rp) name = Some v ->
      meta_entry data rp name v)
  /\ (forall name v,
        meta_entry data rp name v ->
        exists v', PyDict.get (_flatten_meta data rp) name = Some v')
  /\ ((forall name v v',
          meta_entry data rp name v -> meta_entry data rp name v' ->
          v = v') ->
      forall name v,
        meta_entry data rp name v
        <-> PyDict.get (_flatten_meta data rp) name = Some v)
  /\ (forall record_path time_zone st st' df,
        _find_record_path data record_path = Some rp -> rp <> "" ->
        _json_to_dataframe (JObj data) record_path time_zone st
        = (Ok df, st') ->
        (forall recs, PyDict.get data rp = Some (JList recs) ->
           List.length (rows df) = List.length recs)
        /\ forall name v,
             PyDict.get (_flatten_meta data rp) name = Some v ->
             name <> rp -> endswith name "TimeUtc" = false ->
             has_column df (Name name) = true
             /\ forall r, In r (rows df) -> cell_at r (Name name) = Obj v).
Proof.
  split; [|split; [|split]].
  - apply flatten_meta_sound.
  - apply flatten_meta_covers.
  - intros Hfun name v. split.
    + intros Hentry.
      destruct (flatten_meta_covers _ _ _ _ Hentry) as (v' & Hget).
      rewrite Hget. f_equal. apply (Hfun name); [|assumption].
      now apply flatten_meta_sound.
    + apply flatten_meta_sound.
  - intros record_path time_zone st st' df Hfind Hrp Hrun.
    destruct (json_to_dataframe_records _ _ _ _ _ _ _ Hfind Hrp Hrun)
      as (records & t & Hrecords & Hnorm & Hset).
    destruct (json_normalize_ok _ _ _ _ Hnorm)
      as (Hwf & _ & Hlen & Hcols & Hcells).
    assert (Hlen_t : forall recs, PyDict.get data rp = Some (JList recs) ->
                       List.length (rows t) = List.length recs).
    { intros recs Hget. apply Hlen.
      rewrite PyDictFacts.get_set, String.eqb_refl. congruence. }
    assert (Hmeta_t : forall name v,
              PyDict.get (_flatten_meta data rp) name = Some v ->
              name <> rp ->
              In (Name name) (columns t)
              /\ forall r, In r (rows t) -> cell_at r (Name name) = Obj v).
    { intros name v Hget Hne.
      assert (Hkey : In name (PyDict.keys (_flatten_meta data rp))).
      { apply PyDictFacts.get_In in Hget.
        change name with (fst (name, v)). now apply in_map. }
      split; [now apply Hcols|].
      apply Hcells; [assumption|].
      rewrite PyDictFacts.get_set.
      destruct (String.eqb_spec rp name); [congruence|assumption]. }
    destruct (time_columns_of (columns t)) as [[|first others]|] eqn:Htime.
    + destruct (set_timestamp_index_plain t time_zone st Htime)
        as (msg & Hplain).
      rewrite Hplain in Hset. injection Hset as <- _.
      split; [assumption|].
      intros name v Hget Hne _. destruct (Hmeta_t name v Hget Hne).
      split; [|assumption]. now apply existsb_label.
    + destruct (set_timestamp_index_ok _ _ _ _ _ _ _ Hwf Htime Hset)
        as (_ & _ & Hcols' & _ & rows1 & Hrows1 & Hperm).
      split.
      * intros recs Hget. rewrite <- (Hlen_t recs Hget).
        rewrite <- (Permutation_length Hperm).
        symmetry. eapply Forall2_length. exact Hrows1.
      * intros name v Hget Hne Hplain.
        destruct (Hmeta_t name v Hget Hne) as [Hcol Hcell].
        assert (Hfirst : Name name <> Name first).
        { intros [= ->].
          destruct (time_columns_In _ _ first Htime (or_introl eq_refl))
            as [_ Hlabel].
          simpl in Hlabel. congruence. }
        split.
        -- apply existsb_label. rewrite Hcols'. apply filter_In.
           split; [assumption|].
           now rewrite (label_eqb_neq _ _ Hfirst).
        -- intros r Hr.
           apply (Permutation_in _ (Permutation_sym Hperm)) in Hr.
           destruct (Forall2_In_r _ _ _ _ Hrows1 Hr)
             as (r0 & Hr0 & _ & _ & Hkeep).
           rewrite (Hkeep (Name name) Hplain). now apply Hcell.
    + unfold _set_timestamp_index, bind, lift in Hset.
      rewrite Htime in Hset. discriminate.
Qed.
End NormalizationProps.

Section ShapeProps.
Import Pandas PandasFacts FrameFacts.
Context `{Library}.

Lemma add_unseen_fresh (ks seen : list string) :
  NoDup (seen ++ ks) -> fold_left add_unseen ks seen = seen ++ ks.
Proof.
  revert seen. induction ks as [|k ks IH]; intros seen Hnd; simpl.
  - now rewrite app_nil_r.
  - unfold add_unseen at 2.
    assert (Hfresh : existsb (String.eqb k) seen = false).
    { apply not_true_is_false. rewrite existsb_exists.
      intros (k' & Hin & Heq). apply String.eqb_eq in Heq. subst k'.
      apply NoDup_remove_2 in Hnd. apply Hnd.
      apply in_or_app. now left. }
    rewrite Hfresh, IH; rewrite <- app_assoc; [reflexivity|assumption].
Qed.

Lemma union_keys_single (d : dict) :
  PyDict.wf_dict d -> union_keys [d] = PyDict.keys d.
Proof. intros Hwf. unfold union_keys. simpl. now apply add_unseen_fresh. Qed.

Lemma assoc_named (g : string -> cell) (cols : list string) (k : string) :
  In k cols ->
  assoc (Name k) (map (fun c => (Name c, g c)) cols) = Some (g k).
Proof.
  induction cols as [|c cols IH]; simpl; [contradiction|].
  destruct (String.eqb_spec c k) as [->|Hne]; [reflexivity|].
  intros [|Hin]; [contradiction|auto].
Qed.

Lemma as_dicts_total (l : list json) :
  Forall (fun x => is_dict x = true) l ->
  exists ds, omap as_dict l = Ok ds.
Proof.
  induction 1 as [|x l Hx Hl (ds & IH)]; simpl.
  - now exists [].
  - destruct x; try discriminate. simpl. rewrite IH. simpl. eauto.
Qed.

(** C9, as amended: [_json_to_dataframe] branches on the shape of the
    JSON value alone.  A JSON array yields, whenever a table is built, a
    table with one row per element, and a table is built at least when
    every element is an object or the first element is neither an object
    nor an array (pandas raises on an array that starts with an object
    and holds something else later); a JSON object, each key held once,
    in which no key holds a non-empty list of objects yields a single-row
    table of that object; any other JSON value (string, number, boolean,
    null) yields an empty table. *)
Theorem json_to_dataframe_shapes (json_data : json)
  (record_path : option string) (time_zone : option tzinfo) (st : state) :
  (forall l, json_data = JList l ->
     (forall df st',
         _json_to_dataframe json_data record_path time_zone st
         = (Ok df, st') ->
         st' = st /\ List.length (rows df) = List.length l)
     /\ (Forall (fun x => is_dict x = true) l
         \/ (exists x rest, l = x :: rest
                            /\ is_dict x = false /\ is_list x = false) ->
         exists df,
           _json_to_dataframe json_data record_path time_zone st
           = (Ok df, st)))
  /\ (forall d, json_data = JObj d ->
        PyDict.wf_dict d -> no_record_key d ->
        exists r,
          _json_to_dataframe json_data record_path time_zone st
          = (Ok {| axis_name := None;
                   columns := map Name (PyDict.keys d);
                   rows := [r] |}, st)
          /\ forall k v, In (k, v) d -> cell_at r (Name k) = Obj v)
  /\ (is_list json_data = false -> is_dict json_data = false ->
      _json_to_dataframe json_data record_path time_zone st
      = (Ok empty_frame, st)).
Proof.
  split; [|split].
  - intros l ->. cbn [_json_to_dataframe]. unfold lift. split.
    + intros df st' [= Hbuilt <-]. split; [reflexivity|].
      now apply DataFrame_of_list_ok in Hbuilt.
    + intros [Hdicts|(x & rest & -> & Hnd & Hnl)].
      * destruct l as [|x rest]; [now eexists|].
        destruct (as_dicts_total _ Hdicts) as (ds & Hds).
        inversion Hdicts as [|? ? Hx _]; subst.
        destruct x; try discriminate.
        unfold DataFrame_of_list. rewrite Hds. simpl. now eexists.
      * destruct x; try discriminate; now eexists.
  - intros d -> Hwf Hnone. cbn [_json_to_dataframe].
    assert (Hfind : _find_record_path d record_path = None).
    { now apply (find_record_path_none d record_path). }
    rewrite Hfind. unfold lift, DataFrame_of_list. cbn [omap as_dict obind].
    unfold frame_of_dicts. rewrite (union_keys_single d Hwf).
    cbn [enumerate List.length seq combine map].
    eexists. split; [reflexivity|].
    intros k v Hin. unfold cell_at. cbn [vals].
    rewrite assoc_named.
    + now rewrite (PyDictFacts.In_get d k v Hwf Hin).
    + change k with (fst (k, v)). now apply in_map.
  - intros Hnl Hnd.
    destruct json_data; try discriminate; reflexivity.
Qed.
End ShapeProps.

(** ** The endpoint methods *)

Lemma requests_app (tr tr' : list event) :
  requests (tr ++ tr') = requests tr ++ requests tr'.
Proof.
  induction tr as [|[s url|ms|lvl msg] tr IH]; simpl; congruence.
Qed.

Lemma requests_logs (logs : list event) :
  forallb is_log logs = true -> requests logs = [].
Proof.
  induction logs as [|[s url|ms|lvl msg] logs IH]; simpl;
    try discriminate; auto.
Qed.

Lemma after_nothing (st : state) :
  {| self := self st; trace := trace st ++ [] |} = st.
Proof. destruct st. simpl. now rewrite app_nil_r. Qed.

Section EndpointProps.
Import Pandas.
Context `{Library} `{Network}.

(** [_set_timestamp_index] and [_json_to_dataframe] touch the world only
    by logging: their outcome and their log lines are the same in every
    state. *)
Lemma set_timestamp_index_pure (df : DataFrame)
  (time_zone : option tzinfo) :
  exists o logs,
    forallb is_log logs = true
    /\ forall st,
         _set_timestamp_index df time_zone st
         = (o, {| self := self st; trace := trace st ++ logs |}).
Proof.
  unfold _set_timestamp_index, bind, lift, ret, LOGGER_warning, emit.
  destruct (time_columns_of (columns df)) as [[|first others]|e].
  - exists (Ok df),
      [Log WARNING "No column ending with 'TimeUtc' found in DataFrame."].
    split; [reflexivity|]. intros st. reflexivity.
  - destruct (convert_columns time_zone df (first :: others)) as [df1|e].
    + destruct (set_index df1 (Name first)) as [indexed|e].
      * exists (Ok (sort_index (rename_axis indexed "timestamp"))), [].
        split; [reflexivity|]. intros st. now rewrite after_nothing.
      * exists (Raise e), []. split; [reflexivity|].
        intros st. now rewrite after_nothing.
    + exists (Raise e), []. split; [reflexivity|].
      intros st. now rewrite after_nothing.
  - exists (Raise e), []. split; [reflexivity|].
    intros st. now rewrite after_nothing.
Qed.

Lemma json_to_dataframe_pure (json_data : json)
  (record_path : option string) (time_zone : option tzinfo) :
  exists o logs,
    forallb is_log logs = true
    /\ forall st,
         _json_to_dataframe json_data record_path time_zone st
         = (o, {| self := self st; trace := trace st ++ logs |}).
Proof.
  assert (Hlift : forall o : outcome DataFrame,
            exists o' logs, forallb is_log logs = true
              /\ forall st, lift o st
                   = (o', {| self := self st; trace := trace st ++ logs |})).
  { intros o. exists o, []. split; [reflexivity|].
    intros st. unfold lift. now rewrite after_nothing. }
  unfold _json_to_dataframe.
  destruct json_data as [| b | n | m e | s | l | d];
    try (exists (Ok empty_frame), []; split; [reflexivity|];
         intros st; unfold ret; now rewrite after_nothing).
  - apply Hlift.
  - destruct (_find_record_path d record_path) as [rp|]; [|apply Hlift].
    destruct (path_truthy (Some rp)); [|apply Hlift].
    destruct (PyDict.get d rp) as [records|].
    + unfold bind, lift.
      destruct (json_normalize _ rp _) as [t|e].
      * apply set_timestamp_index_pure.
      * exists (Raise e), []. split; [reflexivity|].
        intros st. now rewrite after_nothing.
    + exists (Raise KeyError), []. split; [reflexivity|].
      intros st. unfold raise. now rewrite after_nothing.
Qed.

(** Every endpoint method is the same three steps: one GET of the
    method's URL, the status check, the normalization of the body. *)
Lemma call_unfold (e : endpoint) (st : state) :
  call e st
  = let s := session (self st) in
    let st1 := after st (Get s (template_url e)) in
    match server (trace st) s (template_url e) with
    | NoAnswer what => (Raise (RequestException what), st1)
    | Answer r =>
        if is_error_status (status_code r)
        then (Raise (HTTPError r), st1)
        else match json_body r with
             | None => (Raise JSONDecodeError, st1)
             | Some j =>
                 _json_to_dataframe j (endpoint_record_path e)
                   (endpoint_time_zone e) st1
             end
    end.
Proof.
  destruct e as [| pc | pc | pc [ft|] [tz|] | | sc | sc | sc [d|] [tz|]];
    cbv [call get_places get_place_info get_place_forecasts
         get_place_forecast_by_type get_stations get_station_info
         get_more_station_info get_station_historical_observations
         bind get_self session_get raise_for_status response_json
         with_default after is_error_status template_url
         endpoint_record_path endpoint_time_zone BASE_URL TIME_ZONE];
    simpl;
    (destruct (server (trace st) (session (self st)) _) as [r|what];
     [|reflexivity]);
    (destruct ((400 <=? status_code r)%Z && (status_code r <? 600)%Z);
     [reflexivity|]);
    unfold ret, raise; destruct (json_body r); reflexivity.
Qed.

(** What a call leaves behind: the client as it was, and a trace longer
    by the GET and possibly log lines. *)
Lemma call_effects (e : endpoint) (st : state) :
  self (snd (call e st)) = self st
  /\ exists logs,
       forallb is_log logs = true
       /\ trace (snd (call e st))
          = trace st ++ Get (session (self st)) (template_url e) :: logs.
Proof.
  rewrite call_unfold. cbv zeta.
  destruct (server _ _ _) as [r|what];
    [|split; [reflexivity|exists []; now split]].
  destruct (is_error_status (status_code r));
    [split; [reflexivity|exists []; now split]|].
  destruct (json_body r) as [j|];
    [|split; [reflexivity|exists []; now split]].
  destruct (json_to_dataframe_pure j (endpoint_record_path e)
              (endpoint_time_zone e)) as (o & logs & Hlogs & Hrun).
  rewrite Hrun. simpl. split; [reflexivity|].
  exists logs. split; [assumption|]. now rewrite <- app_assoc.
Qed.
End EndpointProps.

Section EndpointTheorems.
Import Pandas.
Context `{Library} `{Network}.

Lemma call_requests (e : endpoint) (st : state) :
  requests (trace (snd (call e st)))
  = requests (trace st) ++ [(session (self st), template_url e)].
Proof.
  destruct (call_effects e st) as (_ & logs & Hlogs & ->).
  rewrite requests_app. simpl. now rewrite (requests_logs logs Hlogs).
Qed.

(** C7: every endpoint method makes exactly one HTTP GET, and its URL is
    one of the fixed templates under the base URL
    'https://api.meteo.lt/v1' with the method's arguments substituted; in
    particular get_place_forecast_by_type requests
    '{BASE_URL}/places/{place_code}/forecasts/{forecast_type}' with
    forecast_type defaulting to 'long-term', and
    get_station_historical_observations requests
    '{BASE_URL}/stations/{station_code}/observations/{date}' with date
    defaulting to 'latest'. *)
Theorem endpoint_single_get (e : endpoint) (st : state) :
  (exists path,
      template_url e = (BASE_URL ++ path)%string
      /\ requests (trace (snd (call e st)))
         = requests (trace st) ++ [(session (self st), (BASE_URL ++ path)%string)])
  /\ (forall place_code forecast_type time_zone,
        requests (trace (snd (get_place_forecast_by_type place_code
                                forecast_type time_zone st)))
        = requests (trace st)
          ++ [(session (self st),
               (BASE_URL ++ "/places/" ++ place_code ++ "/forecasts/"
                ++ with_default "long-term" forecast_type)%string)])
  /\ (forall station_code date time_zone,
        requests (trace (snd (get_station_historical_observations
                                station_code date time_zone st)))
        = requests (trace st)
          ++ [(session (self st),
               (BASE_URL ++ "/stations/" ++ station_code
                ++ "/observations/" ++ with_default "latest" date)%string)]).
Proof.
  split; [|split].
  - assert (Hpath : exists path, template_url e = (BASE_URL ++ path)%string).
    { destruct e; simpl; eexists; unfold BASE_URL; simpl; reflexivity. }
    destruct Hpath as (path & Hpath). exists path.
    split; [assumption|]. rewrite <- Hpath. apply call_requests.
  - intros place_code forecast_type time_zone.
    apply (call_requests
             (GetPlaceForecastByType place_code forecast_type time_zone)).
  - intros station_code date time_zone.
    apply (call_requests
             (GetStationHistoricalObservations station_code date time_zone)).
Qed.

Lemma error_status_range (code : Z) :
  is_error_status code = true <-> (400 <= code < 600)%Z.
Proof.
  unfold is_error_status. rewrite andb_true_iff, Z.leb_le, Z.ltb_lt.
  reflexivity.
Qed.

Lemma other_status_range (code : Z) :
  is_error_status code = false <-> ~ (400 <= code < 600)%Z.
Proof.
  rewrite <- error_status_range. now destruct (is_error_status code).
Qed.

(** C6, as amended: for every endpoint method, when the HTTP response has
    a status from 400 to 599 (the statuses raise_for_status rejects) the
    method raises the HTTP error for that response and returns no table; a
    table is returned only when the status is outside 400..599 and the
    body parses as JSON, in which case it is the normalization of the
    parsed body, whatever the status (a reply with status 304 or 600 and
    a JSON body gives a table).  Nothing else handles failure: a failed
    GET, an unreadable body and a failed normalization are raised to the
    caller, and the method makes its one request and never sleeps. *)
Theorem endpoint_error_propagation (e : endpoint) (st : state) :
  let s := session (self st) in
  let st1 := after st (Get s (template_url e)) in
  (forall r, server (trace st) s (template_url e) = Answer r ->
             (400 <= status_code r < 600)%Z ->
             call e st = (Raise (HTTPError r), st1))
  /\ (forall df st', call e st = (Ok df, st') ->
        exists r j,
          server (trace st) s (template_url e) = Answer r
          /\ ~ (400 <= status_code r < 600)%Z
          /\ json_body r = Some j
          /\ _json_to_dataframe j (endpoint_record_path e)
               (endpoint_time_zone e) st1 = (Ok df, st'))
  /\ (forall r j, server (trace st) s (template_url e) = Answer r ->
        ~ (400 <= status_code r < 600)%Z ->
        json_body r = Some j ->
        call e st = _json_to_dataframe j (endpoint_record_path e)
                      (endpoint_time_zone e) st1)
  /\ (forall r, server (trace st) s (template_url e) = Answer r ->
        ~ (400 <= status_code r < 600)%Z ->
        json_body r = None ->
        call e st = (Raise JSONDecodeError, st1))
  /\ (forall what, server (trace st) s (template_url e) = NoAnswer what ->
        call e st = (Raise (RequestException what), st1))
  /\ exists logs,
       forallb is_log logs = true
       /\ trace (snd (call e st)) = trace st ++ Get s (template_url e) :: logs.
Proof.
  cbv zeta. split; [|split; [|split; [|split; [|split]]]].
  - intros r Hreply Herr. apply error_status_range in Herr.
    rewrite call_unfold. cbv zeta. now rewrite Hreply, Herr.
  - intros df st'. rewrite call_unfold. cbv zeta.
    destruct (server _ _ _) as [r|what]; [|discriminate].
    destruct (is_error_status (status_code r)) eqn:Herr; [discriminate|].
    destruct (json_body r) as [j|] eqn:Hbody; [|discriminate].
    intros Hrun. exists r, j. apply other_status_range in Herr. auto.
  - intros r j Hreply Herr Hbody. apply other_status_range in Herr.
    rewrite call_unfold. cbv zeta. now rewrite Hreply, Herr, Hbody.
  - intros r Hreply Herr Hbody. apply other_status_range in Herr.
    rewrite call_unfold. cbv zeta. now rewrite Hreply, Herr, Hbody.
  - intros what Hreply. rewrite call_unfold. cbv zeta.
    now rewrite Hreply.
  - apply call_effects.
Qed.
End EndpointTheorems.

(** ** The date-range helper *)

Section RangeProps.
Import Pandas.
Context `{Library} `{Network}.

(** One turn of the loop body, by the outcome of its single-date call. *)
Lemma range_body_cases (station_code : string) (time_zone : option tzinfo)
  (ls : loop_state) (st : state) :
  range_body station_code time_zone ls st
  = match fetch_date station_code time_zone (current_date ls) st with
    | (Ok df, st2) =>
        let all_dfs' :=
          if negb (empty df) then all_dfs ls ++ [df] else all_dfs ls in
        match PyDate.add_days (current_date ls) 1 with
        | Ok next => (Ok {| current_date := next; all_dfs := all_dfs' |},
                      after st2 (Sleep 150))
        | Raise e => (Raise e, after st2 (Sleep 150))
        end
    | (Raise (HTTPError r), st2) =>
        if (status_code r =? 429)%Z
        then (Ok ls, after (after st2 backoff_warning) (Sleep 5000))
        else (Raise (HTTPError r), st2)
    | (Raise e, st2) => (Raise e, st2)
    end.
Proof.
  unfold range_body, fetch_date, bind, attempt, LOGGER_info,
    LOGGER_warning, time_sleep, emit, lift, ret, raise, after,
    backoff_warning.
  cbn [fst snd].
  destruct (get_station_historical_observations _ _ _ _) as [[df|e] st2].
  - destruct (PyDate.add_days (current_date ls) 1); reflexivity.
  - destruct e; try reflexivity.
    destruct (status_code response =? 429)%Z; reflexivity.
Qed.

Lemma fetch_date_call (station_code : string) (time_zone : option tzinfo)
  (d : PyDate.date) (st : state) :
  fetch_date station_code time_zone d st
  = call (GetStationHistoricalObservations station_code
            (Some (PyDate.isoformat d)) (Some time_zone))
         (after st (Log INFO ("Fetching data for " ++ PyDate.isoformat d
                              ++ "..."))).
Proof. reflexivity. Qed.

Lemma fetch_date_effects (station_code : string)
  (time_zone : option tzinfo) (d : PyDate.date) (st : state) :
  self (snd (fetch_date station_code time_zone d st)) = self st
  /\ requests (trace (snd (fetch_date station_code time_zone d st)))
     = requests (trace st)
       ++ [(session (self st), observations_url station_code d)].
Proof.
  rewrite fetch_date_call. split.
  - now rewrite (proj1 (call_effects _ _)).
  - rewrite call_requests. unfold after. cbn [trace self].
    rewrite requests_app. simpl. now rewrite app_nil_r.
Qed.

Lemma range_body_self (station_code : string) (time_zone : option tzinfo)
  (ls : loop_state) (st : state) :
  self (snd (range_body station_code time_zone ls st)) = self st.
Proof.
  rewrite range_body_cases.
  pose proof (fetch_date_effects station_code time_zone (current_date ls) st)
    as [Hself _].
  destruct (fetch_date _ _ _ _) as [[df|e] st2]; cbn [snd] in Hself.
  - cbv zeta. destruct (PyDate.add_days _ _); assumption.
  - destruct e; try assumption.
    destruct (status_code response =? 429)%Z; assumption.
Qed.

(** Every turn of the loop body asks the server once, for the current
    date. *)
Lemma range_body_requests (station_code : string)
  (time_zone : option tzinfo) (ls : loop_state) (st : state) :
  requests (trace (snd (range_body station_code time_zone ls st)))
  = requests (trace st)
    ++ [(session (self st), observations_url station_code (current_date ls))].
Proof.
  rewrite range_body_cases.
  pose proof (fetch_date_effects station_code time_zone (current_date ls) st)
    as [_ Hreq].
  assert (Hquiet : forall st0 ev, is_log ev = true \/ (exists ms, ev = Sleep ms) ->
            requests (trace (after st0 ev)) = requests (trace st0)).
  { intros st0 ev Hev. unfold after. cbn [trace]. rewrite requests_app.
    destruct Hev as [Hlog|(ms & ->)]; simpl.
    - destruct ev; try discriminate. simpl. apply app_nil_r.
    - apply app_nil_r. }
  destruct (fetch_date _ _ _ _) as [[df|e] st2]; cbn [snd] in Hreq.
  - cbv zeta. destruct (PyDate.add_days _ _); cbn [snd];
      (rewrite Hquiet; [assumption|right; eauto]).
  - destruct e; try assumption.
    destruct (status_code response =? 429)%Z; cbn [snd]; [|assumption].
    rewrite Hquiet by (right; eauto).
    rewrite Hquiet by (now left). assumption.
Qed.

Lemma range_loop_self (fuel : nat) (station_code : string)
  (time_zone : option tzinfo) (end_date : PyDate.datetime)
  (ls : loop_state) (st st' : state) (o : outcome (list DataFrame)) :
  range_loop fuel station_code time_zone end_date ls st = Done o st' ->
  self st' = self st.
Proof.
  revert ls st. induction fuel as [|fuel IH]; intros ls st; simpl.
  - destruct (PyDate.le _ _); [discriminate|]. now intros [= _ <-].
  - destruct (PyDate.le _ _); [|now intros [= _ <-]].
    pose proof (range_body_self station_code time_zone ls st) as Hself.
    destruct (range_body _ _ _ _) as [[ls'|e] st1]; cbn [snd] in Hself.
    + intros Hrun. apply IH in Hrun. congruence.
    + intros [= _ <-]. assumption.
Qed.

(** C5: whenever a single-date call inside
    get_station_historical_observations_range raises an HTTP error with
    status code 429, the helper logs a warning, sleeps 5 seconds and goes
    round the loop again with the same date and the same tables, asking
    the server for that date again, so no date is skipped because of rate
    limiting; whenever the call raises an HTTP error with any other status
    code, that error leaves the helper unchanged. *)
Theorem rate_limit_backoff (fuel : nat) (station_code : string)
  (time_zone : option tzinfo) (end_date : PyDate.datetime)
  (ls : loop_state) (st st2 : state) (r : Response)
  (Hin : PyDate.le (current_date ls) (PyDate.dt_date end_date) = true)
  (Hcall : fetch_date station_code time_zone (current_date ls) st
           = (Raise (HTTPError r), st2)) :
  (status_code r = 429%Z ->
     let st3 := after (after st2 backoff_warning) (Sleep 5000) in
     range_body station_code time_zone ls st = (Ok ls, st3)
     /\ range_loop (S fuel) station_code time_zone end_date ls st
        = range_loop fuel station_code time_zone end_date ls st3
     /\ requests (trace (snd (range_body station_code time_zone ls st3)))
        = requests (trace st)
          ++ repeat (session (self st),
                     observations_url station_code (current_date ls)) 2)
  /\ (status_code r <> 429%Z ->
        range_loop (S fuel) station_code time_zone end_date ls st
        = Done (Raise (HTTPError r)) st2
        /\ forall start_date,
             ls = {| current_date := PyDate.dt_date start_date;
                     all_dfs := [] |} ->
             get_station_historical_observations_range (S fuel)
               station_code start_date end_date (Some time_zone) st
             = Done (Raise (HTTPError r)) st2).
Proof.
  assert (Hbody := range_body_cases station_code time_zone ls st).
  rewrite Hcall in Hbody. split.
  - intros Hbusy st3. rewrite Hbusy in Hbody. cbn [Z.eqb Pos.eqb] in Hbody.
    fold st3 in Hbody.
    split; [assumption|]. split.
    + cbn [range_loop]. now rewrite Hin, Hbody.
    + rewrite range_body_requests.
      pose proof (range_body_requests station_code time_zone ls st) as Hfirst.
      pose proof (range_body_self station_code time_zone ls st) as Hself.
      rewrite Hbody in Hfirst, Hself. cbn [snd] in Hfirst, Hself.
      rewrite Hfirst, Hself, <- app_assoc. reflexivity.
  - intros Hother. apply Z.eqb_neq in Hother. rewrite Hother in Hbody.
    assert (Hloop : range_loop (S fuel) station_code time_zone end_date ls st
                    = Done (Raise (HTTPError r)) st2).
    { cbn [range_loop]. now rewrite Hin, Hbody. }
    split; [assumption|].
    intros start_date ->.
    unfold get_station_historical_observations_range.
    cbn [with_default]. now rewrite Hloop.
Qed.

(** C10: for every start_date and end_date with start_date.date() after
    end_date.date(), get_station_historical_observations_range performs
    no HTTP request at all (it leaves the world as it found it) and
    returns an empty table. *)
Theorem empty_range (fuel : nat) (station_code : string)
  (start_date end_date : PyDate.datetime)
  (time_zone : option (option tzinfo)) (st : state)
  (Hafter : (PyDate.toordinal (PyDate.dt_date end_date)
             < PyDate.toordinal (PyDate.dt_date start_date))%Z) :
  get_station_historical_observations_range fuel station_code start_date
    end_date time_zone st
  = Done (Ok empty_frame) st.
Proof.
  unfold get_station_historical_observations_range.
  assert (Hle : PyDate.le (PyDate.dt_date start_date)
                  (PyDate.dt_date end_date) = false).
  { unfold PyDate.le. apply Z.leb_gt. assumption. }
  destruct fuel; cbn [range_loop current_date all_dfs]; now rewrite Hle.
Qed.
End RangeProps.

Lemma dates_between_none (a b : PyDate.date) :
  PyDate.le a b = false -> dates_between a b = [].
Proof.
  unfold PyDate.le, dates_between. rewrite Z.leb_gt. intros Hgt.
  replace (Z.to_nat _) with 0%nat by lia. reflexivity.
Qed.

Lemma dates_between_first (a b : PyDate.date) :
  PyDate.le a b = true ->
  dates_between a b
  = a :: dates_between (PyDate.mkDate (PyDate.toordinal a + 1)) b.
Proof.
  unfold PyDate.le, dates_between. rewrite Z.leb_le. intros Hle.
  cbn [PyDate.toordinal].
  replace (Z.to_nat (PyDate.toordinal b - PyDate.toordinal a + 1))
    with (S (Z.to_nat (PyDate.toordinal b - (PyDate.toordinal a + 1) + 1)))
    by lia.
  cbn [seq map]. f_equal.
  - destruct a as [o]. cbn [PyDate.toordinal]. f_equal. lia.
  - rewrite <- seq_shift, map_map. apply map_ext.
    intros i. f_equal. lia.
Qed.

Section RangeIteration.
Import Pandas.
Context `{Library} `{Network}.
Variable station_code : string.
Variable time_zone : option tzinfo.

Lemma date_served_loop (d : PyDate.date) (st st1 : state) (retries : nat)
  (df : DataFrame) :
  date_served station_code time_zone d st retries df st1 ->
  forall (fuel : nat) (end_date : PyDate.datetime) (acc : list DataFrame),
    PyDate.le d (PyDate.dt_date end_date) = true ->
    (0 <= PyDate.toordinal d < PyDate.MAXORDINAL)%Z ->
    range_loop (S retries + fuel) station_code time_zone end_date
      {| current_date := d; all_dfs := acc |} st
    = range_loop fuel station_code time_zone end_date
        {| current_date := PyDate.mkDate (PyDate.toordinal d + 1);
           all_dfs := if negb (empty df) then acc ++ [df] else acc |} st1.
Proof.
  induction 1 as [st st' df Hfetch|st st1 st' r retries df Hfetch Hbusy _ IH];
    intros fuel end_date acc Hle Hbound.
  - cbn [Nat.add range_loop current_date]. rewrite Hle.
    rewrite range_body_cases. cbn [current_date all_dfs].
    rewrite Hfetch. cbv zeta. unfold PyDate.add_days.
    replace ((0 <? PyDate.toordinal d + 1)%Z
             && (PyDate.toordinal d + 1 <=? PyDate.MAXORDINAL)%Z)
      with true; [reflexivity|].
    symmetry. apply andb_true_iff. rewrite Z.ltb_lt, Z.leb_le. lia.
  - change (S (S retries) + fuel)%nat with (S (S retries + fuel)).
    cbn [range_loop current_date]. rewrite Hle.
    rewrite range_body_cases. cbn [current_date all_dfs].
    rewrite Hfetch, Hbusy. cbn [Z.eqb Pos.eqb].
    now apply IH.
Qed.

Lemma date_served_effects (d : PyDate.date) (st st1 : state)
  (retries : nat) (df : DataFrame) :
  date_served station_code time_zone d st retries df st1 ->
  self st1 = self st
  /\ requests (trace st1)
     = requests (trace st)
       ++ repeat (session (self st), observations_url station_code d)
                 (S retries).
Proof.
  induction 1 as [st st' df Hfetch|st st1 st' r retries df Hfetch Hbusy _ IH].
  - destruct (fetch_date_effects station_code time_zone d st)
      as [Hself Hreq].
    rewrite Hfetch in Hself, Hreq. cbn [snd] in Hself, Hreq.
    unfold after. cbn [self trace]. split; [assumption|].
    rewrite requests_app, Hreq. simpl. now rewrite app_nil_r.
  - destruct (fetch_date_effects station_code time_zone d st)
      as [Hself Hreq].
    rewrite Hfetch in Hself, Hreq. cbn [snd] in Hself, Hreq.
    destruct IH as [IHself IHreq]. unfold after in IHself, IHreq.
    cbn [self trace] in IHself, IHreq.
    split; [congruence|].
    rewrite IHreq, !requests_app, Hreq, Hself. simpl.
    rewrite !app_nil_r, <- app_assoc. reflexivity.
Qed.

Lemma range_served_loop (last current : PyDate.date) (st st' : state)
  (served : list (nat * DataFrame)) :
  range_served station_code time_zone last current st served st' ->
  forall (end_date : PyDate.datetime) (acc : list DataFrame),
    PyDate.dt_date end_date = last ->
    (PyDate.toordinal last < PyDate.MAXORDINAL)%Z ->
    (0 <= PyDate.toordinal current)%Z ->
    exists fuel,
      range_loop fuel station_code time_zone end_date
        {| current_date := current; all_dfs := acc |} st
      = Done (Ok (acc ++ filter (fun df => negb (empty df))
                                (map snd served))) st'.
Proof.
  induction 1 as [current st Hover
                 |current st st1 st' retries df served Hle Hdate _ IH];
    intros end_date acc Hend Hmax Hpos.
  - exists 0%nat. cbn [range_loop current_date all_dfs].
    rewrite Hend, Hover. simpl. now rewrite app_nil_r.
  - assert (Hbound : (0 <= PyDate.toordinal current < PyDate.MAXORDINAL)%Z).
    { unfold PyDate.le in Hle. apply Z.leb_le in Hle. lia. }
    destruct (IH end_date
                (if negb (empty df) then acc ++ [df] else acc)
                Hend Hmax) as (fuel & Hrest).
    { cbn [PyDate.toordinal]. lia. }
    exists (S retries + fuel)%nat.
    rewrite (date_served_loop _ _ _ _ _ Hdate); [|now rewrite Hend|assumption].
    rewrite Hrest. f_equal. f_equal. cbn [map snd filter].
    destruct (negb (empty df)); [now rewrite <- app_assoc|reflexivity].
Qed.

Lemma range_served_effects (last current : PyDate.date) (st st' : state)
  (served : list (nat * DataFrame)) :
  range_served station_code time_zone last current st served st' ->
  self st' = self st
  /\ List.length served = List.length (dates_between current last)
  /\ requests (trace st')
     = requests (trace st)
       ++ flat_map (fun '(d, (retries, _)) =>
                      repeat (session (self st),
                              observations_url station_code d) (S retries))
                   (combine (dates_between current last) served).
Proof.
  induction 1 as [current st Hover
                 |current st st1 st' retries df served Hle Hdate _ IH].
  - rewrite (dates_between_none _ _ Hover). simpl.
    now rewrite app_nil_r.
  - rewrite (dates_between_first _ _ Hle).
    destruct (date_served_effects _ _ _ _ _ Hdate) as [Hself1 Hreq1].
    destruct IH as (Hself & Hlen & Hreq).
    split; [congruence|]. split; [simpl; congruence|].
    rewrite Hreq, Hreq1, Hself1. cbn [combine flat_map].
    now rewrite <- app_assoc.
Qed.
End RangeIteration.

Section ClientTheorems.
Import Pandas.
Context `{Library} `{Network}.

(** X22: for every start_date and end_date with end_date.date() before
    date.max (9999-12-31), when every call for a date of the range is
    answered, after finitely many replies with status 429, with a table,
    get_station_historical_observations_range calls the single-date
    observation endpoint at least once (once more for every 429) for
    every calendar date from start_date.date() to end_date.date()
    inclusive, in increasing date order with the date passed in ISO
    format, makes no other request, and returns the concatenation (in
    that order) of the non-empty per-date tables, or an empty table when
    every per-date table is empty. *)
Theorem range_iteration (station_code : string)
  (start_date end_date : PyDate.datetime)
  (time_zone : option (option tzinfo)) (st st' : state)
  (served : list (nat * DataFrame))
  (Hvalid : (0 < PyDate.toordinal (PyDate.dt_date start_date))%Z)
  (Hmax : (PyDate.toordinal (PyDate.dt_date end_date)
           < PyDate.MAXORDINAL)%Z)
  (Hserved : range_served station_code
               (with_default (Some TIME_ZONE) time_zone)
               (PyDate.dt_date end_date) (PyDate.dt_date start_date)
               st served st') :
  (exists fuel,
      get_station_historical_observations_range fuel station_code
        start_date end_date time_zone st
      = Done (combined (map snd served)) st')
  /\ List.length served
     = List.length (dates_between (PyDate.dt_date start_date)
                                  (PyDate.dt_date end_date))
  /\ requests (trace st')
     = requests (trace st)
       ++ flat_map (fun '(d, (retries, _)) =>
                      repeat (session (self st),
                              observations_url station_code d) (S retries))
                   (combine (dates_between (PyDate.dt_date start_date)
                                           (PyDate.dt_date end_date))
                            served).
Proof.
  split.
  - destruct (range_served_loop _ _ _ _ _ _ _ Hserved end_date []
                eq_refl Hmax) as (fuel & Hloop); [lia|].
    exists fuel. unfold get_station_historical_observations_range.
    rewrite Hloop. cbn [app]. unfold combined.
    now destruct (filter _ (map snd served)).
  - now destruct (range_served_effects _ _ _ _ _ _ _ Hserved)
      as (_ & Hlen & Hreq).
Qed.

Lemma call_outcome_same (e : endpoint) (st1 st2 : state) :
  self st1 = self st2 ->
  server (trace st1) (session (self st1)) (template_url e)
  = server (trace st2) (session (self st2)) (template_url e) ->
  fst (call e st1) = fst (call e st2).
Proof.
  intros Hself Hreply. rewrite !call_unfold. cbv zeta.
  rewrite Hreply. clear Hreply.
  destruct (server _ _ _) as [r|what]; [|reflexivity].
  destruct (is_error_status (status_code r)); [reflexivity|].
  destruct (json_body r) as [j|]; [|reflexivity].
  destruct (json_to_dataframe_pure j (endpoint_record_path e)
              (endpoint_time_zone e)) as (o & logs & _ & Hrun).
  now rewrite !Hrun.
Qed.

Lemma range_body_outcome_same (station_code : string)
  (time_zone : option tzinfo) (ls : loop_state) (st1 st2 : state) :
  (forall tr tr' s url, server tr s url = server tr' s url) ->
  self st1 = self st2 ->
  fst (range_body station_code time_zone ls st1)
  = fst (range_body station_code time_zone ls st2).
Proof.
  intros Hsteady Hself. rewrite !range_body_cases.
  assert (Hfetch : fst (fetch_date station_code time_zone
                          (current_date ls) st1)
                   = fst (fetch_date station_code time_zone
                            (current_date ls) st2)).
  { rewrite !fetch_date_call. apply call_outcome_same.
    - assumption.
    - unfold after. cbn [self trace]. rewrite Hself. apply Hsteady. }
  destruct (fetch_date _ _ _ st1) as [o1 s1].
  destruct (fetch_date _ _ _ st2) as [o2 s2].
  cbn [fst] in Hfetch. subst o2.
  destruct o1 as [df|e].
  - cbv zeta. destruct (PyDate.add_days _ _); reflexivity.
  - destruct e; try reflexivity.
    destruct (status_code response =? 429)%Z; reflexivity.
Qed.

Lemma range_loop_outcome_same (fuel : nat) (station_code : string)
  (time_zone : option tzinfo) (end_date : PyDate.datetime)
  (ls : loop_state) (st1 st2 : state) :
  (forall tr tr' s url, server tr s url = server tr' s url) ->
  self st1 = self st2 ->
  outcome_of (range_loop fuel station_code time_zone end_date ls st1)
  = outcome_of (range_loop fuel station_code time_zone end_date ls st2).
Proof.
  intros Hsteady. revert ls st1 st2.
  induction fuel as [|fuel IH]; intros ls st1 st2 Hself; simpl.
  - destruct (PyDate.le _ _); reflexivity.
  - destruct (PyDate.le _ _); [|reflexivity].
    pose proof (range_body_outcome_same station_code time_zone ls st1 st2
                  Hsteady Hself) as Hout.
    pose proof (range_body_self station_code time_zone ls st1) as Hs1.
    pose proof (range_body_self station_code time_zone ls st2) as Hs2.
    destruct (range_body _ _ _ st1) as [o1 s1].
    destruct (range_body _ _ _ st2) as [o2 s2].
    cbn [fst snd] in *. subst o2.
    destruct o1 as [ls'|e]; [|reflexivity].
    apply IH. congruence.
Qed.

(** C8: no method of MeteoClient changes the client: the session set by
    __init__ is the client's only attribute, and every method (the eight
    endpoint methods and the date-range helper) leaves the client as it
    found it.  No call's result depends on which calls were made before
    it: an endpoint method's result is decided by the reply to its own
    request, and with a server whose replies do not depend on the past
    the date-range helper returns the same result from any two states of
    the same client. *)
Theorem client_stateless :
  (forall (session : option Session) (fresh : Session),
      __init__ session fresh
      = {| session := with_default fresh session |})
  /\ (forall c : MeteoClient, c = {| session := session c |})
  /\ (forall e st, self (snd (call e st)) = self st)
  /\ (forall fuel station_code start_date end_date time_zone st o st',
        get_station_historical_observations_range fuel station_code
          start_date end_date time_zone st = Done o st' ->
        self st' = self st)
  /\ (forall e st1 st2,
        self st1 = self st2 ->
        server (trace st1) (session (self st1)) (template_url e)
        = server (trace st2) (session (self st2)) (template_url e) ->
        fst (call e st1) = fst (call e st2))
  /\ ((forall tr tr' s url, server tr s url = server tr' s url) ->
      forall fuel station_code start_date end_date time_zone st1 st2,
        self st1 = self st2 ->
        outcome_of (get_station_historical_observations_range fuel
                      station_code start_date end_date time_zone st1)
        = outcome_of (get_station_historical_observations_range fuel
                        station_code start_date end_date time_zone st2)).
Proof.
  repeat split.
  - now destruct c.
  - apply call_effects.
  - intros fuel station_code start_date end_date time_zone st o st'.
    unfold get_station_historical_observations_range.
    destruct (range_loop _ _ _ _ _ _) as [[dfs|e] st1|] eqn:Hloop;
      [| |discriminate];
      intros [= _ <-]; now apply range_loop_self in Hloop.
  - apply call_outcome_same.
  - intros Hsteady fuel station_code start_date end_date time_zone st1 st2
           Hself.
    unfold get_station_historical_observations_range.
    pose proof (range_loop_outcome_same fuel station_code
                  (with_default (Some TIME_ZONE) time_zone) end_date
                  {| current_date := PyDate.dt_date start_date;
                     all_dfs := [] |} st1 st2 Hsteady Hself) as Hout.
    destruct (range_loop _ _ _ _ _ st1) as [[dfs1|e1] s1|];
      destruct (range_loop _ _ _ _ _ st2) as [[dfs2|e2] s2|];
      cbn [outcome_of] in *; try discriminate; try reflexivity;
      injection Hout as <-; reflexivity.
Qed.
End ClientTheorems.

(** ** The properties at work on sample data *)

Module Witnesses.
Import Pandas.

Lemma observations_body_wf : PyDict.wf_dict Sample.observations_body.
Proof.
  unfold PyDict.wf_dict. simpl. repeat constructor; simpl; intuition discriminate.
Defined.

Lemma find_record_path_spec_witness :
  PyDict.wf_dict Sample.observations_body
  /\ _find_record_path Sample.observations_body (Some "observations")
     = Some "observations".
Proof.
  split; [exact observations_body_wf|].
  destruct (find_record_path_spec Sample.observations_body
              (Some "observations") observations_body_wf) as [Hrequested _].
  apply (Hrequested "observations" eq_refl); [discriminate|].
  eexists. split; reflexivity.
Defined.

(** The empty string is a key holding records, and is requested, yet the
    first such key is returned instead. *)
Lemma find_record_path_empty_request :
  PyDict.wf_dict Sample.empty_key_body
  /\ ~ (_find_record_path Sample.empty_key_body (Some "") = Some ""
        <-> holds_records Sample.empty_key_body "").
Proof.
  split.
  - unfold PyDict.wf_dict. simpl.
    repeat constructor; simpl; intuition discriminate.
  - intros [_ Hback].
    assert (Hholds : holds_records Sample.empty_key_body "").
    { eexists. split; reflexivity. }
    apply Hback in Hholds. vm_compute in Hholds. discriminate.
Qed.

Lemma flatten_meta_spec_witness :
  has_column SampleNet.observations_table (Name "station_code") = true
  /\ forall r, In r (rows SampleNet.observations_table) ->
               cell_at r (Name "station_code") = Obj (JStr "vilniaus-ams").
Proof.
  destruct (@flatten_meta_spec Sample.library Sample.observations_body
              "observations") as (_ & _ & _ & Htable).
  destruct (Htable (Some "observations") (Some TIME_ZONE) Sample.start
              Sample.start SampleNet.observations_table) as [_ Hmeta].
  - reflexivity.
  - discriminate.
  - vm_compute. reflexivity.
  - apply (Hmeta "station_code" (JStr "vilniaus-ams")).
    + reflexivity.
    + discriminate.
    + reflexivity.
Defined.

(** The key [a_b] should carry 1, and carries the 2 of subkey [b] of [a]. *)
Lemma flatten_meta_name_clash :
  meta_entry Sample.clash_body "records" "a_b" (JInt 1)
  /\ PyDict.get (_flatten_meta Sample.clash_body "records") "a_b"
     = Some (JInt 2)
  /\ ~ (forall name v,
          meta_entry Sample.clash_body "records" name v ->
          PyDict.get (_flatten_meta Sample.clash_body "records") name
          = Some v).
Proof.
  assert (Hentry : meta_entry Sample.clash_body "records" "a_b" (JInt 1)).
  { exists "a_b", (JInt 1). split; [now left|].
    split; [discriminate|]. right. repeat split. }
  split; [assumption|]. split; [reflexivity|].
  intros Hall. specialize (Hall _ _ Hentry). vm_compute in Hall.
  discriminate.
Qed.

Lemma forecast_body_wf : PyDict.wf_dict SampleMore.forecast_body.
Proof.
  unfold PyDict.wf_dict. simpl. repeat constructor; simpl; intuition discriminate.
Defined.

(** A forecast: the records carry forecastTimeUtc, the metadata
    forecastCreationTimeUtc; both columns are converted, the first is the
    index. *)
Lemma timestamp_index_spec_witness :
  exists df,
    @_json_to_dataframe Sample.library (JObj SampleMore.forecast_body)
      (Some "forecastTimestamps") (Some TIME_ZONE) Sample.start
    = (Ok df, Sample.start)
    /\ axis_name df = Some (Name "timestamp")
    /\ ascending (rows df)
    /\ exists rows1,
         Forall2 (@timestamp_row Sample.library SampleMore.forecast_normalized
                    TIME_ZONE "forecastTimeUtc")
                 (rows SampleMore.forecast_normalized) rows1
         /\ Permutation rows1 (rows df).
Proof.
  destruct (@timestamp_index_spec Sample.library SampleMore.forecast_body
              (Some "forecastTimestamps") (Some TIME_ZONE) Sample.start)
    as [Hindexed _].
  destruct (Hindexed "forecastTimestamps" SampleMore.forecast_records
              SampleMore.forecast_normalized "forecastTimeUtc")
    as (df & Hrun & Hname & _ & Hsorted & Hrows).
  - exact forecast_body_wf.
  - reflexivity.
  - discriminate.
  - reflexivity.
  - vm_compute. reflexivity.
  - exists [], (tl (columns SampleMore.forecast_normalized)).
    split; [reflexivity|]. split; [reflexivity|]. intros c [].
  - intros r col Hr Hcol Hend.
    destruct Hr as [Hr|[Hr|[]]]; subst r;
      repeat (destruct Hcol as [Hcol|Hcol];
              [injection Hcol as Hcol; subst col;
               first [discriminate Hend|eexists; reflexivity]|]);
      destruct Hcol.
  - exists df. repeat split; assumption.
Defined.

(** An array of records with a timestamp key comes back under the default
    index, its timestamp column still holding the strings. *)
Lemma array_response_not_indexed :
  exists df,
    @_json_to_dataframe Sample.library Sample.observations_array None
      (Some TIME_ZONE) Sample.start = (Ok df, Sample.start)
    /\ axis_name df = None
    /\ has_column df (Name "observationTimeUtc") = true
    /\ map (fun r => cell_at r (Name "observationTimeUtc")) (rows df)
       = [Obj (JStr "2024-02-29 01:00:00"); Obj (JStr "2024-02-29 00:00:00")]
    /\ map ix (rows df) = [Obj (JInt 0); Obj (JInt 1)].
Proof. eexists. repeat split. Qed.

Lemma json_to_dataframe_shapes_witness :
  exists df,
    @_json_to_dataframe Sample.library Sample.observations_array None None
      Sample.start = (Ok df, Sample.start).
Proof.
  destruct (@json_to_dataframe_shapes Sample.library
              Sample.observations_array None None Sample.start)
    as [Harray _].
  destruct (Harray _ eq_refl) as [_ Hbuilt].
  apply Hbuilt. left. repeat constructor.
Defined.

(** An array that starts with an object and goes on with a number makes
    [pd.DataFrame] raise, and an object whose metadata key is also a key of
    its records makes [json_normalize] raise. *)
Lemma mixed_array_raises :
  @_json_to_dataframe Sample.library Sample.mixed_array None
    (Some TIME_ZONE) Sample.start = (Raise AttributeError, Sample.start)
  /\ @_json_to_dataframe Sample.library Sample.conflict_body None
       (Some TIME_ZONE) Sample.start = (Raise ValueError, Sample.start).
Proof. split; reflexivity. Qed.
End Witnesses.

Module ClientWitnesses.
Import Pandas SampleNet.

(** Three dates, the second one rate-limited once. *)
Lemma range_iteration_witness :
  exists fuel served st',
    @get_station_historical_observations_range Sample.library limiting
      fuel station feb28 mar01 None Sample.start
    = Done (combined (map snd served)) st'
    /\ List.length served = 3%nat
    /\ map fst served = [0; 1; 0]%nat.
Proof.
  assert (Hserved : exists served st',
            @range_served Sample.library limiting station (Some TIME_ZONE)
              (PyDate.dt_date mar01) (PyDate.dt_date feb28) Sample.start
              served st'
            /\ map fst served = [0; 1; 0]%nat).
  { eexists. eexists. split.
    - eapply range_step; [reflexivity|eapply served_now; reflexivity|].
      eapply range_step;
        [reflexivity
        |eapply served_later;
           [reflexivity|reflexivity|eapply served_now; reflexivity]|].
      eapply range_step; [reflexivity|eapply served_now; reflexivity|].
      apply range_over. reflexivity.
    - reflexivity. }
  destruct Hserved as (served & st' & Hserved & Hretries).
  destruct (@range_iteration Sample.library limiting station feb28 mar01 None
              Sample.start st' served) as ((fuel & Hrun) & Hlen & _).
  - reflexivity.
  - reflexivity.
  - exact Hserved.
  - exists fuel, served, st'. repeat split; assumption.
Defined.

(** C4, at the failing input: with start_date.date() = end_date.date()
    = date.max (9999-12-31) the server serves the one date of the range,
    and the helper still returns no table, whatever the number of turns:
    after the date is fetched, stepping past it raises OverflowError. *)
Lemma range_overflows_at_date_max :
  (exists served st',
      @range_served Sample.library steady station (Some TIME_ZONE)
        (PyDate.dt_date last_day) (PyDate.dt_date last_day) Sample.start
        served st')
  /\ ~ (exists fuel df st',
          @get_station_historical_observations_range Sample.library steady
            fuel station last_day last_day None Sample.start
          = Done (Ok df) st')
  /\ exists st',
       @get_station_historical_observations_range Sample.library steady
         1 station last_day last_day None Sample.start
       = Done (Raise OverflowError) st'.
Proof.
  assert (Hbody : fst (@range_body Sample.library steady station
                         (Some TIME_ZONE)
                         {| current_date := PyDate.dt_date last_day;
                            all_dfs := [] |} Sample.start)
                  = Raise OverflowError).
  { vm_compute. reflexivity. }
  split; [|split].
  - eexists. eexists.
    eapply range_step; [reflexivity|eapply served_now; reflexivity|].
    apply range_over. reflexivity.
  - intros (fuel & df & st' & Hrun).
    unfold get_station_historical_observations_range in Hrun.
    cbn [with_default] in Hrun.
    destruct fuel as [|fuel]; cbn [range_loop current_date] in Hrun.
    + change (PyDate.le (PyDate.dt_date last_day) (PyDate.dt_date last_day))
        with true in Hrun.
      discriminate.
    + change (PyDate.le (PyDate.dt_date last_day) (PyDate.dt_date last_day))
        with true in Hrun.
      cbv iota in Hrun.
      destruct (@range_body Sample.library steady station _ _ _)
        as [[ls|e] st1]; cbn [fst] in Hbody; [discriminate|].
      discriminate.
  - eexists. vm_compute. reflexivity.
Qed.

Lemma rate_limit_backoff_witness :
  let ls := {| current_date := leap_day; all_dfs := [] |} in
  let st2 := snd (@fetch_date Sample.library limiting station
                    (Some TIME_ZONE) leap_day Sample.start) in
  @range_body Sample.library limiting station (Some TIME_ZONE) ls Sample.start
  = (Ok ls, after (after st2 backoff_warning) (Sleep 5000)).
Proof.
  intros ls st2.
  apply (proj1 (@rate_limit_backoff Sample.library limiting 0 station
                  (Some TIME_ZONE) mar01 ls Sample.start st2 busy_response
                  eq_refl eq_refl) eq_refl).
Defined.

Lemma endpoint_error_propagation_witness :
  fst (@call Sample.library down GetStations Sample.start)
  = Raise (HTTPError down_response).
Proof.
  destruct (@endpoint_error_propagation Sample.library down GetStations
              Sample.start) as [Herror _].
  rewrite (Herror down_response eq_refl); [reflexivity|].
  split; [discriminate|reflexivity].
Defined.

(** A reply with status 304, or 600, is no success; with a JSON body the
    method raises nothing and returns the table of the body. *)
Lemma non_success_status_returns_table :
  is_success_status (status_code SampleMore.not_modified_response) = false
  /\ is_success_status (status_code SampleMore.odd_response) = false
  /\ fst (@call Sample.library SampleMore.not_modified GetStations
            Sample.start) = Ok observations_table
  /\ fst (@call Sample.library SampleMore.odd GetStations Sample.start)
     = Ok observations_table
  /\ ~ (forall (net : Network) (e : endpoint) (st : state) (r : Response),
          @server net (trace st) (session (self st)) (template_url e)
          = Answer r ->
          is_success_status (status_code r) = false ->
          exists r',
            fst (@call Sample.library net e st) = Raise (HTTPError r')).
Proof.
  split; [reflexivity|]. split; [reflexivity|].
  split; [vm_compute; reflexivity|]. split; [vm_compute; reflexivity|].
  intros Hclaim.
  destruct (Hclaim SampleMore.not_modified GetStations Sample.start
              SampleMore.not_modified_response eq_refl eq_refl)
    as (r' & Hraised).
  vm_compute in Hraised. discriminate.
Qed.

Lemma client_stateless_witness :
  match @get_station_historical_observations_range Sample.library steady
          5 station feb28 mar01 None Sample.start
  with
  | Done _ st' => self st' = Sample.client
  | OutOfFuel => False
  end.
Proof.
  destruct (@get_station_historical_observations_range Sample.library steady
              5 station feb28 mar01 None Sample.start)
    as [o st'|] eqn:Hrun.
  - destruct (@client_stateless Sample.library steady)
      as (_ & _ & _ & Hrange & _).
    exact (Hrange _ _ _ _ _ _ _ _ Hrun).
  - vm_compute in Hrun. discriminate.
Defined.

Lemma empty_range_witness :
  @get_station_historical_observations_range Sample.library steady
    3 station mar01 feb28 None Sample.start
  = Done (Ok empty_frame) Sample.start.
Proof. apply empty_range. reflexivity. Defined.
End ClientWitnesses.

(* ================================================================== *)
(** * Further properties of the code *)

(** ** [_find_record_path] *)

(** X1: whatever key [_find_record_path] returns can be looked up in the
    object, and holds a non-empty list whose first element is an object:
    the [json_data[rp]] of [_json_to_dataframe] never misses. *)
Theorem find_record_path_usable (data : dict) (record_path : option string)
  (k : string) :
  PyDict.wf_dict data ->
  _find_record_path data record_path = Some k ->
  exists first rest, PyDict.get data k = Some (JList (JObj first :: rest)).
Proof.
  intros Hwf Hfind.
  destruct (find_record_path_holds _ _ _ Hwf Hfind) as (val & Hget & Hval).
  destruct (is_record_list_shape _ Hval) as (first & rest & ->).
  now exists first, rest.
Qed.

(** X2: asking [_find_record_path] for the key it found gives that key
    again, whatever was requested the first time. *)
Theorem find_record_path_stable (data : dict) (record_path : option string)
  (k : string) :
  PyDict.wf_dict data ->
  _find_record_path data record_path = Some k ->
  _find_record_path data (Some k) = Some k.
Proof.
  intros Hwf Hfind.
  destruct (String.eqb_spec k "") as [->|Hne].
  - assert (Hscan : scan_record_key data = Some "").
    { destruct (find_result_cases data record_path) as [Hreq|Hscan];
        [|congruence].
      rewrite Hfind in Hreq. subst record_path. exact Hfind. }
    exact Hscan.
  - apply find_requested_path; [assumption|].
    now apply (find_record_path_holds data record_path).
Qed.

(** ** [_flatten_meta] *)

Lemma meta_entries_app (data data' : dict) (rp : string) :
  meta_entries (data ++ data') rp = meta_entries data rp ++ meta_entries data' rp.
Proof. unfold meta_entries. apply flat_map_app. Qed.

(** X3: the value under the record path plays no part in the flattened
    metadata: [_flatten_meta] gives the same mapping with the record path
    removed from the object, and so with any other value under it. *)
Theorem flatten_meta_ignores_records (before after : dict) (rp : string)
  (records records' : json) :
  _flatten_meta (before ++ (rp, records) :: after) rp
  = _flatten_meta (before ++ after) rp
  /\ _flatten_meta (before ++ (rp, records) :: after) rp
     = _flatten_meta (before ++ (rp, records') :: after) rp.
Proof.
  assert (Hdrop : forall v,
            meta_entries (before ++ (rp, v) :: after) rp
            = meta_entries (before ++ after) rp).
  { intros v. rewrite !meta_entries_app. f_equal.
    unfold meta_entries at 1. cbn [flat_map].
    now rewrite String.eqb_refl. }
  rewrite !flatten_meta_writes, !Hdrop. now split.
Qed.

(** X4: a top-level key whose value is an empty object leaves no trace in
    the flattened metadata. *)
Theorem flatten_meta_drops_empty_object (before after : dict)
  (key rp : string) :
  _flatten_meta (before ++ (key, JObj []) :: after) rp
  = _flatten_meta (before ++ after) rp.
Proof.
  rewrite !flatten_meta_writes, !meta_entries_app. do 2 f_equal.
  unfold meta_entries at 1. cbn [flat_map map app].
  now destruct (String.eqb key rp).
Qed.

Lemma set_absent {V : Type} (d : PyDict.t V) (k : string) (v : V) :
  ~ In k (PyDict.keys d) -> PyDict.set d k v = d ++ [(k, v)].
Proof.
  induction d as [|[k0 v0] d IH]; simpl; [reflexivity|].
  intros Hnot. destruct (String.eqb_spec k0 k) as [->|_]; [tauto|].
  rewrite IH; tauto.
Qed.

Lemma fold_set_fresh {V : Type} (items acc : PyDict.t V) :
  NoDup (PyDict.keys (acc ++ items)) ->
  fold_left (fun acc kv => PyDict.set acc (fst kv) (snd kv)) items acc
  = acc ++ items.
Proof.
  revert acc. induction items as [|[k v] items IH]; intros acc Hnd; simpl.
  - now rewrite app_nil_r.
  - unfold PyDict.keys in Hnd. rewrite map_app in Hnd. simpl in Hnd.
    rewrite set_absent.
    + rewrite IH; rewrite <- app_assoc; [reflexivity|].
      unfold PyDict.keys. now rewrite map_app.
    + apply NoDup_remove_2 in Hnd. intros Hin. apply Hnd.
      apply in_or_app. now left.
Qed.

(** X5: when no two flattened names coincide, [_flatten_meta] lists the
    entries in the object's key order, the subkeys of an object in their
    own order; in particular an object without nested objects and without
    the record path comes back as it is. *)
Theorem flatten_meta_keeps_order (data : dict) (rp : string) :
  (NoDup (PyDict.keys (meta_entries data rp)) ->
   _flatten_meta data rp = meta_entries data rp)
  /\ (PyDict.wf_dict data ->
      (forall k v, In (k, v) data -> k <> rp /\ is_dict v = false) ->
      _flatten_meta data rp = data).
Proof.
  assert (Hexact : NoDup (PyDict.keys (meta_entries data rp)) ->
                   _flatten_meta data rp = meta_entries data rp).
  { intros Hnd. rewrite flatten_meta_writes. now apply fold_set_fresh. }
  split; [assumption|].
  intros Hwf Hflat.
  assert (Hsame : meta_entries data rp = data).
  { clear Hwf Hexact. unfold meta_entries.
    induction data as [|[k v] data IH]; cbn [flat_map]; [reflexivity|].
    destruct (Hflat k v (or_introl eq_refl)) as [Hne Hnd].
    destruct (String.eqb_spec k rp) as [|_]; [contradiction|].
    rewrite IH by (intros k' v' Hin; apply Hflat; now right).
    destruct v; try reflexivity. discriminate. }
  rewrite Hexact; rewrite Hsame; [reflexivity|assumption].
Qed.

Lemma get_last_write {V : Type} (items : PyDict.t V) (k : string) (v : V) :
  PyDict.get (rev items) k = Some v
  <-> exists before after,
        items = before ++ (k, v) :: after /\ ~ In k (PyDict.keys after).
Proof.
  induction items as [|[k0 v0] items IH] using rev_ind; simpl.
  - split; [discriminate|]. intros (before & after & Heq & _).
    now destruct before.
  - rewrite rev_app_distr. simpl.
    destruct (String.eqb_spec k0 k) as [->|Hne].
    + split.
      * intros [= ->]. exists items, []. split; [reflexivity|intros []].
      * intros (before & after & Heq & Hlast).
        destruct after as [|[k1 v1] after] using rev_ind.
        -- apply app_inj_tail in Heq. destruct Heq as [_ [= ->]].
           reflexivity.
        -- exfalso. clear IHafter. rewrite app_comm_cons, app_assoc in Heq.
           apply app_inj_tail in Heq. destruct Heq as [_ [= -> _]].
           apply Hlast. unfold PyDict.keys. rewrite map_app.
           apply in_or_app. right. now left.
    + rewrite IH. split.
      * intros (before & after & -> & Hlast).
        exists before, (after ++ [(k0, v0)]). split.
        -- now rewrite <- app_assoc.
        -- unfold PyDict.keys in *. rewrite map_app, in_app_iff.
           simpl. intuition congruence.
      * intros (before & after & Heq & Hlast).
        destruct after as [|[k1 v1] after] using rev_ind.
        -- apply app_inj_tail in Heq. destruct Heq as [_ [= -> _]].
           contradiction.
        -- clear IHafter. rewrite app_comm_cons, app_assoc in Heq.
           apply app_inj_tail in Heq. destruct Heq as [-> _].
           exists before, after. split; [reflexivity|].
           intros Hin. apply Hlast. unfold PyDict.keys in *.
           rewrite map_app. apply in_or_app. now left.
Qed.

(** X6: when several entries flatten to one name, the mapping keeps the
    value written last: a name carries a value exactly when the last entry
    of that name, in the order of writing, carries it. *)
Theorem flatten_meta_last_write_wins (data : dict) (rp name : string)
  (v : json) :
  PyDict.get (_flatten_meta data rp) name = Some v
  <-> exists before after,
        meta_entries data rp = before ++ (name, v) :: after
        /\ ~ In name (PyDict.keys after).
Proof. rewrite flatten_meta_get. apply get_last_write. Qed.

(** ** [_set_timestamp_index] *)

Lemma Forall2_In_l {A B : Type} (R : A -> B -> Prop) (l : list A)
  (l' : list B) (a : A) :
  Forall2 R l l' -> In a l -> exists b, In b l' /\ R a b.
Proof.
  induction 1 as [|a0 b0 l l' Hab Hrest IH]; [intros []|].
  intros [<-|Hin].
  - exists b0. split; [now left|assumption].
  - destruct (IH Hin) as (b & Hb & Hr). exists b. split; [now right|assumption].
Qed.

Lemma ascending_split (l1 l2 : list Pandas.row) (r1 r2 : Pandas.row) :
  ascending (l1 ++ r1 :: l2) -> In r2 l2 -> Pandas.row_le r1 r2 = true.
Proof.
  unfold ascending. induction l1 as [|r l1 IH]; simpl; intros Hs Hin.
  - inversion Hs as [|? ? _ Hall]; subst.
    rewrite Forall_forall in Hall. now apply Hall.
  - inversion Hs; subst. now apply IH.
Qed.

Section TableExtras.
Import Pandas PandasFacts FrameFacts NormalizeFacts TimestampFacts.
Context `{Library}.

Lemma time_columns_positional (cols : list label) (n : nat) :
  In (Pos n) cols -> time_columns_of cols = Raise AttributeError.
Proof.
  induction cols as [|[s|m] cols IH]; simpl; [contradiction| |reflexivity].
  intros [Heq|Hin]; [discriminate|]. now rewrite (IH Hin).
Qed.

(** X7: on a table none of whose columns ends with 'TimeUtc',
    [_set_timestamp_index] logs one warning and returns the table as it
    is; on a table with a positional column label it raises
    AttributeError, whatever the other columns are. *)
Theorem set_timestamp_index_without_time_column (df : DataFrame)
  (time_zone : option tzinfo) (st : state) :
  ((forall c, In c (columns df) ->
      exists s, c = Name s /\ endswith s "TimeUtc" = false) ->
   _set_timestamp_index df time_zone st
   = (Ok df,
      after st (Log WARNING
                  "No column ending with 'TimeUtc' found in DataFrame.")))
  /\ (forall n, In (Pos n) (columns df) ->
        _set_timestamp_index df time_zone st = (Raise AttributeError, st)).
Proof.
  split.
  - intros Hplain. unfold _set_timestamp_index, bind, lift.
    now rewrite (time_columns_none _ Hplain).
  - intros n Hpos. unfold _set_timestamp_index, bind, lift.
    now rewrite (time_columns_positional _ _ Hpos).
Qed.



(** X10: in the table [_set_timestamp_index] returns, a row never comes
    before a row with an earlier instant, and a row whose index is NaT
    never comes before a row with an instant. *)
Theorem timestamp_index_order (df out : DataFrame)
  (time_zone : option tzinfo) (first : string) (others : list string)
  (st st' : state) (l1 l2 : list row) (r1 r2 : row) (b : Z)
  (zone : option tzinfo) :
  wf_frame df ->
  time_columns_of (columns df) = Ok (first :: others) ->
  _set_timestamp_index df time_zone st = (Ok out, st') ->
  rows out = l1 ++ r1 :: l2 -> In r2 l2 ->
  ix r2 = Timestamp (Some b) zone ->
  exists a zone', ix r1 = Timestamp (Some a) zone' /\ (a <= b)%Z.
Proof.
  intros Hwf Htime Hrun Hsplit Hin Hix2.
  destruct (set_timestamp_index_ok _ _ _ _ _ _ _ Hwf Htime Hrun)
    as (_ & _ & _ & Hsorted & _).
  rewrite Hsplit in Hsorted.
  pose proof (ascending_split _ _ _ _ Hsorted Hin) as Hle.
  unfold row_le in Hle. rewrite Hix2 in Hle. cbn [sort_key] in Hle.
  destruct (ix r1) as [| |[a|] zone']; cbn [sort_key key_le] in Hle;
    try discriminate.
  exists a, zone'. split; [reflexivity|]. now apply Z.leb_le.
Qed.

(** ** [_json_to_dataframe] *)

Lemma set_timestamp_index_wf (df out : DataFrame) (time_zone : option tzinfo)
  (st st' : state) :
  wf_frame df ->
  _set_timestamp_index df time_zone st = (Ok out, st') -> wf_frame out.
Proof.
  intros Hwf. unfold _set_timestamp_index, bind, lift, ret.
  destruct (time_columns_of (columns df)) as [[|first others]|] eqn:Htime;
    [| |discriminate].
  - unfold LOGGER_warning, emit. now intros [= <- _].
  - destruct (convert_columns time_zone df (first :: others)) as [df1|]
      eqn:Hconv; [|discriminate].
    destruct Hwf as [Hfit Hnd].
    apply convert_columns_ok in Hconv;
      [|assumption|exact (time_columns_NoDup _ _ Hnd Htime)
       |intros col Hcol; now apply (time_columns_In _ _ _ Htime)].
    destruct Hconv as (_ & Hcols1 & Hrows1).
    pose proof (converted_rows_fit _ _ _ _ _ Hfit Hcols1 Hrows1) as Hfit1.
    unfold set_index. destruct (has_column df1 (Name first)); [|discriminate].
    intros [= <- _]. split.
    + unfold rows_fit. cbn [sort_index rename_axis rows columns].
      set (indexed := map _ (rows df1)).
      apply (Permutation_Forall
               (sort_index_perm
                  {| axis_name := None; columns := []; rows := indexed |})).
      cbn [rows]. subst indexed. apply Forall_forall. intros r Hr.
      apply in_map_iff in Hr. destruct Hr as (r0 & <- & Hr0).
      cbn [vals]. rewrite labels_drop.
      unfold rows_fit in Hfit1. rewrite Forall_forall in Hfit1.
      now rewrite (Hfit1 r0 Hr0).
    + cbn [sort_index rename_axis columns]. apply NoDup_filter.
      now rewrite Hcols1.
Qed.

Lemma json_to_dataframe_well_formed (json_data : json)
  (record_path : option string) (time_zone : option tzinfo)
  (st st' : state) (df : DataFrame) :
  _json_to_dataframe json_data record_path time_zone st = (Ok df, st') ->
  wf_frame df.
Proof.
  assert (Hlist : forall l, lift (DataFrame_of_list l) st = (Ok df, st') ->
                            wf_frame df).
  { intros l. unfold lift. intros [= Hbuilt _].
    now apply DataFrame_of_list_ok in Hbuilt. }
  assert (Hempty : wf_frame empty_frame) by (split; constructor).
  unfold _json_to_dataframe.
  destruct json_data as [| b | n | m e | s | l | d];
    try (unfold ret; intros [= <- _]; exact Hempty).
  - apply Hlist.
  - destruct (_find_record_path d record_path) as [rp|]; [|apply Hlist].
    destruct (path_truthy (Some rp)); [|apply Hlist].
    destruct (PyDict.get d rp) as [records|]; [|discriminate].
    unfold bind, lift.
    destruct (json_normalize _ rp _) as [t|] eqn:Hnorm; [|discriminate].
    apply set_timestamp_index_wf.
    now apply json_normalize_ok in Hnorm.
Qed.

Lemma call_well_formed `{Network} (e : endpoint) (st st' : state)
  (df : DataFrame) :
  call e st = (Ok df, st') -> wf_frame df.
Proof.
  rewrite call_unfold. cbv zeta.
  destruct (server _ _ _) as [r|what]; [|discriminate].
  destruct (is_error_status (status_code r)); [discriminate|].
  destruct (json_body r) as [j|]; [|discriminate].
  apply json_to_dataframe_well_formed.
Qed.

(** X11: every table [_json_to_dataframe] returns, and so every table an
    endpoint method returns, is well formed: no two columns share a label,
    and every row has exactly one cell under every column. *)
Theorem json_to_dataframe_wf `{Network} :
  (forall json_data record_path time_zone st st' df,
      _json_to_dataframe json_data record_path time_zone st = (Ok df, st') ->
      wf_frame df)
  /\ (forall e st st' df, call e st = (Ok df, st') -> wf_frame df).
Proof.
  split.
  - intros json_data record_path time_zone st st' df.
    apply json_to_dataframe_well_formed.
  - intros e st st' df. apply call_well_formed.
Qed.
End TableExtras.

Section NormalizeExtras.
Import Pandas PandasFacts FrameFacts NormalizeFacts.
Context `{Library}.

Lemma pull_fields_total (meta : dict) (rp : string) (records : json) :
  exists meta_vals,
    omap (pull_field (PyDict.set meta rp records)) (PyDict.keys meta)
    = Ok meta_vals
    /\ map fst meta_vals = PyDict.keys meta.
Proof.
  assert (Hgen : forall ks,
            (forall k, In k ks -> In k (PyDict.keys meta)) ->
            exists meta_vals,
              omap (pull_field (PyDict.set meta rp records)) ks = Ok meta_vals
              /\ map fst meta_vals = ks).
  { induction ks as [|k ks IH]; intros Hks; simpl.
    - now exists [].
    - destruct IH as (vals & -> & Hnames);
        [intros k' Hk'; apply Hks; now right|].
      assert (Hk : exists v, PyDict.get (PyDict.set meta rp records) k
                             = Some v).
      { rewrite PyDictFacts.get_set. destruct (String.eqb rp k); [eauto|].
        specialize (Hks k (or_introl eq_refl)).
        unfold PyDict.keys in Hks. apply in_map_iff in Hks.
        destruct Hks as ([k0 v0] & <- & Hin).
        now apply In_get_some with (v := v0). }
      destruct Hk as (v & Hv). unfold pull_field at 1. rewrite Hv. simpl.
      exists ((k, v) :: vals). split; [reflexivity|]. simpl. now rewrite Hnames. }
  apply Hgen. auto.
Qed.

Lemma add_meta_conflict (meta_vals : list (string * json))
  (result : DataFrame) :
  (exists kv, In kv meta_vals /\ In (Name (fst kv)) (columns result)) ->
  add_meta_columns result meta_vals = Raise ValueError.
Proof.
  revert result. induction meta_vals as [|[k v] rest IH];
    intros result (kv & Hin & Hcol); [destruct Hin|].
  cbn [add_meta_columns]. unfold add_meta_column.
  destruct (has_column result (Name k)) eqn:Hhas; [reflexivity|].
  cbn [obind]. apply IH.
  destruct Hin as [<-|Hin].
  - apply existsb_label in Hcol. cbn [fst] in Hcol.
    unfold has_column in Hhas. congruence.
  - exists kv. split; [assumption|]. cbn [columns].
    apply in_or_app. now left.
Qed.

Lemma as_dicts_fail (l : list json) :
  (exists x, In x l /\ is_dict x = false) ->
  omap as_dict l = Raise AttributeError.
Proof.
  induction l as [|x0 l IH]; intros (x & Hin & Hbad); [destruct Hin|].
  cbn [omap].
  destruct x0; try reflexivity. cbn [as_dict obind].
  destruct Hin as [<-|Hin]; [discriminate|].
  rewrite IH; [reflexivity|eauto].
Qed.

Lemma json_to_dataframe_normalizes (d : dict) (record_path : option string)
  (time_zone : option tzinfo) (rp : string) (records : json) (st : state)
  (e : exn) :
  _find_record_path d record_path = Some rp -> rp <> "" ->
  PyDict.get d rp = Some records ->
  json_normalize (PyDict.set (_flatten_meta d rp) rp records) rp
    (PyDict.keys (_flatten_meta d rp)) = Raise e ->
  _json_to_dataframe (JObj d) record_path time_zone st = (Raise e, st).
Proof.
  intros Hfind Hrp Hrecords Hnorm. unfold _json_to_dataframe.
  rewrite Hfind. unfold path_truthy, str_truthy.
  destruct (String.eqb_spec rp "") as [|_]; [contradiction|].
  cbn [negb]. rewrite Hrecords. unfold bind, lift. now rewrite Hnorm.
Qed.

(** X12: when a flattened metadata name is also a column of the table
    made of the records, [_json_to_dataframe] raises ValueError: a
    metadata value never overwrites, and is never overwritten by, a field
    of the records. *)
Theorem metadata_conflict_raises (d : dict) (record_path : option string)
  (time_zone : option tzinfo) (rp name : string) (recs flat : list json)
  (result : DataFrame) (st : state) :
  _find_record_path d record_path = Some rp -> rp <> "" ->
  PyDict.get d rp = Some (JList recs) ->
  omap flatten_record recs = Ok flat ->
  DataFrame_of_list flat = Ok result ->
  In name (PyDict.keys (_flatten_meta d rp)) ->
  In (Name name) (columns result) ->
  _json_to_dataframe (JObj d) record_path time_zone st
  = (Raise ValueError, st).
Proof.
  intros Hfind Hrp Hget Hflat Htable Hname Hcol.
  apply (json_to_dataframe_normalizes _ _ _ _ _ _ _ Hfind Hrp Hget).
  unfold json_normalize, pull_records.
  rewrite PyDictFacts.get_set, String.eqb_refl. cbn [obind].
  rewrite Hflat. cbn [obind].
  destruct (pull_fields_total (_flatten_meta d rp) rp (JList recs))
    as (meta_vals & -> & Hnames).
  cbn [obind]. rewrite Htable. cbn [obind].
  apply add_meta_conflict.
  rewrite <- Hnames in Hname. apply in_map_iff in Hname.
  destruct Hname as (kv & <- & Hin). now exists kv.
Qed.

(** X13: [_find_record_path] looks at the first element of a list only;
    when a later element of the chosen list is not an object,
    [_json_to_dataframe] raises instead of returning a table, and logs
    nothing.  (Which exception pandas raises is left open.) *)
Theorem ragged_records_raise (d : dict) (record_path : option string)
  (time_zone : option tzinfo) (rp : string) (recs flat : list json)
  (st : state) :
  PyDict.wf_dict d ->
  _find_record_path d record_path = Some rp -> rp <> "" ->
  PyDict.get d rp = Some (JList recs) ->
  omap flatten_record recs = Ok flat ->
  (exists x, In x recs /\ is_dict x = false) ->
  exists e,
    _json_to_dataframe (JObj d) record_path time_zone st = (Raise e, st).
Proof.
  intros Hwf Hfind Hrp Hget Hflat (x & Hx & Hbad).
  exists AttributeError.
  apply (json_to_dataframe_normalizes _ _ _ _ _ _ _ Hfind Hrp Hget).
  unfold json_normalize, pull_records.
  rewrite PyDictFacts.get_set, String.eqb_refl. cbn [obind].
  rewrite Hflat. cbn [obind].
  destruct (pull_fields_total (_flatten_meta d rp) rp (JList recs))
    as (meta_vals & -> & _).
  cbn [obind].
  destruct (find_record_path_holds _ _ _ Hwf Hfind) as (val & Hval & Hlist).
  assert (val = JList recs) by congruence. subst val.
  destruct (is_record_list_shape _ Hlist) as (first & rest & [= ->]).
  apply omap_Forall2 in Hflat.
  inversion Hflat as [|? y ? flat' Hfirst Hrest]; subst.
  cbn [flatten_record] in Hfirst.
  destruct (nested_to_record first) as [first'|]; [|discriminate].
  injection Hfirst as <-.
  assert (Hbad' : exists x', In x' (JObj first' :: flat')
                             /\ is_dict x' = false).
  { destruct Hx as [<-|Hx]; [discriminate|].
    destruct (Forall2_In_l _ _ _ _ Hrest Hx) as (y & Hy & Hxy).
    exists y. split; [now right|].
    destruct x; try discriminate; cbn [flatten_record] in Hxy;
      injection Hxy as <-; reflexivity. }
  unfold DataFrame_of_list. now rewrite (as_dicts_fail _ Hbad').
Qed.
End NormalizeExtras.

(** ** [get_station_historical_observations_range] *)

Lemma slept_app (tr tr' : list event) :
  slept (tr ++ tr') = (slept tr + slept tr')%Z.
Proof.
  induction tr as [|[s url|ms|lvl msg] tr IH]; simpl; lia.
Qed.

Lemma slept_logs (logs : list event) :
  forallb is_log logs = true -> slept logs = 0%Z.
Proof.
  induction logs as [|[s url|ms|lvl msg] logs IH]; simpl;
    try discriminate; auto.
Qed.

Section ConcatFacts.
Import Pandas PandasFacts.



End ConcatFacts.

Section RangeExtras.
Import Pandas.
Context `{Library} `{Network}.

Lemma fetch_date_slept (station_code : string) (time_zone : option tzinfo)
  (d : PyDate.date) (st : state) :
  slept (trace (snd (fetch_date station_code time_zone d st)))
  = slept (trace st).
Proof.
  rewrite fetch_date_call.
  destruct (call_effects
              (GetStationHistoricalObservations station_code
                 (Some (PyDate.isoformat d)) (Some time_zone))
              (after st (Log INFO ("Fetching data for "
                                   ++ PyDate.isoformat d ++ "..."))))
    as (_ & logs & Hlogs & ->).
  unfold after. cbn [trace]. rewrite !slept_app. cbn [slept].
  rewrite (slept_logs _ Hlogs). lia.
Qed.

Lemma fetch_busy (station_code : string) (time_zone : option tzinfo)
  (d : PyDate.date) (st : state) :
  (forall tr s url, exists r,
      server tr s url = Answer r /\ status_code r = 429%Z) ->
  exists r st2,
    fetch_date station_code time_zone d st = (Raise (HTTPError r), st2)
    /\ status_code r = 429%Z.
Proof.
  intros Hbusy. rewrite fetch_date_call, call_unfold. cbv zeta.
  destruct (Hbusy (trace (after st (Log INFO ("Fetching data for "
                                      ++ PyDate.isoformat d ++ "..."))))
              (session (self (after st (Log INFO ("Fetching data for "
                                      ++ PyDate.isoformat d ++ "...")))))
              (template_url (GetStationHistoricalObservations station_code
                               (Some (PyDate.isoformat d)) (Some time_zone))))
    as (r & -> & Hstatus).
  unfold is_error_status. rewrite Hstatus. cbn. eauto.
Qed.

(** X14: the back-off has no limit: against a server that answers every
    request with status 429, the helper never returns, however many turns
    of the loop it is given. *)
Theorem range_retries_without_limit (fuel : nat) (station_code : string)
  (start_date end_date : PyDate.datetime)
  (time_zone : option (option tzinfo)) (st : state) :
  (forall tr s url, exists r,
      server tr s url = Answer r /\ status_code r = 429%Z) ->
  PyDate.le (PyDate.dt_date start_date) (PyDate.dt_date end_date) = true ->
  get_station_historical_observations_range fuel station_code start_date
    end_date time_zone st = OutOfFuel.
Proof.
  intros Hbusy Hle. unfold get_station_historical_observations_range.
  set (tz := with_default (Some TIME_ZONE) time_zone).
  set (ls := {| current_date := PyDate.dt_date start_date; all_dfs := [] |}).
  assert (Hloop : forall st0,
            range_loop fuel station_code tz end_date ls st0 = OutOfFuel).
  { induction fuel as [|fuel IH]; intros st0; cbn [range_loop];
      subst ls; cbn [current_date]; rewrite Hle; [reflexivity|].
    rewrite range_body_cases. cbn [current_date].
    destruct (fetch_busy station_code tz (PyDate.dt_date start_date) st0
                Hbusy) as (r & st2 & -> & Hstatus).
    rewrite Hstatus. cbn [Z.eqb Pos.eqb]. apply IH. }
  now rewrite Hloop.
Qed.

(** X15: only HTTP errors with status 429 are retried: any other
    exception of the single-date call (a failed connection, an unreadable
    body, a failed normalization) leaves the helper at once, and the
    tables fetched so far are not returned. *)
Theorem range_propagates_other_failures (fuel : nat) (station_code : string)
  (time_zone : option tzinfo) (end_date : PyDate.datetime)
  (ls : loop_state) (st st2 : state) (e : exn) :
  PyDate.le (current_date ls) (PyDate.dt_date end_date) = true ->
  fetch_date station_code time_zone (current_date ls) st = (Raise e, st2) ->
  (forall r, e = HTTPError r -> status_code r <> 429%Z) ->
  range_loop (S fuel) station_code time_zone end_date ls st
  = Done (Raise e) st2
  /\ forall start_date,
       ls = {| current_date := PyDate.dt_date start_date; all_dfs := [] |} ->
       get_station_historical_observations_range (S fuel) station_code
         start_date end_date (Some time_zone) st
       = Done (Raise e) st2.
Proof.
  intros Hle Hcall Hother.
  assert (Hbody : range_body station_code time_zone ls st = (Raise e, st2)).
  { rewrite range_body_cases, Hcall. destruct e; try reflexivity.
    specialize (Hother response eq_refl). apply Z.eqb_neq in Hother.
    now rewrite Hother. }
  assert (Hloop : range_loop (S fuel) station_code time_zone end_date ls st
                  = Done (Raise e) st2).
  { cbn [range_loop]. now rewrite Hle, Hbody. }
  split; [assumption|]. intros start_date ->.
  unfold get_station_historical_observations_range. cbn [with_default].
  now rewrite Hloop.
Qed.

Lemma date_served_slept (station_code : string) (time_zone : option tzinfo)
  (d : PyDate.date) (st st1 : state) (retries : nat) (df : DataFrame) :
  date_served station_code time_zone d st retries df st1 ->
  slept (trace st1)
  = (slept (trace st) + 150 + 5000 * Z.of_nat retries)%Z.
Proof.
  induction 1 as [st st' df Hfetch|st st1 st' r retries df Hfetch Hbusy _ IH].
  - pose proof (fetch_date_slept station_code time_zone d st) as Hs.
    rewrite Hfetch in Hs. cbn [snd] in Hs.
    unfold after. cbn [trace]. rewrite slept_app, Hs. cbn [slept]. lia.
  - pose proof (fetch_date_slept station_code time_zone d st) as Hs.
    rewrite Hfetch in Hs. cbn [snd] in Hs.
    rewrite IH. unfold after, backoff_warning. cbn [trace].
    rewrite !slept_app, Hs. cbn [slept]. rewrite Nat2Z.inj_succ. lia.
Qed.

Lemma range_served_slept (station_code : string) (time_zone : option tzinfo)
  (last current : PyDate.date) (st st' : state)
  (served : list (nat * DataFrame)) :
  range_served station_code time_zone last current st served st' ->
  slept (trace st')
  = (slept (trace st) + 150 * Z.of_nat (List.length served)
     + 5000 * Z.of_nat (total_retries served))%Z.
Proof.
  induction 1 as [current st Hover
                 |current st st1 st' retries df served Hle Hdate _ IH].
  - cbn [List.length total_retries fold_right]. lia.
  - rewrite IH, (date_served_slept _ _ _ _ _ _ _ Hdate).
    unfold total_retries. cbn [List.length fold_right fst].
    rewrite Nat2Z.inj_succ, Nat2Z.inj_add. lia.
Qed.

(** X16: when the range is served, the helper has slept 0.15 s for every
    date and 5 s for every reply with status 429, and not at all
    otherwise. *)
Theorem range_sleep_total (station_code : string)
  (start_date end_date : PyDate.datetime)
  (time_zone : option (option tzinfo)) (st st' : state)
  (served : list (nat * DataFrame)) :
  (0 < PyDate.toordinal (PyDate.dt_date start_date))%Z ->
  (PyDate.toordinal (PyDate.dt_date end_date) < PyDate.MAXORDINAL)%Z ->
  range_served station_code (with_default (Some TIME_ZONE) time_zone)
    (PyDate.dt_date end_date) (PyDate.dt_date start_date) st served st' ->
  exists fuel o,
    get_station_historical_observations_range fuel station_code start_date
      end_date time_zone st = Done o st'
    /\ List.length served
       = List.length (dates_between (PyDate.dt_date start_date)
                                    (PyDate.dt_date end_date))
    /\ slept (trace st')
       = (slept (trace st) + 150 * Z.of_nat (List.length served)
          + 5000 * Z.of_nat (total_retries served))%Z.
Proof.
  intros Hvalid Hmax Hserved.
  destruct (range_served_loop _ _ _ _ _ _ _ Hserved end_date []
              eq_refl Hmax) as (fuel & Hloop); [lia|].
  exists fuel. unfold get_station_historical_observations_range.
  rewrite Hloop. eexists. split; [reflexivity|]. split.
  - now destruct (range_served_effects _ _ _ _ _ _ _ Hserved) as (_ & Hlen & _).
  - now apply (range_served_slept station_code
                 (with_default (Some TIME_ZONE) time_zone)
                 (PyDate.dt_date end_date) (PyDate.dt_date start_date)).
Qed.

Lemma date_served_overflow (station_code : string)
  (time_zone : option tzinfo) (d : PyDate.date) (st st1 : state)
  (retries : nat) (df : DataFrame) :
  date_served station_code time_zone d st retries df st1 ->
  forall (fuel : nat) (end_date : PyDate.datetime) (acc : list DataFrame),
    PyDate.le d (PyDate.dt_date end_date) = true ->
    PyDate.toordinal d = PyDate.MAXORDINAL ->
    range_loop (S retries + fuel) station_code time_zone end_date
      {| current_date := d; all_dfs := acc |} st
    = Done (Raise OverflowError) st1.
Proof.
  induction 1 as [st st' df Hfetch|st st1 st' r retries df Hfetch Hbusy _ IH];
    intros fuel end_date acc Hle Hmax.
  - cbn [Nat.add range_loop current_date]. rewrite Hle.
    rewrite range_body_cases. cbn [current_date all_dfs].
    rewrite Hfetch. cbv zeta. unfold PyDate.add_days. rewrite Hmax.
    reflexivity.
  - change (S (S retries) + fuel)%nat with (S (S retries + fuel)).
    cbn [range_loop current_date]. rewrite Hle.
    rewrite range_body_cases. cbn [current_date all_dfs].
    rewrite Hfetch, Hbusy. cbn [Z.eqb Pos.eqb].
    now apply IH.
Qed.

Lemma range_served_overflow (station_code : string)
  (time_zone : option tzinfo) (last current : PyDate.date) (st st' : state)
  (served : list (nat * DataFrame)) :
  range_served station_code time_zone last current st served st' ->
  forall (end_date : PyDate.datetime) (acc : list DataFrame),
    PyDate.dt_date end_date = last ->
    PyDate.toordinal last = PyDate.MAXORDINAL ->
    (0 <= PyDate.toordinal current <= PyDate.MAXORDINAL)%Z ->
    exists fuel,
      range_loop fuel station_code time_zone end_date
        {| current_date := current; all_dfs := acc |} st
      = Done (Raise OverflowError) st'.
Proof.
  induction 1 as [current st Hover
                 |current st st1 st' retries df served Hle Hdate Hrest IH];
    intros end_date acc Hend Hmax Hbound.
  - unfold PyDate.le in Hover. apply Z.leb_gt in Hover. lia.
  - destruct (Z.eq_dec (PyDate.toordinal current) PyDate.MAXORDINAL)
      as [Hlast|Hearlier].
    + assert (st' = st1).
      { inversion Hrest as [? ? Hover|? ? ? ? ? ? ? Hle' _ _]; subst;
          [reflexivity|].
        unfold PyDate.le in Hle'. cbn [PyDate.toordinal] in Hle'.
        apply Z.leb_le in Hle'. lia. }
      subst st'. exists (S retries + 0)%nat.
      apply (date_served_overflow _ _ _ _ _ _ _ Hdate);
        [now rewrite Hend|assumption].
    + destruct (IH end_date
                  (if negb (empty df) then acc ++ [df] else acc)
                  Hend Hmax) as (fuel & Hloop).
      { cbn [PyDate.toordinal]. lia. }
      exists (S retries + fuel)%nat.
      rewrite (date_served_loop _ _ _ _ _ _ _ Hdate);
        [assumption|now rewrite Hend|lia].
Qed.

(** X17: with end_date.date() equal to date.max (9999-12-31) the helper
    returns no table even when every date of the range is served: it ends
    with OverflowError right after the last date, all requests made. *)
Theorem range_overflow_at_date_max (station_code : string)
  (start_date end_date : PyDate.datetime)
  (time_zone : option (option tzinfo)) (st st' : state)
  (served : list (nat * DataFrame)) :
  PyDate.toordinal (PyDate.dt_date end_date) = PyDate.MAXORDINAL ->
  (0 < PyDate.toordinal (PyDate.dt_date start_date)
   <= PyDate.MAXORDINAL)%Z ->
  range_served station_code (with_default (Some TIME_ZONE) time_zone)
    (PyDate.dt_date end_date) (PyDate.dt_date start_date) st served st' ->
  exists fuel,
    get_station_historical_observations_range fuel station_code start_date
      end_date time_zone st = Done (Raise OverflowError) st'.
Proof.
  intros Hmax Hvalid Hserved.
  destruct (range_served_overflow _ _ _ _ _ _ _ Hserved end_date []
              eq_refl Hmax) as (fuel & Hloop); [lia|].
  exists fuel. unfold get_station_historical_observations_range.
  now rewrite Hloop.
Qed.


Lemma range_body_advances (station_code : string)
  (time_zone : option tzinfo) (ls ls' : loop_state) (st st' : state) :
  range_body station_code time_zone ls st = (Ok ls', st') ->
  (PyDate.toordinal (current_date ls)
   <= PyDate.toordinal (current_date ls'))%Z.
Proof.
  rewrite range_body_cases.
  destruct (fetch_date _ _ _ _) as [[df|e] st2].
  - cbv zeta. unfold PyDate.add_days.
    destruct ((0 <? _)%Z && _); [|discriminate].
    intros [= <- _]. cbn [current_date PyDate.toordinal]. lia.
  - destruct e; try discriminate.
    destruct (status_code response =? 429)%Z; [|discriminate].
    intros [= <- _]. lia.
Qed.

Lemma range_loop_requests (fuel : nat) (station_code : string)
  (time_zone : option tzinfo) (end_date : PyDate.datetime)
  (ls : loop_state) (st st' : state) (o : outcome (list DataFrame)) :
  range_loop fuel station_code time_zone end_date ls st = Done o st' ->
  exists new,
    requests (trace st') = requests (trace st) ++ new
    /\ Forall (fun q =>
                 exists d,
                   q = (session (self st), observations_url station_code d)
                   /\ (PyDate.toordinal (current_date ls)
                       <= PyDate.toordinal d
                       <= PyDate.toordinal (PyDate.dt_date end_date))%Z)
              new.
Proof.
  revert ls st. induction fuel as [|fuel IH]; intros ls st;
    cbn [range_loop];
    destruct (PyDate.le (current_date ls) (PyDate.dt_date end_date))
      eqn:Hle;
    try discriminate;
    try (intros [= _ <-]; exists []; split;
         [now rewrite app_nil_r|constructor]).
  pose proof (range_body_requests station_code time_zone ls st) as Hreq.
  pose proof (range_body_self station_code time_zone ls st) as Hself.
  pose proof (range_body_advances station_code time_zone ls) as Hadv.
  unfold PyDate.le in Hle. apply Z.leb_le in Hle.
  assert (Hnow : exists d,
            (session (self st),
             observations_url station_code (current_date ls))
            = (session (self st), observations_url station_code d)
            /\ (PyDate.toordinal (current_date ls) <= PyDate.toordinal d
                <= PyDate.toordinal (PyDate.dt_date end_date))%Z).
  { exists (current_date ls). split; [reflexivity|lia]. }
  destruct (range_body _ _ _ _) as [[ls'|e] st1] eqn:Hbody; cbn [snd] in *.
  - intros Hrun. destruct (IH _ _ Hrun) as (new & Hnew & Hall).
    specialize (Hadv ls' st st1 Hbody).
    exists ((session (self st),
             observations_url station_code (current_date ls)) :: new).
    split.
    + rewrite Hnew, Hreq, <- app_assoc. reflexivity.
    + constructor; [assumption|].
      eapply Forall_impl; [|exact Hall].
      intros q (d & -> & Hd). exists d. rewrite Hself. split; [reflexivity|lia].
  - intros [= _ <-].
    exists [(session (self st),
             observations_url station_code (current_date ls))].
    split; [assumption|]. now constructor.
Qed.

(** X19: whatever the server answers and however the helper ends, every
    request it has made is a GET of the observation URL of a date from
    start_date.date() to end_date.date(), through the client's session. *)
Theorem range_requests_in_range (fuel : nat) (station_code : string)
  (start_date end_date : PyDate.datetime)
  (time_zone : option (option tzinfo)) (st st' : state)
  (o : outcome DataFrame) :
  get_station_historical_observations_range fuel station_code start_date
    end_date time_zone st = Done o st' ->
  exists new,
    requests (trace st') = requests (trace st) ++ new
    /\ Forall (fun q =>
                 exists d,
                   q = (session (self st), observations_url station_code d)
                   /\ (PyDate.toordinal (PyDate.dt_date start_date)
                       <= PyDate.toordinal d
                       <= PyDate.toordinal (PyDate.dt_date end_date))%Z)
              new.
Proof.
  unfold get_station_historical_observations_range.
  destruct (range_loop _ _ _ _ _ _) as [[dfs|e] st1|] eqn:Hloop;
    [| |discriminate];
    intros [= _ <-];
    exact (range_loop_requests _ _ _ _ _ _ _ _ Hloop).
Qed.
End RangeExtras.

(** ** What a conversion logs *)

Section LoggingExtras.
Import Pandas.
Context `{Library} `{Network}.


End LoggingExtras.

(** ** Logging set-up *)

(** X20: [initialize] (run when the package is imported) configures the
    root logger only when it has no handler yet: it then has one handler
    and the level INFO, under which the client's INFO and WARNING lines
    are enabled; a root logger that
    already has handlers is left exactly as it is, so running it again
    changes nothing. *)
Theorem initialize_idempotent (root : PyLogging.Root) :
  PyLogging.initialize (PyLogging.initialize root) = PyLogging.initialize root
  /\ (PyLogging.handlers root <> [] -> PyLogging.initialize root = root)
  /\ (PyLogging.handlers root = [] ->
      List.length (PyLogging.handlers (PyLogging.initialize root)) = 1%nat
      /\ PyLogging.LOGGER_isEnabledFor (PyLogging.initialize root)
           PyLogging.INFO = true
      /\ PyLogging.LOGGER_isEnabledFor (PyLogging.initialize root)
           PyLogging.WARNING = true).
Proof.
  unfold PyLogging.initialize, PyLogging.setup_logging, PyLogging.basicConfig.
  destruct root as [[|h hs] lvl]; cbn.
  - repeat split; try reflexivity. intros Hno. now contradiction Hno.
  - repeat split; try reflexivity; discriminate.
Qed.

(* ================================================================== *)
(** * Instances of the further properties *)

Module ExtraWitnesses.
Import Pandas SampleNet.

Lemma normalized_table_wf : wf_frame normalized_table.
Proof.
  split.
  - repeat constructor.
  - repeat constructor; simpl; intuition discriminate.
Defined.

Lemma find_record_path_usable_witness :
  exists first rest,
    PyDict.get Sample.observations_body "observations"
    = Some (JList (JObj first :: rest)).
Proof.
  apply (find_record_path_usable Sample.observations_body None "observations"
           Witnesses.observations_body_wf eq_refl).
Defined.

Lemma find_record_path_stable_witness :
  _find_record_path Sample.observations_body (Some "observations")
  = Some "observations".
Proof.
  apply (find_record_path_stable Sample.observations_body None "observations"
           Witnesses.observations_body_wf eq_refl).
Defined.

Lemma flatten_meta_keeps_order_witness :
  _flatten_meta Sample.observations_body "observations"
  = meta_entries Sample.observations_body "observations".
Proof.
  apply (proj1 (flatten_meta_keeps_order Sample.observations_body
                  "observations")).
  simpl. repeat constructor; simpl; intuition discriminate.
Defined.

Lemma set_timestamp_index_without_time_column_witness :
  @_set_timestamp_index Sample.library SampleMore.plain_table
    (Some TIME_ZONE) Sample.start
  = (Ok SampleMore.plain_table,
     after Sample.start
       (Log WARNING "No column ending with 'TimeUtc' found in DataFrame.")).
Proof.
  apply (proj1 (@set_timestamp_index_without_time_column Sample.library
                  SampleMore.plain_table (Some TIME_ZONE) Sample.start)).
  intros c [Hc|[Hc|[]]]; subst c; eexists; split; reflexivity.
Defined.



Lemma timestamp_index_order_witness :
  exists r1 r2 a zone',
    rows observations_table = [r1; r2]
    /\ ix r1 = Timestamp (Some a) zone'
    /\ (a <= 1709168400000000000)%Z.
Proof.
  destruct (rows observations_table) as [|r1 [|r2 [|r3 l]]] eqn:Hrows;
    try discriminate.
  destruct (@timestamp_index_order Sample.library normalized_table
              observations_table (Some TIME_ZONE) "observationTimeUtc" []
              Sample.start Sample.start [] [r2] r1 r2
              1709168400000000000%Z (Some TIME_ZONE)
              normalized_table_wf eq_refl eq_refl Hrows)
    as (a & zone' & Hix & Hle).
  - now left.
  - now injection Hrows as _ <-.
  - exists r1, r2, a, zone'. repeat split; assumption.
Defined.

Lemma json_to_dataframe_wf_witness : wf_frame observations_table.
Proof.
  apply (proj1 (@json_to_dataframe_wf Sample.library steady)
           (JObj Sample.observations_body) (Some "observations")
           (Some TIME_ZONE) Sample.start Sample.start observations_table).
  reflexivity.
Defined.

Lemma metadata_conflict_raises_witness :
  @_json_to_dataframe Sample.library (JObj SampleMore.conflict_dict)
    (Some "records") None Sample.start
  = (Raise ValueError, Sample.start).
Proof.
  eapply (@metadata_conflict_raises Sample.library SampleMore.conflict_dict
            (Some "records") None "records" "a").
  - reflexivity.
  - discriminate.
  - reflexivity.
  - reflexivity.
  - reflexivity.
  - simpl. now left.
  - simpl. now left.
Defined.

Lemma ragged_records_raise_witness :
  exists e,
    @_json_to_dataframe Sample.library (JObj SampleMore.ragged_body)
      None None Sample.start
    = (Raise e, Sample.start).
Proof.
  eapply (@ragged_records_raise Sample.library SampleMore.ragged_body
            None None "observations").
  - unfold PyDict.wf_dict. simpl.
    repeat constructor; simpl; intuition discriminate.
  - reflexivity.
  - discriminate.
  - reflexivity.
  - reflexivity.
  - exists (JInt 5). split; [simpl; tauto|reflexivity].
Defined.

Lemma range_retries_without_limit_witness :
  @get_station_historical_observations_range Sample.library
    SampleMore.always_busy 4 station feb28 mar01 None Sample.start
  = OutOfFuel.
Proof.
  apply (@range_retries_without_limit Sample.library SampleMore.always_busy).
  - intros tr s url. exists busy_response. split; reflexivity.
  - reflexivity.
Defined.

Lemma range_propagates_other_failures_witness :
  @get_station_historical_observations_range Sample.library
    SampleMore.unreachable 3 station feb28 mar01 (Some (Some TIME_ZONE))
    Sample.start
  = Done (Raise (RequestException "connection refused"))
      (snd (@fetch_date Sample.library SampleMore.unreachable station
              (Some TIME_ZONE) (PyDate.dt_date feb28) Sample.start)).
Proof.
  apply (proj2 (@range_propagates_other_failures Sample.library
                  SampleMore.unreachable 2 station (Some TIME_ZONE) mar01
                  {| current_date := PyDate.dt_date feb28; all_dfs := [] |}
                  Sample.start _ (RequestException "connection refused")
                  eq_refl eq_refl
                  ltac:(intros r Hr; discriminate Hr))
           feb28 eq_refl).
Defined.

Lemma limiting_served :
  exists served st',
    @range_served Sample.library limiting station (Some TIME_ZONE)
      (PyDate.dt_date mar01) (PyDate.dt_date feb28) Sample.start served st'
    /\ map fst served = [0; 1; 0]%nat.
Proof.
  eexists. eexists. split.
  - eapply range_step; [reflexivity|eapply served_now; reflexivity|].
    eapply range_step;
      [reflexivity
      |eapply served_later;
         [reflexivity|reflexivity|eapply served_now; reflexivity]|].
    eapply range_step; [reflexivity|eapply served_now; reflexivity|].
    apply range_over. reflexivity.
  - reflexivity.
Defined.

Lemma range_sleep_total_witness :
  exists fuel o st',
    @get_station_historical_observations_range Sample.library limiting
      fuel station feb28 mar01 None Sample.start = Done o st'
    /\ slept (trace st') = 5450%Z.
Proof.
  destruct limiting_served as (served & st' & Hserved & Hretries).
  destruct (@range_sleep_total Sample.library limiting station feb28 mar01
              None Sample.start st' served)
    as (fuel & o & Hrun & Hlen & Hslept).
  - reflexivity.
  - reflexivity.
  - exact Hserved.
  - exists fuel, o, st'. split; [exact Hrun|].
    rewrite Hslept.
    assert (Htotal : total_retries served = 1%nat).
    { destruct served as [|[a x] [|[b y] [|[c z] [|w l]]]]; try discriminate.
      now injection Hretries as -> -> ->. }
    rewrite Htotal, Hlen. reflexivity.
Defined.

Lemma range_overflow_at_date_max_witness :
  exists fuel st',
    @get_station_historical_observations_range Sample.library steady
      fuel station last_day last_day None Sample.start
    = Done (Raise OverflowError) st'.
Proof.
  assert (Hserved : exists served st',
            @range_served Sample.library steady station (Some TIME_ZONE)
              (PyDate.dt_date last_day) (PyDate.dt_date last_day)
              Sample.start served st').
  { eexists. eexists.
    eapply range_step; [reflexivity|eapply served_now; reflexivity|].
    apply range_over. reflexivity. }
  destruct Hserved as (served & st' & Hserved).
  destruct (@range_overflow_at_date_max Sample.library steady station
              last_day last_day None Sample.start st' served)
    as (fuel & Hrun).
  - reflexivity.
  - split; reflexivity.
  - exact Hserved.
  - now exists fuel, st'.
Defined.


Lemma range_requests_in_range_witness :
  match @get_station_historical_observations_range Sample.library limiting
          5 station feb28 mar01 None Sample.start
  with
  | Done _ st' =>
      Forall (fun q =>
                exists d,
                  q = (Sample.client.(session), observations_url station d)
                  /\ (738944 <= PyDate.toordinal d <= 738946)%Z)
        (requests (trace st'))
  | OutOfFuel => False
  end.
Proof.
  destruct (@get_station_historical_observations_range Sample.library limiting
              5 station feb28 mar01 None Sample.start)
    as [o st'|] eqn:Hrun.
  - destruct (@range_requests_in_range Sample.library limiting _ _ _ _ _ _ _
                _ Hrun) as (new & Hnew & Hall).
    rewrite Hnew. exact Hall.
  - vm_compute in Hrun. discriminate.
Defined.

Lemma initialize_idempotent_witness :
  let root := {| PyLogging.handlers := [PyLogging.StreamHandler];
                 PyLogging.root_level := PyLogging.WARNING |} in
  PyLogging.initialize root = root.
Proof.
  intros root.
  apply (proj1 (proj2 (initialize_idempotent root))). discriminate.
Defined.
End ExtraWitnesses.
